(* ===== verification/_CoqProject ===== *)
-Q . S2P
Prelude.v
Domain.v
Api.v
Route.v
Backend.v
Promise.v
UI.v
Navigation.v
Attendance.v
AttendanceProps.v
AttendanceSpec.v
Employees.v
EmployeesProps.v
Dashboard.v
Theme.v
JsDate.v
AttendanceView.v
Scenario.v
