(* ===== verification/Prelude.v ===== *)
(** * HRMS Lite: a verification development of the frontend

    HRMS Lite (src/frontend/src) is a React single-page dashboard with
    three views.  Each view keeps its own [useState] state.  It talks to a
    REST backend through the axios client of [api/api.js] and shows what
    comes back.  The development models each part as executable Rocq
    definitions and proves the properties that make it correct, and the
    properties it lacks.

    ** Parts of the program and where they are modelled

    - [Prelude.v] (this file): the JavaScript string semantics the code
      relies on: truthiness of a string ([js_truthy]), the string [||] of
      [x || fallback] ([js_or]), [String.prototype.toLowerCase] on ASCII
      ([to_lower]) and [String.prototype.includes] ([includes]).  It also
      holds a generic runner for event sequences ([run]), the hint
      database [hrms] and the shared tactics.
    - [Domain.v]: the JSON shapes the views exchange with the backend:
      [Employee.t], [AttendanceRecord.t], [Summary.t], [DashboardStats.t],
      the attendance [Status], the department list of
      [pages/Employees.jsx] and the typed response bodies.
    - [Api.v]: [api/api.js].  Each exported function ([getEmployees],
      [addEmployee], [deleteEmployee], [getAttendance], [markAttendance],
      [getAttendanceSummary], [getDashboardStats]) becomes a [Request]
      builder with its method, path, query parameters and body; axios
      settling a promise becomes [settle].
    - [Route.v]: the route table of the spec (section 6), [route],
      modelled from the spec because the backend is not in the
      repository.  Its round-trip theorems say which identifiers survive
      the trip through a URL: the code splices ids into paths without
      encoding them.
    - [Backend.v]: the backend collaborator, which is not in the
      repository.  It is an interface, the typeclass [Backend]: a state,
      a handler for each route, and the laws the spec (sections 3 and 6)
      asks of it.  The client theorems are proved against these laws.
      The reference instance [MemBackend] is modelled from the spec and
      discharges them, and the witnesses run on it.
    - [Promise.v]: an HTTP call of a promise ([Call]), the server
      answering it ([serve_call], over [Backend.exchange], which also
      models a dropped request and a lost reply), and [Promise.all] of two
      calls ([join2]), which rejects as soon as one call is rejected.
    - [UI.v]: what the primitives of [components/UI.jsx] decide: a
      banner shows for a truthy message, a [ConfirmDialog]'s buttons are
      disabled while [loading] but its [Modal]'s close button is not, a
      [StatCard] shows a skeleton while loading; the sizes of [Spinner],
      the cell widths of [LoadingRows] and what [EmptyState] shows.  The
      pages' steps use them as the guards of their controls.
    - [Attendance.v]: [pages/Attendance.jsx], the core workflow.  A
      [World] holds the page state (one field per [useState]), the server
      state, and the requests in flight.  Every [.then/.catch/.finally]
      chain is a continuation that runs when its promise settles.  [step]
      executes one event.  An event is either a user action, guarded by
      the render condition that shows its control, or a network event:
      the server handles a call, or a settled promise's continuation runs.
      The handlers produce the React state updates in program order
      ([Cmd]), which the runtime applies in order, as React batches them.
      [AttendanceProps.v] holds its theorems.  [AttendanceSpec.v] writes
      down the state machine of the spec's section 4.1 ([astep]) and
      proves that every step of the page refines it.
    - [Employees.v]: [pages/Employees.jsx], modelled the same way: the
      client-side search ([filtered]), the add modal and the delete
      dialog with the guards of [components/UI.jsx]'s [Modal] and
      [ConfirmDialog], and the roster reloads.  [EmployeesProps.v] holds
      its theorems.
    - [Dashboard.v]: [pages/Dashboard.jsx]: the mount effect's join of
      the stats and roster calls, [slice(0, 5)], the [?? 0] placeholders,
      the Recent Employees table body with its keys, avatar initials and
      animation delays, the page's links, and its theorems.
    - [JsDate.v]: the part of ECMAScript's [Date] the attendance table
      calls (not code of the repository, modelled from ECMA-262 21.4):
      time values, [MakeDay], the date time string format and
      [toLocaleDateString] with a long weekday, in a time zone of fixed
      offset.  Zeller's congruence is the reference calendar.
    - [AttendanceView.v]: the rows of the attendance table of
      [pages/Attendance.jsx]: date, weekday, badge and delay per record.
    - [Navigation.v]: the [<Routes>] of [App.jsx] and the sidebar
      [NavLink]s of [components/Layout.jsx], with React Router's path
      matching: which view a path renders and which link it highlights.
    - [Scenario.v]: the scenario of the spec's section 7, run across
      the Employees and Attendance views on one reference backend, kept
      as a regression example.
    - [Theme.v]: the theme state of [App.jsx] and
      [components/Layout.jsx], their effects in React's child-first order,
      [localStorage] and the document's [dark] class, and its theorems.

    The three pages declare the same names ([Page], [Update], [step],
    ...), so each page's definitions sit in a [Module Export] named
    after its React component ([Attendance], [Employees], [Dashboard]):
    [Attendance.step] is the step of [Attendance.jsx] wherever the
    files are imported together.

    ** What the theorems show

    The theorems for each view fall into these groups:
    - invariants of every reachable world, by induction on the reachable
      relation: at most one mark, one add and one delete in flight, each
      reflected by the flag that disables its button; the selected
      employee is on the roster; every request in flight is the one its
      handler built, and a mark's date passed the form's [required] and
      [max={today()}]; the theme class and the stored theme agree with
      the toggle;
    - the functional behaviour of every handler, on success and error
      paths, as event traces on any backend that satisfies the laws:
      what marking attendance displays and what a failed mark leaves,
      what a date filter returns, that an added employee is listed and a
      deleted one is not, what the dashboard shows on success and on
      failure;
    - the search's specification (case-insensitive substring of one of
      four fields), the refinement of the spec's route table by the
      requests of [api.js] (with the date filter the spec names, not
      the one [api.js] computes), and the theme's survival of a reload;
    - refinement: every step of the Attendance page is a transition of
      the spec's workflow machine or leaves its phase unchanged;
    - liveness: from any reachable Attendance or Employees world the
      pending requests can all settle, which leaves no spinner running
      and every button enabled;
    - termination and bounds: network events alone on the Employees view
      are bounded by a measure of its pending requests; the dashboard's
      preview never holds more than five rows, delayed by at most 200
      ms, and its React keys are distinct on the reference backend;
    - the Day column of the attendance table is the weekday of the
      record's date in every time zone; on every path that renders a
      view the sidebar highlights exactly that view's link;
    - and the behaviours the code does not guard against, proved as
      existential theorems over concrete traces on the reference
      backend: a slow response for the previously selected employee
      overwrites the records of the newly selected one; the records
      spinner stops while a load is still in flight; a deleted employee
      reappears when two roster reloads settle out of order; [App]'s
      theme state is dead.  Two more are proved for every id and every
      path, not on a trace: an id with ['#'] or ['?'] deletes the
      employee named by its prefix, and one with a slash is routed by
      its parts; a path below a view's link renders nothing while that
      link stays highlighted.

    ** Bounds and fuel

    The event runner [run] recurses structurally on the event list.  The
    drains of pending requests ([AttendanceProps.drain] and
    [EmployeesProps.emp_drain]) recurse on an explicit fuel.  Each round
    settles the oldest promise.  A mark, an add or a delete may start one
    reload when it settles, so it weighs two and a load weighs one.  The
    weight of the pending list strictly decreases each round, so fuel
    equal to that weight suffices.  The liveness theorems prove this for
    every reachable world.  The dashboard has a single promise and needs
    no fuel.  For network events alone the Employees view has the
    measure [EmployeesProps.net_measure]: three per unit of weight, plus
    one for a call not yet answered; an answer lowers it by one and a
    settlement by more than the reload it may start adds.

    The calendar theorem of [JsDate.v] holds for every year: [MakeDay]
    and Zeller's congruence are both periodic with period 400 years, and
    one period (4800 months) is checked by [vm_compute].

    ** Not modelled

    Styling classes other than the ones that carry state (the active
    link, the toggle's knob and gradient), the router's history, the
    dashboard's formatted date ([toLocaleDateString] with the [en-IN]
    locale's month names), and static text.  [Math.random] is a draw in
    [[0, 1)] given per skeleton cell.  [Date] is modelled only for the two
    string forms a record's date can take, and with an offset that does
    not change within a day.  The browser's check of
    an email input is approximated by one [@] with text on each side.  Strings are
    modelled as Rocq strings of bytes: [toLowerCase] on non-ASCII
    characters is not modelled. *)

From Stdlib Require Import Ascii.
From stdpp Require Export base list strings sets.
From Stdlib Require Export Lia.

Declare Scope hrms_scope.
Delimit Scope hrms_scope with hrms.

Create HintDb hrms.
Create Rewrite HintDb hrms.

(** ** JavaScript string semantics *)

(** A string is truthy exactly when it is not empty: [if (id)],
    [date ? ... : ...], [filterDate && ...]. *)
Definition js_truthy (s : string) : bool :=
  match s with
  | EmptyString => false
  | String _ _ => true
  end.

(** [a || b] on strings: [a] when it is truthy, otherwise [b]. *)
Definition js_or (a b : string) : string :=
  if js_truthy a then a else b.

Notation "a '||ₛ' b" := (js_or a b) (at level 50, left associativity) : hrms_scope.
Open Scope hrms_scope.

(** [toLowerCase] on one ASCII character: A..Z become a..z. *)
Definition ascii_lower (c : ascii) : ascii :=
  let n := nat_of_ascii c in
  if (65 <=? n) && (n <=? 90) then ascii_of_nat (n + 32) else c.

Fixpoint to_lower (s : string) : string :=
  match s with
  | EmptyString => EmptyString
  | String c s' => String (ascii_lower c) (to_lower s')
  end.

(** [toUpperCase] on ASCII: a..z become A..Z. *)
Definition ascii_upper (c : ascii) : ascii :=
  let n := nat_of_ascii c in
  if (97 <=? n) && (n <=? 122) then ascii_of_nat (n - 32) else c.

Fixpoint to_upper (s : string) : string :=
  match s with
  | EmptyString => EmptyString
  | String c s' => String (ascii_upper c) (to_upper s')
  end.

(** [s.startsWith(q)]. *)
Fixpoint starts_with (s q : string) : bool :=
  match q, s with
  | EmptyString, _ => true
  | String c q', String d s' => Ascii.eqb c d && starts_with s' q'
  | String _ _, EmptyString => false
  end.

(** [s.includes(q)]: [q] occurs in [s] at some position. *)
Fixpoint includes (s q : string) : bool :=
  starts_with s q ||
  match s with
  | EmptyString => false
  | String _ s' => includes s' q
  end.

(** ** Running a sequence of events through a step function *)

Fixpoint run {W E : Type} (step : W -> E -> option W) (w : W) (es : list E)
    : option W :=
  match es with
  | [] => Some w
  | e :: es' => match step w e with
                | Some w' => run step w' es'
                | None => None
                end
  end.

(** The number of elements of a list that satisfy a test. *)
Definition count_if {A : Type} (p : A -> bool) (l : list A) : nat :=
  length (filter (fun x => p x = true) l).

(** The double-quote character, which the success messages of the Employees view put around a name. *)
Definition dquote : string := String (ascii_of_nat 34) EmptyString.

(** ** Lemmas *)

Lemma js_truthy_false_iff s : js_truthy s = false <-> s = "".
Proof. destruct s; simpl; split; congruence. Qed.

Lemma js_truthy_true_iff s : js_truthy s = true <-> s <> "".
Proof. destruct s; simpl; split; congruence. Qed.

Lemma js_or_truthy a b : js_truthy a = true -> js_or a b = a.
Proof. unfold js_or. by intros ->. Qed.

Lemma js_or_empty b : js_or "" b = b.
Proof. reflexivity. Qed.

#[export] Hint Rewrite js_or_empty : hrms.

(** [String.append] does not unfold by [simpl]: its two equations. *)
Lemma string_app_nil_l (b : string) : "" +:+ b = b.
Proof. reflexivity. Qed.

Lemma string_app_cons c (a b : string) : String c a +:+ b = String c (a +:+ b).
Proof. reflexivity. Qed.

#[export] Hint Rewrite string_app_nil_l string_app_cons : hrms.

Lemma string_app_assoc (a b c : string) : (a +:+ b) +:+ c = a +:+ (b +:+ c).
Proof. induction a; [done|]. rewrite !string_app_cons. congruence. Qed.

Lemma string_app_nil_r (a : string) : a +:+ "" = a.
Proof. induction a; [done|]. rewrite string_app_cons. congruence. Qed.

#[export] Hint Rewrite string_app_assoc string_app_nil_r : hrms.

Lemma starts_with_spec s q :
  starts_with s q = true <-> exists r, s = q +:+ r.
Proof.
  revert s. induction q as [|c q IH]; intros [|d s]; simpl.
  - split; eauto.
  - split; eauto.
  - split; [discriminate|]. intros [r Hr]. discriminate.
  - rewrite andb_true_iff, IH. split.
    + intros [Hc [r ->]]. apply Ascii.eqb_eq in Hc as ->. eauto.
    + intros [r Hr]. rewrite string_app_cons in Hr. injection Hr as -> ->.
      rewrite Ascii.eqb_refl. eauto.
Qed.

Lemma includes_unfold s q :
  includes s q =
  starts_with s q ||
  match s with EmptyString => false | String _ s' => includes s' q end.
Proof. destruct s; reflexivity. Qed.

Lemma includes_spec s q :
  includes s q = true <-> exists a b, s = a +:+ q +:+ b.
Proof.
  induction s as [|c s IH];
    rewrite includes_unfold, orb_true_iff, starts_with_spec; cbv beta iota.
  - split.
    + intros [[r Hr] | ?]; [|discriminate]. exists "", r. by rewrite string_app_nil_l.
    + intros [[|x a] [b Hb]]; [left; eauto | discriminate].
  - rewrite IH. split.
    + intros [[r Hr] | [a [b Hab]]].
      * exists "", r. by rewrite string_app_nil_l.
      * exists (String c a), b. rewrite string_app_cons. by rewrite Hab.
    + intros [[|x a] [b Hab]].
      * left. eauto.
      * right. rewrite string_app_cons in Hab. injection Hab as -> ->. eauto.
Qed.

Lemma includes_empty s : includes s "" = true.
Proof. destruct s; reflexivity. Qed.

Lemma includes_refl s : includes s s = true.
Proof. apply includes_spec. exists "", "". simpl. by rewrite string_app_nil_r. Qed.

(** A string contains every substring of a string it contains. *)
Lemma includes_trans s q p :
  includes s q = true -> includes q p = true -> includes s p = true.
Proof.
  rewrite !includes_spec. intros [a [b ->]] [c [d ->]].
  exists (a +:+ c), (d +:+ b). by autorewrite with hrms.
Qed.

Lemma to_lower_app a b : to_lower (a +:+ b) = to_lower a +:+ to_lower b.
Proof. induction a as [|c a IH]; [done|]. rewrite string_app_cons. simpl. by rewrite IH. Qed.

Lemma ascii_lower_idem c : ascii_lower (ascii_lower c) = ascii_lower c.
Proof. destruct c as [[] [] [] [] [] [] [] []]; reflexivity. Qed.

Lemma to_lower_idem s : to_lower (to_lower s) = to_lower s.
Proof. induction s; simpl; [done|]. by rewrite ascii_lower_idem, IHs. Qed.

#[export] Hint Rewrite to_lower_app to_lower_idem : hrms.

(** Lower-casing preserves containment. *)
Lemma includes_to_lower s q :
  includes s q = true -> includes (to_lower s) (to_lower q) = true.
Proof.
  rewrite !includes_spec. intros [a [b ->]].
  exists (to_lower a), (to_lower b). by autorewrite with hrms.
Qed.

Lemma run_app {W E : Type} (step : W -> E -> option W) w es1 es2 :
  run step w (es1 ++ es2) =
  match run step w es1 with Some w' => run step w' es2 | None => None end.
Proof.
  revert w. induction es1 as [|e es1 IH]; intros w; simpl; [done|].
  destruct (step w e); [apply IH | done].
Qed.

Lemma run_cons {W E : Type} (step : W -> E -> option W) w e es w' :
  step w e = Some w' -> run step w (e :: es) = run step w' es.
Proof. simpl. by intros ->. Qed.

(** A property every step preserves holds after any run. *)
Lemma run_preserves {W E : Type} (step : W -> E -> option W) (P : W -> Prop) w es w' :
  (forall w e w', P w -> step w e = Some w' -> P w') ->
  P w -> run step w es = Some w' -> P w'.
Proof.
  intros Hstep. revert w. induction es as [|e es IH]; intros w Hw; simpl; [congruence|].
  destruct (step w e) as [w1|] eqn:Hs; [|done]. apply IH. by apply (Hstep w e).
Qed.

Lemma count_if_app {A : Type} (p : A -> bool) l1 l2 :
  count_if p (l1 ++ l2) = count_if p l1 + count_if p l2.
Proof. unfold count_if. by rewrite filter_app, length_app. Qed.

Lemma count_if_cons {A : Type} (p : A -> bool) x l :
  count_if p (x :: l) = (if p x then 1 else 0) + count_if p l.
Proof. unfold count_if. simpl. rewrite filter_cons. destruct (p x); simpl; done. Qed.

#[export] Hint Rewrite @count_if_app @count_if_cons : hrms.

(** A filter that every element passes keeps the list. *)
Lemma filter_all {A : Type} (P : A -> Prop) `{!forall x, Decision (P x)} (l : list A) :
  (forall x, x ∈ l -> P x) -> filter P l = l.
Proof.
  induction l as [|x l IH]; intros Hl; [done|]. rewrite filter_cons.
  rewrite decide_True by (apply Hl; left). f_equal. apply IH. intros y Hy. apply Hl. by right.
Qed.

Lemma count_if_nil {A : Type} (p : A -> bool) : count_if p [] = 0.
Proof. reflexivity. Qed.

#[export] Hint Rewrite @count_if_nil : hrms.

(** Removing the element at [n] removes one count when it satisfies [p]. *)
Lemma count_if_delete {A : Type} (p : A -> bool) (l : list A) n x :
  l !! n = Some x -> count_if p l = (if p x then 1 else 0) + count_if p (delete n l).
Proof.
  intros Hn. rewrite <- (take_drop_middle l n x Hn) at 1.
  rewrite delete_take_drop. autorewrite with hrms. lia.
Qed.

Lemma sum_list_with_delete {A : Type} (f : A -> nat) (l : list A) n x :
  l !! n = Some x -> sum_list_with f l = f x + sum_list_with f (delete n l).
Proof.
  intros Hn. rewrite <- (take_drop_middle l n x Hn) at 1.
  rewrite delete_take_drop, !sum_list_with_app. simpl. lia.
Qed.

Lemma sum_list_with_insert {A : Type} (f : A -> nat) (l : list A) n x y :
  l !! n = Some x -> sum_list_with f (<[n := y]> l) + f x = sum_list_with f l + f y.
Proof.
  intros Hn. pose proof (lookup_lt_Some _ _ _ Hn) as Hlt.
  rewrite <- (take_drop_middle l n x Hn).
  rewrite insert_app_r_alt by (rewrite length_take; lia).
  rewrite length_take. replace (n - min n (length l)) with 0 by lia.
  simpl. rewrite !sum_list_with_app. simpl. lia.
Qed.

(** Replacing the element at [n] by one [p] classifies the same keeps the count. *)
Lemma count_if_insert {A : Type} (p : A -> bool) (l : list A) n x y :
  l !! n = Some x -> p y = p x -> count_if p (<[n := y]> l) = count_if p l.
Proof.
  intros Hn Hy. pose proof (lookup_lt_Some _ _ _ Hn) as Hlt.
  rewrite <- (take_drop_middle l n x Hn).
  rewrite insert_app_r_alt by (rewrite length_take; lia).
  rewrite length_take. replace (n - min n (length l)) with 0 by lia.
  simpl. autorewrite with hrms. by rewrite Hy.
Qed.

(** ** Tactics *)

(** Split the boolean conjunctions and disjunctions of the hypotheses. *)
Ltac bool_hyps :=
  repeat match goal with
  | H : (_ && _) = true |- _ => apply andb_true_iff in H as [? ?]
  | H : (_ || _) = false |- _ => apply orb_false_iff in H as [? ?]
  | H : negb _ = true |- _ => apply negb_true_iff in H
  | H : negb _ = false |- _ => apply negb_false_iff in H
  end.

(** Case on the [if]s and [match]es of the goal, one at a time, keeping
    the equation. *)
Ltac case_goal :=
  match goal with
  | |- context [if ?b then _ else _] => destruct b eqn:?
  | |- context [match ?x with _ => _ end] => destruct x eqn:?
  end.

(** Take the [if] guard of a step that succeeded, and its result. *)
Ltac take_guard Hs :=
  match type of Hs with
  | (if ?b then _ else _) = Some _ =>
      let G := fresh "G" in destruct b eqn:G; [|discriminate]; bool_hyps
  end;
  injection Hs as <-.
