(* ===== verification/Domain.v ===== *)
(** * The data the views exchange with the backend

    The JSON shapes of the spec's data model (section 3), as the views read
    them: [emp.employee_id], [rec.date], [summary.total_days],
    [stats?.present_today].  Each shape is a record in a module of its
    own, so that the fields keep the names of the JSON keys.  The
    attendance status is the enumeration of the status buttons of
    [pages/Attendance.jsx].  [Data] and [Response] are the bodies that
    an HTTP reply can carry. *)

From S2P Require Import Prelude.

(** The two status buttons, [["Present", "Absent"].map(...)]. *)
Inductive Status := Present | Absent.

#[export] Instance Status_eq_dec : EqDecision Status.
Proof. solve_decision. Defined.

(** The string the code interpolates, [`${form.status}`]. *)
Definition status_str (s : Status) : string :=
  match s with
  | Present => "Present"
  | Absent => "Absent"
  end.

Module Employee.
Record t := mk {
  employee_id : string;
  full_name : string;
  email : string;
  department : string
}.
End Employee.

Module AttendanceRecord.
Record t := mk {
  id : nat;
  employee_id : string;
  date : string;
  status : Status
}.
End AttendanceRecord.

Module Summary.
Record t := mk {
  total_days : nat;
  present_days : nat;
  absent_days : nat
}.
End Summary.

Module DashboardStats.
Record t := mk {
  total_employees : nat;
  departments : nat;
  present_today : nat;
  absent_today : nat
}.
End DashboardStats.

(** The body of [markAttendance]: [{ employee_id: selectedEmp, ...form }]. *)
Module MarkPayload.
Record t := mk {
  employee_id : string;
  date : string;
  status : Status
}.
End MarkPayload.

#[export] Instance Employee_eq_dec : EqDecision Employee.t.
Proof. solve_decision. Defined.
#[export] Instance AttendanceRecord_eq_dec : EqDecision AttendanceRecord.t.
Proof. solve_decision. Defined.
#[export] Instance Summary_eq_dec : EqDecision Summary.t.
Proof. solve_decision. Defined.
#[export] Instance DashboardStats_eq_dec : EqDecision DashboardStats.t.
Proof. solve_decision. Defined.
#[export] Instance MarkPayload_eq_dec : EqDecision MarkPayload.t.
Proof. solve_decision. Defined.

(** [DEPARTMENTS] of [pages/Employees.jsx]. *)
Definition DEPARTMENTS : list string :=
  ["Engineering"; "Design"; "Product"; "Marketing";
   "Sales"; "Finance"; "HR"; "Operations"; "Legal"; "Support"].

(** The body of a successful reply, [r.data]. *)
Inductive Data :=
| DEmployees (l : list Employee.t)
| DEmployee (e : Employee.t)
| DRecords (l : list AttendanceRecord.t)
| DRecord (r : AttendanceRecord.t)
| DSummary (s : Summary.t)
| DStats (s : DashboardStats.t)
| DNone.

(** An HTTP reply: a 2xx status with its body, or an error status whose
    JSON body may carry a [detail] string. *)
Inductive Response :=
| RespOk (d : Data)
| RespErr (code : nat) (detail : option string).

(** The bodies each view reads, [r.data] at the type the view expects. *)
Definition as_employees (d : Data) : option (list Employee.t) :=
  match d with DEmployees l => Some l | _ => None end.

Definition as_records (d : Data) : option (list AttendanceRecord.t) :=
  match d with DRecords l => Some l | _ => None end.

Definition as_summary (d : Data) : option Summary.t :=
  match d with DSummary s => Some s | _ => None end.

Definition as_stats (d : Data) : option DashboardStats.t :=
  match d with DStats s => Some s | _ => None end.

(** The ids of a roster, [employees.map((e) => e.employee_id)]. *)
Definition roster_ids (l : list Employee.t) : list string :=
  map Employee.employee_id l.

(** [employees.find((e) => e.employee_id === id)]. *)
Definition find_employee (l : list Employee.t) (id : string) : option Employee.t :=
  find (fun e => String.eqb (Employee.employee_id e) id) l.
