(* ===== verification/Api.v ===== *)
(** * The HTTP client, [src/frontend/src/api/api.js]

    [api.js] creates one axios instance and exports one function per
    backend operation.  Each function becomes a [Request] builder here:
    method, path relative to [baseURL], query parameters, JSON body.  How
    an axios promise settles ([Transport], [Outcome], [settle]) and how a
    page reads the [detail] of a rejection ([error_detail]) close the
    file.  The backend's route table is in [Route.v]. *)

From S2P Require Import Prelude Domain.

Inductive Method := GET | POST | DELETE.

#[export] Instance Method_eq_dec : EqDecision Method.
Proof. solve_decision. Defined.

(** The JSON body of a request. *)
Inductive Body :=
| NoBody
| JsonEmployee (e : Employee.t)
| JsonMark (p : MarkPayload.t).

(** The request an axios instance sends for [api.get(url, config)],
    [api.post(url, data)] or [api.delete(url)]: method, path relative
    to the instance's [baseURL], query parameters and JSON body. *)
Record Request := mkRequest {
  method : Method;
  url : string;
  params : list (string * string);
  body : Body
}.

(** The instance [axios.create] returns: its [baseURL] and headers. *)
Record AxiosInstance := mkAxios {
  baseURL : string;
  headers : list (string * string)
}.

(** [const api = axios.create({ baseURL: import.meta.env.VITE_API_URL ||
    "http://localhost:8000", headers: { "Content-Type": "application/json" } })];
    an unset variable is the empty string here. *)
Definition api (env : string) : AxiosInstance :=
  mkAxios (js_or env "http://localhost:8000") [("Content-Type", "application/json")].

(** The URL axios requests: the instance's [baseURL] followed by the path. *)
Definition full_url (a : AxiosInstance) (r : Request) : string := baseURL a +:+ url r.

(** ** The exported functions of [api.js] *)

Definition getEmployees : Request := mkRequest GET "/employees/" [] NoBody.

Definition addEmployee (data : Employee.t) : Request :=
  mkRequest POST "/employees/" [] (JsonEmployee data).

Definition deleteEmployee (id : string) : Request :=
  mkRequest DELETE ("/employees/" +:+ id) [] NoBody.

(** [{ params: date ? { date } : {} }]: [date] is a string or [undefined]. *)
Definition attendance_params (date : option string) : list (string * string) :=
  match date with
  | Some d => if js_truthy d then [("date", d)] else []
  | None => []
  end.

Definition getAttendance (empId : string) (date : option string) : Request :=
  mkRequest GET ("/attendance/" +:+ empId) (attendance_params date) NoBody.

Definition markAttendance (data : MarkPayload.t) : Request :=
  mkRequest POST "/attendance/" [] (JsonMark data).

Definition getAttendanceSummary (empId : string) : Request :=
  mkRequest GET ("/attendance/summary/" +:+ empId) [] NoBody.

Definition getDashboardStats : Request := mkRequest GET "/dashboard/stats" [] NoBody.

(** ** How an axios promise settles *)

(** How a request travels: its reply arrives, the request never reaches the
    server, or the server handles it and the reply is lost. *)
Inductive Transport := Delivered | Dropped | LostReply.

(** A settled axios promise: fulfilled with [r.data], or rejected with
    [err.response] (a status and an optional [detail]) when a reply came
    back, and with no response on a network failure. *)
Inductive Outcome :=
| Fulfilled (d : Data)
| Rejected (response : option (nat * option string)).

(** axios rejects every status outside 2xx. *)
Definition settle (r : Response) : Outcome :=
  match r with
  | RespOk d => Fulfilled d
  | RespErr code detail => Rejected (Some (code, detail))
  end.

(** [err.response?.data?.detail || fallback]. *)
Definition error_detail (response : option (nat * option string)) (fallback : string)
    : string :=
  match response with
  | Some (_, Some d) => js_or d fallback
  | _ => fallback
  end.
