(* ===== verification/Route.v ===== *)
(** * The backend's route table and the URL round trip

    [route] is the backend's route table (spec section 6), modelled from
    the spec because the backend is not in the repository.  It reads the
    path the way a URL parser does: it cuts it at the first ['?'] or
    ['#'] and splits it at ['/'].  [ApiCall] gathers the exported
    functions of [api.js] as one type, with [endpoint_of] the endpoint
    the spec's table names for each.  The round-trip theorem says that
    every request the client builds reaches that endpoint, provided the
    ids spliced into the path are URL-safe; the counterexamples show
    what happens otherwise, since [api.js] does not encode ids. *)

From Stdlib Require Import Ascii.
From S2P Require Import Prelude Domain Api.

(** ** The route table of the backend (spec section 6) *)

Inductive Endpoint :=
| EListEmployees
| EAddEmployee (e : Employee.t)
| EDeleteEmployee (id : string)
| EListAttendance (empId : string) (date : option string)
| EMark (p : MarkPayload.t)
| ESummary (empId : string)
| EStats.

#[export] Instance Endpoint_eq_dec : EqDecision Endpoint.
Proof. solve_decision. Defined.

Local Open Scope char_scope.

(** The path of a URL ends at the query string or the fragment. *)
Definition path_end (c : ascii) : bool := Ascii.eqb c "?" || Ascii.eqb c "#".

Fixpoint path_of (s : string) : string :=
  match s with
  | EmptyString => EmptyString
  | String c s' => if path_end c then EmptyString else String c (path_of s')
  end.

(** The segments of a path: ["/attendance/E1"] is [[""; "attendance"; "E1"]]. *)
Fixpoint segments (s : string) : list string :=
  match s with
  | EmptyString => [EmptyString]
  | String c s' =>
      if Ascii.eqb c "/" then EmptyString :: segments s'
      else match segments s' with
           | [] => [String c EmptyString]
           | h :: t => String c h :: t
           end
  end.

Local Close Scope char_scope.

(** The [date] query parameter, read the way the server reads it. *)
Definition query_date (ps : list (string * string)) : option string :=
  match find (fun kv => String.eqb kv.1 "date") ps with
  | Some kv => Some kv.2
  | None => None
  end.

Definition route (r : Request) : option Endpoint :=
  match method r, segments (path_of (url r)), body r with
  | GET, [s0; a; b], _ =>
      if js_truthy s0 then None
      else if String.eqb a "employees" && negb (js_truthy b) then Some EListEmployees
      else if String.eqb a "attendance" && js_truthy b
      then Some (EListAttendance b (query_date (params r)))
      else if String.eqb a "dashboard" && String.eqb b "stats" then Some EStats
      else None
  | GET, [s0; a; b; c], _ =>
      if negb (js_truthy s0) && String.eqb a "attendance" && String.eqb b "summary"
         && js_truthy c
      then Some (ESummary c) else None
  | POST, [s0; a; b], JsonEmployee e =>
      if negb (js_truthy s0) && String.eqb a "employees" && negb (js_truthy b)
      then Some (EAddEmployee e) else None
  | POST, [s0; a; b], JsonMark p =>
      if negb (js_truthy s0) && String.eqb a "attendance" && negb (js_truthy b)
      then Some (EMark p) else None
  | DELETE, [s0; a; b], _ =>
      if negb (js_truthy s0) && String.eqb a "employees" && js_truthy b
      then Some (EDeleteEmployee b) else None
  | _, _, _ => None
  end.

(** An id survives being spliced into a path: it is not empty, it has no
    separator (['/']), no query or fragment start (['?'], ['#']), no
    escape (['%'], which the server decodes), and it is not a dot
    segment, which URL resolution removes. *)
Definition url_char_ok (c : ascii) : bool :=
  negb (Ascii.eqb c "/"%char || path_end c || Ascii.eqb c "%"%char).

Fixpoint all_chars (p : ascii -> bool) (s : string) : bool :=
  match s with
  | EmptyString => true
  | String c s' => p c && all_chars p s'
  end.

Definition url_safe (id : string) : bool :=
  js_truthy id && all_chars url_char_ok id
  && negb (String.eqb id ".") && negb (String.eqb id "..").

(** ** The interface of [api.js] as one type *)

Inductive ApiCall :=
| CGetEmployees
| CAddEmployee (data : Employee.t)
| CDeleteEmployee (id : string)
| CGetAttendance (empId : string) (date : option string)
| CMarkAttendance (data : MarkPayload.t)
| CGetAttendanceSummary (empId : string)
| CGetDashboardStats.

Definition request_of (c : ApiCall) : Request :=
  match c with
  | CGetEmployees => getEmployees
  | CAddEmployee d => addEmployee d
  | CDeleteEmployee id => deleteEmployee id
  | CGetAttendance e d => getAttendance e d
  | CMarkAttendance d => markAttendance d
  | CGetAttendanceSummary e => getAttendanceSummary e
  | CGetDashboardStats => getDashboardStats
  end.

(** The filter the spec's [GET /attendance/{id}?date=] reads: a date
    when the caller gives a non-empty one, none otherwise (the page passes
    [filterDate || undefined]). *)
Definition date_filter (d : option string) : option string :=
  match d with
  | Some x => if js_truthy x then Some x else None
  | None => None
  end.

(** The endpoint each function is meant to reach: the spec's table. *)
Definition endpoint_of (c : ApiCall) : Endpoint :=
  match c with
  | CGetEmployees => EListEmployees
  | CAddEmployee d => EAddEmployee d
  | CDeleteEmployee id => EDeleteEmployee id
  | CGetAttendance e d => EListAttendance e (date_filter d)
  | CMarkAttendance d => EMark d
  | CGetAttendanceSummary e => ESummary e
  | CGetDashboardStats => EStats
  end.

(** The ids a call splices into its path. *)
Definition path_ids (c : ApiCall) : list string :=
  match c with
  | CDeleteEmployee id | CGetAttendance id _ | CGetAttendanceSummary id => [id]
  | _ => []
  end.

(** ** Round trips through the URL *)

Lemma url_char_ok_inv c :
  url_char_ok c = true -> Ascii.eqb c "/"%char = false /\ path_end c = false.
Proof. unfold url_char_ok. rewrite negb_true_iff, !orb_false_iff. tauto. Qed.

Lemma all_chars_path_of (id : string) :
  all_chars url_char_ok id = true -> path_of id = id.
Proof.
  induction id as [|c id IH]; simpl; [done|]. intros Hc. bool_hyps.
  destruct (url_char_ok_inv c) as [_ ->]; [done|]. by rewrite IH.
Qed.

Lemma all_chars_segments (id : string) :
  js_truthy id = true -> all_chars url_char_ok id = true -> segments id = [id].
Proof.
  induction id as [|c id IH]; simpl; [done|]. intros _ Hc. bool_hyps.
  destruct (url_char_ok_inv c) as [-> _]; [done|].
  destruct id as [|d id']; [done|]. by rewrite IH.
Qed.

Lemma url_safe_parts (id : string) :
  url_safe id = true ->
  js_truthy id = true /\ all_chars url_char_ok id = true.
Proof. unfold url_safe. intros H. bool_hyps. done. Qed.

Lemma url_char_ok_path_end c : url_char_ok c = true -> path_end c = false.
Proof. intros H. by apply url_char_ok_inv in H as [_ ?]. Qed.

(** A URL-safe prefix passes through the cut at ['?'] and ['#']. *)
Lemma path_of_app (a s : string) :
  all_chars url_char_ok a = true -> path_of (a +:+ s) = a +:+ path_of s.
Proof.
  induction a as [|c a IH]; simpl; [done|]. intros Hc. bool_hyps.
  rewrite (url_char_ok_path_end c), IH; done.
Qed.

Lemma path_of_cut (c : ascii) (s : string) : path_end c = true -> path_of (String c s) = "".
Proof. simpl. by intros ->. Qed.

(** A slash after a URL-safe prefix starts a new segment. *)
Lemma segments_app_slash (a s : string) :
  all_chars url_char_ok a = true -> segments (a +:+ String "/" s) = a :: segments s.
Proof.
  induction a as [|c a IH]; simpl; [done|]. intros Hc. bool_hyps.
  destruct (url_char_ok_inv c) as [-> _]; [done|]. by rewrite IH.
Qed.

Lemma query_date_attendance_params d : query_date (attendance_params d) = date_filter d.
Proof. destruct d as [x|]; simpl; [by destruct (js_truthy x)|done]. Qed.

(** The path an id-carrying function builds, cut and split by the server. *)
Ltac route_path Hsafe :=
  apply url_safe_parts in Hsafe as [Ht Hc];
  unfold route; simpl; autorewrite with hrms; simpl;
  rewrite (all_chars_path_of _ Hc), (all_chars_segments _ Ht Hc), Ht; reflexivity.

Lemma route_getAttendance id d :
  url_safe id = true ->
  route (getAttendance id d) = Some (EListAttendance id (query_date (attendance_params d))).
Proof. intros Hs. route_path Hs. Qed.

Lemma route_getAttendanceSummary id :
  url_safe id = true -> route (getAttendanceSummary id) = Some (ESummary id).
Proof. intros Hs. route_path Hs. Qed.

Lemma route_deleteEmployee id :
  url_safe id = true -> route (deleteEmployee id) = Some (EDeleteEmployee id).
Proof. intros Hs. route_path Hs. Qed.

Lemma route_markAttendance p : route (markAttendance p) = Some (EMark p).
Proof. reflexivity. Qed.

Lemma route_addEmployee e : route (addEmployee e) = Some (EAddEmployee e).
Proof. reflexivity. Qed.

Lemma route_getEmployees : route getEmployees = Some EListEmployees.
Proof. reflexivity. Qed.

Lemma route_getDashboardStats : route getDashboardStats = Some EStats.
Proof. reflexivity. Qed.

(** C10: every function of [api.js], called with URL-safe ids, sends a
    request that the backend's route table maps to the endpoint the spec
    names for it, with the same ids and the same date filter. *)
Theorem route_request_of (c : ApiCall) :
  forallb url_safe (path_ids c) = true ->
  route (request_of c) = Some (endpoint_of c).
Proof.
  destruct c as [|d|id|e dt|d|e|]; simpl; intros Hs; rewrite ?andb_true_r in Hs;
    try reflexivity.
  - by apply route_deleteEmployee.
  - rewrite <- query_date_attendance_params. by apply route_getAttendance.
  - by apply route_getAttendanceSummary.
Qed.

(** ** What an unsafe id does *)

(** C11: [deleteEmployee] splices the id into the URL unencoded, so for
    every id that has a fragment mark or a query mark after a URL-safe
    prefix [a], the browser cuts the URL there and the server deletes
    employee [a], not the employee whose id was passed. *)
Theorem delete_fragment_misroutes (a b : string) (c : ascii) :
  path_end c = true -> url_safe a = true ->
  route (deleteEmployee (a +:+ String c b)) = Some (EDeleteEmployee a).
Proof.
  intros Hc Hs. apply url_safe_parts in Hs as [Ht Ha].
  unfold route; simpl; autorewrite with hrms.
  rewrite (path_of_app _ _ Ha), (path_of_cut _ _ Hc), string_app_nil_r.
  by rewrite (all_chars_segments _ Ht Ha), Ht.
Qed.

(** C12: for every id made of two URL-safe parts around a slash, the
    request is routed by the parts: the employee cannot be deleted (no
    endpoint matches), and the records of ["a/b"] are read from the
    summary of [b] when [a] is ["summary"], from no endpoint otherwise. *)
Theorem slash_ids_misroute (a b : string) (d : option string) :
  url_safe a = true -> url_safe b = true ->
  route (deleteEmployee (a +:+ "/" +:+ b)) = None /\
  route (getAttendance (a +:+ "/" +:+ b) d) =
    (if String.eqb a "summary" then Some (ESummary b) else None).
Proof.
  intros Ha Hb. apply url_safe_parts in Ha as [Hta Ha], Hb as [Htb Hb].
  unfold route; simpl; autorewrite with hrms.
  rewrite (path_of_app _ _ Ha); simpl; rewrite (all_chars_path_of _ Hb).
  rewrite (segments_app_slash _ _ Ha), (all_chars_segments _ Htb Hb), Htb.
  by destruct (String.eqb a "summary").
Qed.

Lemma delete_fragment_misroutes_witness :
  route (deleteEmployee ("EMP001" +:+ String "#" "old")) = Some (EDeleteEmployee "EMP001").
Proof. apply delete_fragment_misroutes; vm_compute; reflexivity. Defined.

Lemma slash_ids_misroute_witness :
  route (deleteEmployee ("summary" +:+ "/" +:+ "EMP001")) = None /\
  route (getAttendance ("summary" +:+ "/" +:+ "EMP001") None) = Some (ESummary "EMP001").
Proof. apply (slash_ids_misroute "summary" "EMP001" None); vm_compute; reflexivity. Defined.

Lemma route_request_of_witness :
  route (request_of (CGetAttendance "EMP001" (Some "2024-01-09"))) =
  Some (endpoint_of (CGetAttendance "EMP001" (Some "2024-01-09"))).
Proof. apply route_request_of. vm_compute. reflexivity. Defined.

Example url_safe_sample :
  url_safe "EMP001" = true /\ url_safe "EMP001#old" = false /\ url_safe ".." = false.
Proof. vm_compute. auto. Qed.

(** [date || undefined] then [date ? { date } : {}]: the server sees the
    date exactly when it is not empty. *)
Lemma query_date_params_or (d : string) :
  query_date (attendance_params (if js_truthy d then Some d else None)) =
  if js_truthy d then Some d else None.
Proof. by destruct d. Qed.
