(* ===== verification/Backend.v ===== *)
(** * The backend collaborator, as an interface with laws

    The backend is not part of the repository.  The spec describes it as
    an external collaborator: it owns the data (section 3), serves the
    routes of section 6, and keeps attendance records unique per
    (employee, date), with summaries consistent with the records.  The
    typeclass [Backend] is its interface: a state and a handler per
    endpoint.  [BackendLaws] states what the views rely on.  The view
    theorems are proved against these laws, for any backend.  [MemBackend]
    is a reference instance modelled from the spec: an in-memory store
    that discharges the laws, on which the witnesses run. *)

From S2P Require Import Prelude Domain Api Route.

(** The counts of a summary, computed from an employee's records. *)
Definition is_present (r : AttendanceRecord.t) : bool :=
  bool_decide (AttendanceRecord.status r = Present).

Definition is_absent (r : AttendanceRecord.t) : bool :=
  bool_decide (AttendanceRecord.status r = Absent).

Definition summarize (rs : list AttendanceRecord.t) : Summary.t :=
  Summary.mk (length rs) (count_if is_present rs) (count_if is_absent rs).

Class Backend := {
  bstate : Type;
  handle : bstate -> Endpoint -> bstate * Response
}.

(** A request reaches its route's handler, or a 404 when no route
    matches. *)
Definition serve `{Backend} (st : bstate) (r : Request) : bstate * Response :=
  match route r with
  | Some ep => handle st ep
  | None => (st, RespErr 404 (Some "Not Found"))
  end.

(** One request over the network: the server state after it, and how the
    client's promise settles. *)
Definition exchange `{Backend} (st : bstate) (r : Request) (t : Transport)
    : bstate * Outcome :=
  match t with
  | Delivered => ((serve st r).1, settle (serve st r).2)
  | Dropped => (st, Rejected None)
  | LostReply => ((serve st r).1, Rejected None)
  end.

(** The body each endpoint answers with. *)
Definition data_fits (ep : Endpoint) (d : Data) : bool :=
  match ep, d with
  | EListEmployees, DEmployees _ | EAddEmployee _, DEmployee _
  | EDeleteEmployee _, DNone | EListAttendance _ _, DRecords _
  | EMark _, DRecord _ | ESummary _, DSummary _ | EStats, DStats _ => true
  | _, _ => false
  end.

Definition is_read (ep : Endpoint) : bool :=
  match ep with
  | EListEmployees | EListAttendance _ _ | ESummary _ | EStats => true
  | _ => false
  end.

Definition date_matches (dt : option string) (r : AttendanceRecord.t) : bool :=
  match dt with
  | Some x => String.eqb (AttendanceRecord.date r) x
  | None => true
  end.

Class BackendLaws `{Backend} := {
  (** Replies have the shape the endpoint promises. *)
  handle_typed st ep st' d :
    handle st ep = (st', RespOk d) -> data_fits ep d = true;
  (** Reads change nothing. *)
  handle_read_pure st ep : is_read ep = true -> (handle st ep).1 = st;
  (** A record listing holds the employee's records, on the date asked. *)
  list_attendance_scoped st e dt rs :
    (handle st (EListAttendance e dt)).2 = RespOk (DRecords rs) ->
    Forall (fun r => AttendanceRecord.employee_id r = e /\ date_matches dt r = true) rs;
  (** A listing on a date is the unfiltered listing restricted to it. *)
  list_attendance_filter st e x rs :
    (handle st (EListAttendance e None)).2 = RespOk (DRecords rs) ->
    (handle st (EListAttendance e (Some x))).2 =
      RespOk (DRecords (filter (fun r => date_matches (Some x) r = true) rs));
  (** A recorded mark is listed afterwards, and the employee's summary is
      served. *)
  mark_recorded st p st' r :
    handle st (EMark p) = (st', RespOk (DRecord r)) ->
    AttendanceRecord.employee_id r = MarkPayload.employee_id p /\
    AttendanceRecord.date r = MarkPayload.date p /\
    AttendanceRecord.status r = MarkPayload.status p /\
    (forall dt, dt = None \/ dt = Some (MarkPayload.date p) ->
       exists rs, (handle st' (EListAttendance (MarkPayload.employee_id p) dt)).2
                  = RespOk (DRecords rs) /\ r ∈ rs) /\
    exists s, (handle st' (ESummary (MarkPayload.employee_id p))).2 = RespOk (DSummary s);
  (** A summary counts the records the unfiltered listing returns. *)
  summary_consistent st e s :
    (handle st (ESummary e)).2 = RespOk (DSummary s) ->
    exists rs, (handle st (EListAttendance e None)).2 = RespOk (DRecords rs) /\
               s = summarize rs;
  (** An added employee is on the roster afterwards. *)
  add_listed st e st' d :
    handle st (EAddEmployee e) = (st', RespOk d) ->
    exists l, (handle st' EListEmployees).2 = RespOk (DEmployees l) /\ e ∈ l;
  (** A deleted employee is off the roster afterwards. *)
  delete_unlisted st id st' d :
    handle st (EDeleteEmployee id) = (st', RespOk d) ->
    exists l, (handle st' EListEmployees).2 = RespOk (DEmployees l) /\
              id ∉ roster_ids l
}.

(** ** The reference instance *)

Module Mem.

Record state := mk {
  emps : list Employee.t;
  recs : list AttendanceRecord.t;
  next_id : nat;
  today : string
}.

Definition has_emp (st : state) (id : string) : bool :=
  existsb (fun e => String.eqb (Employee.employee_id e) id) (emps st).

Definition recs_of (st : state) (id : string) (dt : option string)
    : list AttendanceRecord.t :=
  filter (fun r => String.eqb (AttendanceRecord.employee_id r) id = true
                   /\ date_matches dt r = true) (recs st).

Definition not_found : Response := RespErr 404 (Some "Employee not found").

Definition distinct_count (l : list string) : nat := length (remove_dups l).

Definition stats (st : state) : DashboardStats.t :=
  let today_recs := filter (fun r => String.eqb (AttendanceRecord.date r) (today st) = true)
                           (recs st) in
  DashboardStats.mk (length (emps st))
    (distinct_count (map Employee.department (emps st)))
    (count_if is_present today_recs) (count_if is_absent today_recs).

Definition handle (st : state) (ep : Endpoint) : state * Response :=
  match ep with
  | EListEmployees => (st, RespOk (DEmployees (emps st)))
  | EAddEmployee e =>
      if has_emp st (Employee.employee_id e)
      then (st, RespErr 400 (Some "Employee ID already exists"))
      else (mk (emps st ++ [e]) (recs st) (next_id st) (today st), RespOk (DEmployee e))
  | EDeleteEmployee id =>
      if has_emp st id
      then (mk (filter (fun e => String.eqb (Employee.employee_id e) id = false) (emps st))
               (filter (fun r => String.eqb (AttendanceRecord.employee_id r) id = false)
                  (recs st))
               (next_id st) (today st), RespOk DNone)
      else (st, not_found)
  | EListAttendance id dt =>
      if has_emp st id then (st, RespOk (DRecords (recs_of st id dt))) else (st, not_found)
  | EMark p =>
      if negb (has_emp st (MarkPayload.employee_id p)) then (st, not_found)
      else match recs_of st (MarkPayload.employee_id p) (Some (MarkPayload.date p)) with
           | _ :: _ => (st, RespErr 400 (Some "Attendance already marked for this date"))
           | [] =>
               let r := AttendanceRecord.mk (next_id st) (MarkPayload.employee_id p)
                          (MarkPayload.date p) (MarkPayload.status p) in
               (mk (emps st) (recs st ++ [r]) (S (next_id st)) (today st),
                RespOk (DRecord r))
           end
  | ESummary id =>
      if has_emp st id then (st, RespOk (DSummary (summarize (recs_of st id None))))
      else (st, not_found)
  | EStats => (st, RespOk (DStats (stats st)))
  end.

End Mem.

#[export] Instance MemBackend : Backend := {| bstate := Mem.state; handle := Mem.handle |}.

(** ** The reference instance satisfies the laws *)

Module MemLaws.
Import Mem.

Lemma elem_of_recs_of st id dt r :
  r ∈ recs_of st id dt <->
  r ∈ recs st /\ AttendanceRecord.employee_id r = id /\ date_matches dt r = true.
Proof.
  unfold recs_of. rewrite list_elem_of_filter, String.eqb_eq. naive_solver.
Qed.

Lemma recs_of_date st id x :
  recs_of st id (Some x) =
  filter (fun r => date_matches (Some x) r = true) (recs_of st id None).
Proof.
  unfold recs_of. rewrite list_filter_filter. apply list_filter_iff.
  intros r. simpl. naive_solver.
Qed.

Lemma typed st ep st' d : handle st ep = (st', RespOk d) -> data_fits ep d = true.
Proof.
  destruct ep; simpl; repeat case_match; intros Heq; simpl in Heq; simplify_eq; done.
Qed.

Lemma read_pure st ep : is_read ep = true -> (handle st ep).1 = st.
Proof. destruct ep; simpl; try discriminate; repeat case_match; done. Qed.

Lemma scoped st e dt rs :
  (handle st (EListAttendance e dt)).2 = RespOk (DRecords rs) ->
  Forall (fun r => AttendanceRecord.employee_id r = e /\ date_matches dt r = true) rs.
Proof.
  simpl. case_match; intros Heq; simpl in Heq; simplify_eq.
  apply Forall_forall. intros r Hr. apply elem_of_recs_of in Hr.
  naive_solver.
Qed.

Lemma filtered st e x rs :
  (handle st (EListAttendance e None)).2 = RespOk (DRecords rs) ->
  (handle st (EListAttendance e (Some x))).2 =
    RespOk (DRecords (filter (fun r => date_matches (Some x) r = true) rs)).
Proof. simpl. case_match; intros Heq; simpl in Heq; simplify_eq. by rewrite recs_of_date. Qed.

Lemma recorded st p st' r :
  handle st (EMark p) = (st', RespOk (DRecord r)) ->
  AttendanceRecord.employee_id r = MarkPayload.employee_id p /\
  AttendanceRecord.date r = MarkPayload.date p /\
  AttendanceRecord.status r = MarkPayload.status p /\
  (forall dt, dt = None \/ dt = Some (MarkPayload.date p) ->
     exists rs, (handle st' (EListAttendance (MarkPayload.employee_id p) dt)).2
                = RespOk (DRecords rs) /\ r ∈ rs) /\
  exists s, (handle st' (ESummary (MarkPayload.employee_id p))).2 = RespOk (DSummary s).
Proof.
  simpl. destruct (has_emp st _) eqn:Hemp; simpl; [|intros; simplify_eq].
  case_match; intros Heq; simpl in Heq; simplify_eq.
  assert (Hemp' : has_emp (mk (emps st) (recs st ++ [AttendanceRecord.mk (next_id st)
            (MarkPayload.employee_id p) (MarkPayload.date p) (MarkPayload.status p)])
            (S (next_id st)) (today st)) (MarkPayload.employee_id p) = true) by exact Hemp.
  split_and!; try done.
  - intros dt Hdt. rewrite Hemp'. eexists. split; [done|].
    apply elem_of_recs_of. simpl. split; [set_solver|]. split; [done|].
    destruct Hdt as [-> | ->]; simpl; [done|]. apply String.eqb_refl.
  - rewrite Hemp'. eauto.
Qed.

Lemma consistent st e s :
  (handle st (ESummary e)).2 = RespOk (DSummary s) ->
  exists rs, (handle st (EListAttendance e None)).2 = RespOk (DRecords rs) /\
             s = summarize rs.
Proof. simpl. case_match; intros Heq; simpl in Heq; simplify_eq. eauto. Qed.

Lemma added st e st' d :
  handle st (EAddEmployee e) = (st', RespOk d) ->
  exists l, (handle st' EListEmployees).2 = RespOk (DEmployees l) /\ e ∈ l.
Proof. simpl. case_match; intros Heq; simpl in Heq; simplify_eq. eexists. split; [done|]. simpl. set_solver. Qed.

Lemma deleted st id st' d :
  handle st (EDeleteEmployee id) = (st', RespOk d) ->
  exists l, (handle st' EListEmployees).2 = RespOk (DEmployees l) /\
            id ∉ roster_ids l.
Proof.
  simpl. case_match; intros Heq; simpl in Heq; simplify_eq. eexists. split; [done|]. simpl.
  unfold roster_ids. rewrite list_elem_of_fmap. intros [e [-> He%list_elem_of_filter]].
  destruct He as [He _]. by rewrite String.eqb_refl in He.
Qed.

End MemLaws.

#[export] Instance MemBackend_laws : BackendLaws (H := MemBackend) := {|
  handle_typed := MemLaws.typed;
  handle_read_pure := MemLaws.read_pure;
  list_attendance_scoped := MemLaws.scoped;
  list_attendance_filter := MemLaws.filtered;
  mark_recorded := MemLaws.recorded;
  summary_consistent := MemLaws.consistent;
  add_listed := MemLaws.added;
  delete_unlisted := MemLaws.deleted
|}.
