(* ===== verification/Promise.v ===== *)
(** * Promises of HTTP calls

    A page starts a promise by calling a function of [api.js]; axios
    sends the request, and the promise settles once the server answers
    (see [Api.settle] and [Backend.exchange]).  A [Call] is one such
    request and, once the server handled it, its outcome.  [Promise.all]
    over two calls, used by [Attendance.jsx] and [Dashboard.jsx], is
    [join2]: it rejects as soon as one call is rejected. *)

From S2P Require Import Prelude Domain Api Route Backend.

(** An HTTP call of a promise: the request and, once the server handled
    it, how it settled. *)
Record Call := mkCall { req : Request; res : option Outcome }.

Definition fresh (r : Request) : Call := mkCall r None.

(** [Promise.all] of two calls: [None] while it is pending, [Some None]
    once one call is rejected, [Some (Some (d1, d2))] once both are
    fulfilled. *)
Definition join2 (c1 c2 : Call) : option (option (Data * Data)) :=
  match res c1, res c2 with
  | Some (Rejected _), _ | _, Some (Rejected _) => Some None
  | Some (Fulfilled d1), Some (Fulfilled d2) => Some (Some (d1, d2))
  | _, _ => None
  end.

Section Serve.
Context `{Backend}.

(** The server handles a call that has not been handled yet. *)
Definition serve_call (st : bstate) (c : Call) (t : Transport) : option (bstate * Call) :=
  match res c with
  | None => let '(st', o) := exchange st (req c) t in Some (st', mkCall (req c) (Some o))
  | Some _ => None
  end.

Lemma serve_call_fresh st rq :
  serve_call st (mkCall rq None) Delivered =
  Some ((exchange st rq Delivered).1, mkCall rq (Some (exchange st rq Delivered).2)).
Proof. unfold serve_call. simpl. by destruct (exchange st rq Delivered). Qed.

Lemma serve_call_res st c t st' c' :
  serve_call st c t = Some (st', c') -> res c = None /\ req c' = req c /\ res c' <> None.
Proof.
  unfold serve_call. destruct (res c); [discriminate|].
  destruct (exchange st (req c) t). intros Hs. by simplify_eq.
Qed.
End Serve.

(** [Promise.all] settles once both calls are answered. *)
Lemma join2_served c1 c2 x y :
  res c1 = Some x -> res c2 = Some y -> exists j, join2 c1 c2 = Some j.
Proof. unfold join2. intros -> ->. destruct x, y; eauto. Qed.

(** [Promise.all] fulfils only when both calls are fulfilled. *)
Lemma join2_fulfilled c1 c2 d1 d2 :
  join2 c1 c2 = Some (Some (d1, d2)) ->
  res c1 = Some (Fulfilled d1) /\ res c2 = Some (Fulfilled d2).
Proof.
  unfold join2. destruct (res c1) as [[]|], (res c2) as [[]|]; intros Hj; simplify_eq; done.
Qed.
