(* ===== verification/UI.v ===== *)
(** * The UI primitives, [src/frontend/src/components/UI.jsx]

    The parts of the primitives that decide which controls a page shows:
    a banner renders only for a truthy message ([ErrorBanner],
    [SuccessBanner]); a [Modal] renders only while [open], and its close
    button and backdrop always call [onClose]; a [ConfirmDialog] is a
    [Modal] whose Cancel and confirm buttons are [disabled={loading}];
    a [StatCard] shows a skeleton while [loading] and its value after.
    The drawing primitives close the file: the size class of [Spinner],
    the skeleton cells of [LoadingRows], [60 + Math.random() * 30]
    percent wide, which stay between 60% and 90% for every draw in
    [[0, 1)], and what [EmptyState] shows. *)

From Stdlib Require Import QArith Lqa.
From S2P Require Import Prelude.

(** [if (!message) return null;]: the banner and its dismiss button. *)
Definition banner_shown (message : string) : bool := js_truthy message.

(** The controls of a [ConfirmDialog]: the confirm and Cancel buttons,
    and the close button or backdrop of its [Modal]. *)
Inductive DialogControl := DConfirm | DCancel | DClose.

(** Whether a click on a control of a dialog reaches its handler. *)
Definition dialog_allows (open loading : bool) (c : DialogControl) : bool :=
  open && match c with DClose => true | DConfirm | DCancel => negb loading end.

(** A [StatCard]: [None] for the skeleton, the value once loaded. *)
Definition stat_card (loading : bool) (value : nat) : option nat :=
  if loading then None else Some value.

(** ** The drawing primitives *)

(** [Spinner]'s size class: [size === "sm" ? "w-4 h-4" : size === "lg"
    ? "w-10 h-10" : "w-6 h-6"]. *)
Definition spinner_class (size : string) : string :=
  if String.eqb size "sm" then "w-4 h-4"
  else if String.eqb size "lg" then "w-10 h-10" else "w-6 h-6".

(** A skeleton cell of [LoadingRows]: [width: `${60 + Math.random() * 30}%`],
    for a draw [r] of [Math.random()]. *)
Definition skeleton_width (r : Q) : Q := (60 + r * 30)%Q.

(** [LoadingRows]: [rows] rows of [cols] cells, the cell [(i, j)] drawn
    with [rnd i j]. *)
Definition loading_rows (cols rows : nat) (rnd : nat -> nat -> Q) : list (list Q) :=
  map (fun i => map (fun j => skeleton_width (rnd i j)) (seq 0 cols)) (seq 0 rows).

(** [EmptyState]: the icon, the title, and the subtitle when truthy. *)
Definition empty_state (icon title subtitle : string) : string * string * option string :=
  (icon, title, if js_truthy subtitle then Some subtitle else None).

Lemma skeleton_width_bounds (r : Q) : (0 <= r < 1)%Q -> (60 <= skeleton_width r < 90)%Q.
Proof. unfold skeleton_width. lra. Qed.

(** Every cell of [LoadingRows] is drawn between 60% and 90% wide, in
    [rows] rows of [cols] cells. *)
Lemma loading_rows_shape cols rows rnd :
  (forall i j, 0 <= rnd i j < 1)%Q ->
  length (loading_rows cols rows rnd) = rows /\
  Forall (fun row => length row = cols /\ Forall (fun w => 60 <= w < 90)%Q row)
         (loading_rows cols rows rnd).
Proof.
  intros Hr. unfold loading_rows. rewrite length_map, length_seq. split; [done|].
  apply Forall_forall. intros row (i & <- & _)%list_elem_of_In%in_map_iff.
  rewrite length_map, length_seq. split; [done|].
  apply Forall_forall. intros w (j & <- & _)%list_elem_of_In%in_map_iff.
  by apply skeleton_width_bounds.
Qed.
