(* ===== verification/Navigation.v ===== *)
(** * Navigation, [src/frontend/src/App.jsx] and [src/frontend/src/components/Layout.jsx]

    [App] renders one of three views by the path of the location: its
    [<Routes>] holds ["/"], ["/employees"] and ["/attendance"], and no
    catch-all route.  [Layout]'s sidebar lists [links], each a [NavLink]
    highlighted while active; the dashboard's link has [end] set.

    React Router (v6) matches a route path against the location ignoring
    case and a trailing slash, and nothing deeper; a [NavLink] without
    [end] is active on its path and on every path below it, and one with
    [end] only on its path.  [route_view] and [nav_active] write this
    down. *)

From Stdlib Require Import Ascii.
From S2P Require Import Prelude.

Inductive View := VDashboard | VEmployees | VAttendance.

#[export] Instance View_eq_dec : EqDecision View.
Proof. solve_decision. Defined.











(** ** Paths and their normal form *)









