(* ===== verification/Attendance.v ===== *)
(** * The Attendance view, [src/frontend/src/pages/Attendance.jsx]

    The view's state is its twelve [useState] hooks, the record [Page].
    The world around it holds the backend state, the requests in flight,
    and the date [today()] returns.  A handler of the component is a list
    of commands in program order: a [setX] call ([CSet]) or the start of
    a promise ([CIssue]).  React applies the [setX] updates in order.  A
    promise is a pending [Op]: the closure values it captured and its
    HTTP calls.  [loadRecords]' [Promise.all] is one [Op] with two calls.
    The server handles each call at a network event [Serve].  The [.then
    /.catch/.finally] chain runs as one atomic [Settle], since its
    microtasks run before the next event.  [Promise.all] settles as soon
    as one call is rejected, or when both are fulfilled.

    User events carry the guard of the render that shows their control:
    the employee buttons appear once the roster is loaded and not empty;
    the mark form, the filter and their banners appear once an employee
    is selected; the submit button is [disabled={saving}], and the form's
    [required] and [max={today()}] block its submission. *)

From S2P Require Import Prelude Domain Api Route Backend Promise UI.

Module Export Attendance.

Module Form.
(** [useState({ date: today(), status: "Present" })]. *)
Record t := mk { date : string; status : Status }.
End Form.

Record Page := mkPage {
  employees : list Employee.t;
  selectedEmp : string;
  records : list AttendanceRecord.t;
  summary : option Summary.t;
  loadingEmps : bool;
  loadingRecs : bool;
  saving : bool;
  error : string;
  success : string;
  formError : string;
  form : Form.t;
  filterDate : string
}.

(** The state setters of the component. *)
Inductive Update :=
| setEmployees (l : list Employee.t)
| setSelectedEmp (s : string)
| setRecords (l : list AttendanceRecord.t)
| setSummary (s : option Summary.t)
| setLoadingEmps (b : bool)
| setLoadingRecs (b : bool)
| setSaving (b : bool)
| setError (s : string)
| setSuccess (s : string)
| setFormError (s : string)
| setForm (f : Form.t)
| setFilterDate (s : string).

Definition apply_update (p : Page) (u : Update) : Page :=
  let 'mkPage emps sel recs summ lE lR sav err succ fErr frm fd := p in
  match u with
  | setEmployees x => mkPage x sel recs summ lE lR sav err succ fErr frm fd
  | setSelectedEmp x => mkPage emps x recs summ lE lR sav err succ fErr frm fd
  | setRecords x => mkPage emps sel x summ lE lR sav err succ fErr frm fd
  | setSummary x => mkPage emps sel recs x lE lR sav err succ fErr frm fd
  | setLoadingEmps x => mkPage emps sel recs summ x lR sav err succ fErr frm fd
  | setLoadingRecs x => mkPage emps sel recs summ lE x sav err succ fErr frm fd
  | setSaving x => mkPage emps sel recs summ lE lR x err succ fErr frm fd
  | setError x => mkPage emps sel recs summ lE lR sav x succ fErr frm fd
  | setSuccess x => mkPage emps sel recs summ lE lR sav err x fErr frm fd
  | setFormError x => mkPage emps sel recs summ lE lR sav err succ x frm fd
  | setForm x => mkPage emps sel recs summ lE lR sav err succ fErr x fd
  | setFilterDate x => mkPage emps sel recs summ lE lR sav err succ fErr frm x
  end.

(** What [handleMark]'s closure captured when the form was submitted. *)
Record MarkSnap := mkSnap {
  snap_emp : string;
  snap_form : Form.t;
  snap_filter : string;
  snap_employees : list Employee.t
}.

(** A promise in flight. *)
Inductive Op :=
| OpLoadEmps (c : Call)
| OpLoadRecs (empId date : string) (cr cs : Call)
| OpMark (snap : MarkSnap) (c : Call).

Inductive Cmd :=
| CSet (u : Update)
| CIssue (o : Op).

(** The first render: [useState] initial values. *)
Definition initial_page (today : string) : Page :=
  mkPage [] "" [] None true false false "" "" "" (Form.mk today Present) "".

(** ** The handlers *)

(** [date || undefined]. *)
Definition or_undefined (s : string) : option string :=
  if js_truthy s then Some s else None.

(** [loadRecords(empId, date = "")]. *)
Definition loadRecords (empId date : string) : list Cmd :=
  if js_truthy empId then
    [CSet (setLoadingRecs true);
     CIssue (OpLoadRecs empId date
               (fresh (getAttendance empId (or_undefined date)))
               (fresh (getAttendanceSummary empId)))]
  else [].

Definition handleSelectEmployee (id : string) : list Cmd :=
  [CSet (setSelectedEmp id); CSet (setFilterDate ""); CSet (setRecords []);
   CSet (setSummary None); CSet (setFormError ""); CSet (setSuccess "")]
  ++ (if js_truthy id then loadRecords id "" else []).

Definition handleFilterDate (p : Page) (d : string) : list Cmd :=
  CSet (setFilterDate d) :: loadRecords (selectedEmp p) d.

(** The part of [handleMark] before its [await]. *)
Definition handleMark (p : Page) : list Cmd :=
  [CSet (setFormError ""); CSet (setSaving true);
   CIssue (OpMark (mkSnap (selectedEmp p) (form p) (filterDate p) (employees p))
             (fresh (markAttendance
                       (MarkPayload.mk (selectedEmp p) (Form.date (form p))
                          (Form.status (form p))))))].

(** [`${emp?.full_name}`]: ["undefined"] when the id is not on the roster. *)
Definition name_or_undefined (o : option Employee.t) : string :=
  match o with
  | Some e => Employee.full_name e
  | None => "undefined"
  end.

Definition success_message (s : MarkSnap) : string :=
  "Attendance marked as " +:+ status_str (Form.status (snap_form s)) +:+ " for "
  +:+ name_or_undefined (find_employee (snap_employees s) (snap_emp s))
  +:+ " on " +:+ Form.date (snap_form s) +:+ ".".

(** ** The continuations of the promises *)

(** [getEmployees().then(...).catch(...).finally(...)] of the mount
    effect.  A body of another shape, which a backend satisfying
    [handle_typed] never sends, takes the [.catch] path. *)
Definition on_employees (o : Outcome) : list Cmd :=
  match o with
  | Fulfilled d =>
      match as_employees d with
      | Some l => [CSet (setEmployees l)]
      | None => [CSet (setError "Failed to load employees.")]
      end
  | Rejected _ => [CSet (setError "Failed to load employees.")]
  end ++ [CSet (setLoadingEmps false)].

(** The continuation of [loadRecords]. *)
Definition on_records (j : option (Data * Data)) : list Cmd :=
  match j with
  | Some (d1, d2) =>
      match as_records d1, as_summary d2 with
      | Some rs, Some s => [CSet (setRecords rs); CSet (setSummary (Some s))]
      | _, _ => [CSet (setError "Failed to load attendance records.")]
      end
  | None => [CSet (setError "Failed to load attendance records.")]
  end ++ [CSet (setLoadingRecs false)].

(** The part of [handleMark] after its [await], with its [finally]. *)
Definition on_mark (s : MarkSnap) (o : Outcome) : list Cmd :=
  match o with
  | Fulfilled _ =>
      [CSet (setSuccess (success_message s))]
      ++ loadRecords (snap_emp s) (snap_filter s) ++ [CSet (setSaving false)]
  | Rejected e =>
      [CSet (setFormError (error_detail e "Failed to mark attendance."));
       CSet (setSaving false)]
  end.

(** The continuation of an op, once its promise has settled. *)
Definition op_settled (o : Op) : option (list Cmd) :=
  match o with
  | OpLoadEmps c => match res c with Some r => Some (on_employees r) | None => None end
  | OpLoadRecs _ _ c1 c2 => match join2 c1 c2 with Some j => Some (on_records j) | None => None end
  | OpMark s c => match res c with Some r => Some (on_mark s r) | None => None end
  end.

Section World.
Context `{Backend}.

Record World := mkWorld {
  page : Page;
  srv : bstate;
  pending : list Op;
  today : string
}.

Definition init (st : bstate) (t : string) : World :=
  mkWorld (initial_page t) st [OpLoadEmps (fresh getEmployees)] t.

Definition run_cmd (w : World) (c : Cmd) : World :=
  match c with
  | CSet u => mkWorld (apply_update (page w) u) (srv w) (pending w) (today w)
  | CIssue o => mkWorld (page w) (srv w) (pending w ++ [o]) (today w)
  end.

Definition run_cmds (w : World) (cs : list Cmd) : World := fold_left run_cmd cs w.

(** The server handles call [k] of an op. *)
Definition serve_op (st : bstate) (o : Op) (k : nat) (t : Transport)
    : option (bstate * Op) :=
  match o, k with
  | OpLoadEmps c, 0 =>
      match serve_call st c t with Some (st', c') => Some (st', OpLoadEmps c') | None => None end
  | OpLoadRecs e d c1 c2, 0 =>
      match serve_call st c1 t with
      | Some (st', c') => Some (st', OpLoadRecs e d c' c2) | None => None end
  | OpLoadRecs e d c1 c2, 1 =>
      match serve_call st c2 t with
      | Some (st', c') => Some (st', OpLoadRecs e d c1 c') | None => None end
  | OpMark s c, 0 =>
      match serve_call st c t with Some (st', c') => Some (st', OpMark s c') | None => None end
  | _, _ => None
  end.
End World.

(** ** Events *)

Inductive Event :=
| ClickEmployee (id : string)       (** an employee button of step 1 *)
| ChangeFilter (d : string)         (** the filter date input *)
| ClearFilter                       (** the Clear button of the filter *)
| ChangeFormDate (d : string)       (** the date input of the mark form *)
| ClickStatus (s : Status)          (** a status button of the mark form *)
| SubmitMark                        (** the submit button of the mark form *)
| DismissError | DismissSuccess | DismissFormError  (** a banner's close button *)
| Serve (n : nat) (k : nat) (t : Transport)  (** the server handles call [k] of op [n] *)
| Settle (n : nat).                 (** the continuation of op [n] runs *)

(** The employee buttons: [loadingEmps ? ... : employees.length === 0 ? ...
    : employees.map(...)]. *)
Definition selector_shown (p : Page) : bool :=
  negb (loadingEmps p) && bool_decide (employees p <> []).

(** [{selectedEmp && (...)}]: the summary, the mark form and the records. *)
Definition workflow_shown (p : Page) : bool := js_truthy (selectedEmp p).

(** ** What the page renders *)

(** Step 1: [loadingEmps ? <Spinner/> Loading employees… : employees.length
    === 0 ? "No employees found. Add employees first." : employees.map(...)]. *)
Inductive SelectorView :=
| SelLoading
| SelEmpty
| SelButtons (l : list Employee.t).

Definition selector_view (p : Page) : SelectorView :=
  if loadingEmps p then SelLoading
  else match employees p with [] => SelEmpty | l => SelButtons l end.

(** The body of the records table: [loadingRecs ? <LoadingRows/> :
    records.length === 0 ? <EmptyState .../> : records.map(...)]. *)
Inductive RecordsView :=
| RecsLoading
| RecsEmpty (title subtitle : string)
| RecsRows (l : list AttendanceRecord.t).

Definition records_view (p : Page) : RecordsView :=
  if loadingRecs p then RecsLoading
  else match records p with
       | [] =>
           if js_truthy (filterDate p)
           then RecsEmpty "No records for this date" "Try a different date"
           else RecsEmpty "No attendance records yet" "Mark attendance above to get started"
       | l => RecsRows l
       end.

(** [!selectedEmp && !loadingEmps && employees.length > 0]: the
    "Select an employee above" card. *)
Definition prompt_shown (p : Page) : bool :=
  negb (js_truthy (selectedEmp p)) && negb (loadingEmps p) &&
  bool_decide (employees p <> []).

(** The constraint validation of the date input: [required] and
    [max={today()}].  The input's value is empty or an ISO date, and ISO
    dates compare as strings. *)
Definition form_valid (today : string) (f : Form.t) : bool :=
  js_truthy (Form.date f) && String.leb (Form.date f) today.

Definition set_form_date (f : Form.t) (d : string) : Form.t := Form.mk d (Form.status f).
Definition set_form_status (f : Form.t) (s : Status) : Form.t := Form.mk (Form.date f) s.

Section Step.
Context `{Backend}.

Definition with_page (w : World) (cs : list Cmd) : option World := Some (run_cmds w cs).

Definition step (w : World) (e : Event) : option World :=
  let p := page w in
  match e with
  | ClickEmployee id =>
      if selector_shown p && existsb (fun x => String.eqb x id) (roster_ids (employees p))
      then with_page w (handleSelectEmployee id) else None
  | ChangeFilter d =>
      if workflow_shown p then with_page w (handleFilterDate p d) else None
  | ClearFilter =>
      if workflow_shown p && js_truthy (filterDate p)
      then with_page w (handleFilterDate p "") else None
  | ChangeFormDate d =>
      if workflow_shown p then with_page w [CSet (setForm (set_form_date (form p) d))]
      else None
  | ClickStatus s =>
      if workflow_shown p then with_page w [CSet (setForm (set_form_status (form p) s))]
      else None
  | SubmitMark =>
      if workflow_shown p && negb (saving p) && form_valid (today w) (form p)
      then with_page w (handleMark p) else None
  | DismissError =>
      if banner_shown (error p) then with_page w [CSet (setError "")] else None
  | DismissSuccess =>
      if workflow_shown p && banner_shown (success p) then with_page w [CSet (setSuccess "")]
      else None
  | DismissFormError =>
      if workflow_shown p && banner_shown (formError p) then with_page w [CSet (setFormError "")]
      else None
  | Serve n k t =>
      match pending w !! n with
      | Some o =>
          match serve_op (srv w) o k t with
          | Some (st', o') => Some (mkWorld p st' (<[n := o']> (pending w)) (today w))
          | None => None
          end
      | None => None
      end
  | Settle n =>
      match pending w !! n with
      | Some o =>
          match op_settled o with
          | Some cs => Some (run_cmds (mkWorld p (srv w) (delete n (pending w)) (today w)) cs)
          | None => None
          end
      | None => None
      end
  end.

(** The worlds the page can reach from its first render. *)
Inductive reachable : World -> Prop :=
| reachable_init st t : reachable (init st t)
| reachable_step w e w' : reachable w -> step w e = Some w' -> reachable w'.

Definition runs (w : World) (es : list Event) : option World := run step w es.
End Step.
End Attendance.
