(* ===== verification/AttendanceProps.v ===== *)
(** * Properties of the Attendance view

    The theorems about [Attendance.v], proved for any backend that
    satisfies [BackendLaws].  The groups are: the invariant of every
    reachable world, by induction on [reachable]; the functional
    behaviour of marking attendance and of the date filter, on success
    and error paths, as event traces; liveness, from any reachable world
    every request in flight can settle; and the stale-response race,
    which the code does not guard against.  The witnesses run on the
    reference backend [MemBackend]. *)

From S2P Require Import Prelude Domain Api Route Backend Promise Attendance.

(** ** Commands, as updates and issued promises *)

Definition updates (cs : list Cmd) : list Update :=
  omap (fun c => match c with CSet u => Some u | CIssue _ => None end) cs.

Definition issued (cs : list Cmd) : list Op :=
  omap (fun c => match c with CIssue o => Some o | CSet _ => None end) cs.

Definition apply_updates (p : Page) (us : list Update) : Page := fold_left apply_update us p.

Lemma issued_app cs1 cs2 : issued (cs1 ++ cs2) = issued cs1 ++ issued cs2.
Proof. apply omap_app. Qed.

(** The kind of a promise in flight. *)
Inductive OpKind := KLoadEmps | KLoadRecs | KMark.

#[export] Instance OpKind_eq_dec : EqDecision OpKind.
Proof. solve_decision. Defined.

Definition op_kind (o : Op) : OpKind :=
  match o with
  | OpLoadEmps _ => KLoadEmps
  | OpLoadRecs _ _ _ _ => KLoadRecs
  | OpMark _ _ => KMark
  end.

Definition kind_eqb (k1 k2 : OpKind) : bool :=
  match k1, k2 with
  | KLoadEmps, KLoadEmps | KLoadRecs, KLoadRecs | KMark, KMark => true
  | _, _ => false
  end.

Definition count_kind (k : OpKind) (l : list Op) : nat :=
  count_if (fun o => kind_eqb (op_kind o) k) l.

Section Cmds.
Context `{Backend}.

Lemma run_cmds_app w cs1 cs2 :
  run_cmds w (cs1 ++ cs2) = run_cmds (run_cmds w cs1) cs2.
Proof. apply fold_left_app. Qed.

Lemma run_cmds_spec w cs :
  run_cmds w cs =
  mkWorld (apply_updates (page w) (updates cs)) (srv w) (pending w ++ issued cs) (today w).
Proof.
  revert w. induction cs as [|[u|o] cs IH]; intros [p st pend t]; simpl.
  - by rewrite app_nil_r.
  - apply IH.
  - rewrite IH. simpl. by rewrite <- app_assoc.
Qed.
End Cmds.

Lemma count_kind_app k l1 l2 :
  count_kind k (l1 ++ l2) = count_kind k l1 + count_kind k l2.
Proof. apply count_if_app. Qed.

Lemma count_kind_cons k o l :
  count_kind k (o :: l) = (if kind_eqb (op_kind o) k then 1 else 0) + count_kind k l.
Proof. unfold count_kind. by rewrite count_if_cons. Qed.

Lemma count_kind_nil k : count_kind k [] = 0.
Proof. reflexivity. Qed.

#[export] Hint Rewrite count_kind_app count_kind_cons count_kind_nil : hrms.

(** Removing a settled op removes one of its kind. *)
Lemma count_kind_delete k (l : list Op) n o :
  l !! n = Some o ->
  count_kind k l = (if kind_eqb (op_kind o) k then 1 else 0) + count_kind k (delete n l).
Proof. intros Hn. exact (count_if_delete (fun o => kind_eqb (op_kind o) k) l n o Hn). Qed.

(** Replacing an op by one of the same kind keeps the counts. *)
Lemma count_kind_insert k (l : list Op) n o o' :
  l !! n = Some o -> op_kind o' = op_kind o ->
  count_kind k (<[n := o']> l) = count_kind k l.
Proof. intros Hn Hk. apply (count_if_insert _ _ _ o); [done|]. by rewrite Hk. Qed.

Section ServeKind.
Context `{Backend}.

Lemma serve_op_kind st o k t st' o' :
  serve_op st o k t = Some (st', o') -> op_kind o' = op_kind o.
Proof.
  destruct o, k as [|[|k]]; simpl; repeat case_match; intros Heq; simplify_eq; done.
Qed.
End ServeKind.

(** ** The invariant of every reachable world *)

Section Invariant.
Context `{Backend}.

(** - one mark in flight exactly when [saving] is set, and never two:
      the submit button is disabled while [saving];
    - one roster load in flight exactly while [loadingEmps] is set;
    - a records load is in flight whenever [loadingRecs] is set;
    - no employee is selected before the roster has loaded;
    - the selected employee is on the roster. *)
Definition inv (w : World) : Prop :=
  let p := page w in
  count_kind KMark (pending w) = (if saving p then 1 else 0) /\
  count_kind KLoadEmps (pending w) = (if loadingEmps p then 1 else 0) /\
  (loadingRecs p = true -> 1 <= count_kind KLoadRecs (pending w)) /\
  (loadingEmps p = true -> selectedEmp p = "") /\
  (js_truthy (selectedEmp p) = true -> selectedEmp p ∈ roster_ids (employees p)).

Lemma inv_init st t : inv (init st t).
Proof. cbv. repeat split; discriminate. Qed.

Ltac open_world w :=
  destruct w as [[emps sel recs summ lE lR sav err succ fErr frm fd] st pend t];
  unfold inv; simpl in *.

Ltac inv_close := simpl in *; split_and!; intros; simplify_eq; try done; try lia; try congruence; auto.

Lemma inv_select w id :
  inv w -> selector_shown (page w) = true -> id ∈ roster_ids (employees (page w)) ->
  inv (run_cmds w (handleSelectEmployee id)).
Proof.
  open_world w. intros (Hm & He & Hr & Hsel & Hin) Hshow Hid.
  unfold selector_shown in Hshow. simpl in Hshow. bool_hyps. subst.
  unfold handleSelectEmployee, loadRecords.
  destruct (js_truthy id) eqn:Hid'; rewrite run_cmds_spec; simpl;
    autorewrite with hrms; simpl; rewrite ?Nat.add_0_r; inv_close.
Qed.

Lemma inv_filter w d :
  inv w -> inv (run_cmds w (handleFilterDate (page w) d)).
Proof.
  open_world w. intros (Hm & He & Hr & Hsel & Hin).
  unfold handleFilterDate, loadRecords. simpl.
  destruct (js_truthy sel) eqn:Hs; rewrite run_cmds_spec; simpl;
    autorewrite with hrms; simpl; rewrite ?Nat.add_0_r; inv_close.
Qed.

Lemma inv_mark w :
  inv w -> saving (page w) = false -> inv (run_cmds w (handleMark (page w))).
Proof.
  open_world w. intros (Hm & He & Hr & Hsel & Hin) ->.
  rewrite ?run_cmds_spec; simpl. autorewrite with hrms; simpl.
  inv_close.
Qed.

(** The setters of the form, the banners and the error leave the
    invariant's fields alone. *)
Definition touches_inv (u : Update) : bool :=
  match u with
  | setForm _ | setError _ | setSuccess _ | setFormError _ => false
  | _ => true
  end.

Lemma inv_set w u : inv w -> touches_inv u = false -> inv (run_cmds w [CSet u]).
Proof.
  open_world w. intros (Hm & He & Hr & Hsel & Hin) Hu.
  destruct u; try discriminate; simpl; inv_close.
Qed.

Lemma inv_serve w n o k tr st' o' :
  inv w -> pending w !! n = Some o -> serve_op (srv w) o k tr = Some (st', o') ->
  inv (mkWorld (page w) st' (<[n := o']> (pending w)) (today w)).
Proof.
  intros (Hm & He & Hr & Hsel & Hin) Hn Hs%serve_op_kind.
  unfold inv; simpl. rewrite !(count_kind_insert _ _ _ _ _ Hn Hs). done.
Qed.

Lemma inv_settle w n o cs :
  inv w -> pending w !! n = Some o -> op_settled o = Some cs ->
  inv (run_cmds (mkWorld (page w) (srv w) (delete n (pending w)) (today w)) cs).
Proof.
  open_world w. intros (Hm & He & Hr & Hsel & Hin) Hn Hs.
  pose proof (count_kind_delete KMark _ _ _ Hn) as Dm.
  pose proof (count_kind_delete KLoadEmps _ _ _ Hn) as De.
  pose proof (count_kind_delete KLoadRecs _ _ _ Hn) as Dr.
  rewrite run_cmds_spec.
  destruct o as [c|e d c1 c2|sn c]; simpl in Hs, Dm, De, Dr.
  - destruct (res c) as [r|]; [|discriminate]. injection Hs as <-.
    destruct lE; [|lia]. rewrite Hsel by done.
    unfold on_employees. destruct r as [d|]; [destruct (as_employees d)|];
      simpl; autorewrite with hrms; inv_close.
  - destruct (join2 c1 c2) as [j|]; [|discriminate]. injection Hs as <-.
    unfold on_records. destruct j as [[d1 d2]|];
      [destruct (as_records d1), (as_summary d2)|];
      simpl; autorewrite with hrms; inv_close.
  - destruct (res c) as [r|]; [|discriminate]. injection Hs as <-.
    destruct sav; [|lia]. unfold on_mark, loadRecords.
    destruct r; [destruct (js_truthy (snap_emp sn))|];
      simpl; autorewrite with hrms; inv_close.
Qed.

Lemma existsb_eqb_elem id (l : list string) :
  existsb (fun x => String.eqb x id) l = true <-> id ∈ l.
Proof.
  rewrite existsb_exists, list_elem_of_In. split.
  - intros [x [Hx ->%String.eqb_eq]]. done.
  - intros Hx. exists id. by rewrite String.eqb_refl.
Qed.

Lemma inv_step w e w' : inv w -> step w e = Some w' -> inv w'.
Proof.
  intros Hinv Hs. destruct e as [id|d| |d|s| | | | |n k tr|n];
    simpl in Hs; unfold with_page in Hs.
  - take_guard Hs. apply inv_select; [done|done|]. by apply existsb_eqb_elem.
  - take_guard Hs. by apply inv_filter.
  - take_guard Hs. by apply inv_filter.
  - take_guard Hs. by apply inv_set.
  - take_guard Hs. by apply inv_set.
  - take_guard Hs. by apply inv_mark.
  - take_guard Hs. by apply inv_set.
  - take_guard Hs. by apply inv_set.
  - take_guard Hs. by apply inv_set.
  - destruct (pending w !! n) as [o|] eqn:Hn; [|discriminate].
    destruct (serve_op (srv w) o k tr) as [[st1 o']|] eqn:Ho; [|discriminate].
    injection Hs as <-. by eapply inv_serve.
  - destruct (pending w !! n) as [o|] eqn:Hn; [|discriminate].
    destruct (op_settled o) as [cs|] eqn:Ho; [|discriminate].
    injection Hs as <-. by eapply inv_settle.
Qed.

Lemma reachable_inv w : reachable w -> inv w.
Proof. induction 1; [apply inv_init | by eapply inv_step]. Qed.

Lemma runs_reachable w es w' : reachable w -> runs w es = Some w' -> reachable w'.
Proof.
  unfold runs. revert w. induction es as [|e es IH]; intros w Hw; simpl.
  - congruence.
  - destruct (step w e) as [w1|] eqn:He; [|discriminate].
    apply IH. by eapply reachable_step.
Qed.

(** C6: [saving] is set exactly while a mark is in flight, and never
    more than one mark is: the page's [disabled={saving}] on the submit
    button and [setSaving] around [markAttendance] keep the pending
    marks counted by the flag, through every interleaving of answers. *)
Theorem saving_tracks_mark w :
  reachable w -> count_kind KMark (pending w) = (if saving (page w) then 1 else 0).
Proof. intros Hr. by destruct (reachable_inv w Hr). Qed.

(** C7: once an employee is selected, the roster has loaded and the
    selection is one of the roster's ids: the selector is shown only
    after the roster load, and offers only its employees. *)
Theorem selected_on_roster w :
  reachable w -> js_truthy (selectedEmp (page w)) = true ->
  loadingEmps (page w) = false /\ selectedEmp (page w) ∈ roster_ids (employees (page w)).
Proof.
  intros Hr Ht. destruct (reachable_inv w Hr) as (_ & _ & _ & Hl & Hin).
  split; [|by apply Hin].
  destruct (loadingEmps (page w)); [|done]. by rewrite Hl in Ht.
Qed.

End Invariant.

(** ** Requests served, through the route table *)

Section Serving.
Context `{Backend}.

Lemma serve_markAttendance st p : serve st (markAttendance p) = handle st (EMark p).
Proof. reflexivity. Qed.

Lemma serve_getAttendance st id d :
  url_safe id = true ->
  serve st (getAttendance id (or_undefined d)) = handle st (EListAttendance id (or_undefined d)).
Proof.
  intros Hs. unfold serve. rewrite route_getAttendance by done.
  unfold or_undefined. by rewrite query_date_params_or.
Qed.

Lemma serve_getAttendanceSummary st id :
  url_safe id = true -> serve st (getAttendanceSummary id) = handle st (ESummary id).
Proof. intros Hs. unfold serve. by rewrite route_getAttendanceSummary. Qed.
End Serving.

(** The events that take a mark from the submit button to the reloaded
    list: submit, the server records the mark, its continuation runs and
    starts [loadRecords], the server answers both calls, and the join
    settles. *)
Definition mark_events : list Event :=
  [SubmitMark; Serve 0 0 Delivered; Settle 0;
   Serve 0 0 Delivered; Serve 0 1 Delivered; Settle 0].

(** The payload [handleMark] posts. *)
Definition mark_payload (p : Page) : MarkPayload.t :=
  MarkPayload.mk (selectedEmp p) (Form.date (form p)) (Form.status (form p)).

Definition mark_snap (p : Page) : MarkSnap :=
  mkSnap (selectedEmp p) (form p) (filterDate p) (employees p).

Section MarkFlow.
Context `{BL : BackendLaws}.

Local Opaque serve.

(** C3: a mark the server accepts is shown.  Submitting a valid form
    for the selected employee, when the server records the mark, ends
    with the new record in the visible list (the filter is off or on the
    marked date), the success banner naming the employee, status and
    date, the button enabled again and no request in flight. *)
Lemma mark_accepted_shown w st' r :
  pending w = [] ->
  url_safe (selectedEmp (page w)) = true ->
  saving (page w) = false ->
  form_valid (today w) (form (page w)) = true ->
  (filterDate (page w) = "" \/ filterDate (page w) = Form.date (form (page w))) ->
  handle (srv w) (EMark (mark_payload (page w))) = (st', RespOk (DRecord r)) ->
  exists w', runs w mark_events = Some w' /\
    r ∈ records (page w') /\
    AttendanceRecord.employee_id r = selectedEmp (page w) /\
    AttendanceRecord.date r = Form.date (form (page w)) /\
    AttendanceRecord.status r = Form.status (form (page w)) /\
    success (page w') = success_message (mark_snap (page w)) /\
    saving (page w') = false /\ loadingRecs (page w') = false /\ pending w' = [].
Proof.
  destruct w as [[emps sel recs summ lE lR sav err succ fErr frm fd] st pend t].
  simpl. intros -> Hsafe -> Hvalid Hfd Hmark.
  pose proof (mark_recorded _ _ _ _ Hmark) as (Hre & Hrd & Hrs & Hlist & Hsum).
  simpl in *.
  assert (Htr : js_truthy sel = true) by (unfold url_safe in Hsafe; by bool_hyps).
  unfold runs, mark_events. simpl. unfold workflow_shown, with_page. simpl.
  rewrite Htr, Hvalid. simpl.
  rewrite serve_markAttendance. unfold mark_payload in Hmark. simpl in Hmark. rewrite Hmark. simpl.
  unfold loadRecords. rewrite Htr. simpl.
  rewrite !serve_getAttendance, !serve_getAttendanceSummary by done.
  rewrite (handle_read_pure st' (EListAttendance _ _)) by done.
  destruct (Hlist (or_undefined fd)) as (rs & Hrs' & Hin).
  { unfold form_valid in Hvalid. bool_hyps. unfold or_undefined.
    destruct Hfd as [-> | ->]; [by left | right]. by rewrite H0. }
  destruct Hsum as [s Hs]. rewrite Hrs', Hs. simpl.
  eexists. split; [reflexivity|]. simpl. by split_and!.
Qed.

(** C4: the error path of [handleMark]: whatever the rejection, from a
    dropped request to the server's 400, the form shows the server's
    [detail] or the fallback, and nothing else of the view changes: the
    records, the summary, the old success banner and the selection stay,
    the button is enabled again and no reload is started. *)
Lemma mark_rejected_kept w tr e :
  pending w = [] ->
  js_truthy (selectedEmp (page w)) = true ->
  saving (page w) = false ->
  form_valid (today w) (form (page w)) = true ->
  (exchange (srv w) (markAttendance (mark_payload (page w))) tr).2 = Rejected e ->
  exists w', runs w [SubmitMark; Serve 0 0 tr; Settle 0] = Some w' /\
    formError (page w') = error_detail e "Failed to mark attendance." /\
    records (page w') = records (page w) /\ summary (page w') = summary (page w) /\
    success (page w') = success (page w) /\ selectedEmp (page w') = selectedEmp (page w) /\
    saving (page w') = false /\ loadingRecs (page w') = loadingRecs (page w) /\
    pending w' = [].
Proof.
  destruct w as [[emps sel recs summ lE lR sav err succ fErr frm fd] st pend t].
  simpl. intros -> Htr -> Hvalid Hrej.
  unfold runs. simpl. unfold workflow_shown, with_page. simpl.
  rewrite Htr, Hvalid. simpl. unfold mark_payload in Hrej. simpl in Hrej.
  unfold serve_call. simpl.
  destruct (exchange st _ tr) as [st1 o]. simpl in Hrej. subst o. simpl.
  eexists. split; [reflexivity|]. by split_and!.
Qed.
End MarkFlow.

(** ** A concrete roster on the reference backend *)

Module Sample.
Definition asha : Employee.t := Employee.mk "EMP001" "Asha Rao" "asha@x.com" "Engineering".
Definition bo : Employee.t := Employee.mk "EMP002" "Bo Chen" "bo@x.com" "Design".

Definition st0 : Mem.state :=
  Mem.mk [asha; bo]
    [AttendanceRecord.mk 0 "EMP001" "2024-01-09" Present;
     AttendanceRecord.mk 1 "EMP002" "2024-01-09" Absent] 2 "2024-01-10".

Definition w0 : World (H := MemBackend) := init (H := MemBackend) st0 "2024-01-10".

(** The roster loads, the operator clicks Asha then Bo, Bo's load is
    answered first, then Asha's slow load. *)
Definition race : list Event :=
  [Serve 0 0 Delivered; Settle 0; ClickEmployee "EMP001"; ClickEmployee "EMP002";
   Serve 1 0 Delivered; Serve 1 1 Delivered; Settle 1;
   Serve 0 0 Delivered; Serve 0 1 Delivered; Settle 0].

Definition after (es : list Event) : World (H := MemBackend) :=
  match runs (H := MemBackend) w0 es with Some w => w | None => w0 end.

(** The roster loads, the operator selects Asha and her records load. *)
Definition ready_events : list Event :=
  [Serve 0 0 Delivered; Settle 0; ClickEmployee "EMP001";
   Serve 0 0 Delivered; Serve 0 1 Delivered; Settle 0].

Definition ready : World (H := MemBackend) := after ready_events.

(** From [ready]: submit a mark for Asha, select Bo, Bo's loads are
    answered and settle, then the mark is answered and its reload of
    Asha's records is answered and settles. *)
Definition mark_then_switch : list Event :=
  ready_events ++
  [SubmitMark; ClickEmployee "EMP002";
   Serve 1 0 Delivered; Serve 1 1 Delivered; Settle 1;
   Serve 0 0 Delivered; Settle 0; Serve 0 0 Delivered; Serve 0 1 Delivered; Settle 0].

(** A backend with no employees. *)
Definition st_empty : Mem.state := Mem.mk [] [] 0 "2024-01-10".

Definition after_from (st : Mem.state) (es : list Event) : World (H := MemBackend) :=
  let w := init (H := MemBackend) st "2024-01-10" in
  match runs (H := MemBackend) w es with Some w' => w' | None => w end.
End Sample.

Section Races.

Lemma sample_reachable es w :
  runs (H := MemBackend) Sample.w0 es = Some w -> reachable (H := MemBackend) w.
Proof. apply runs_reachable, reachable_init. Qed.

(** C2: the stale response overwrites the newer selection.  Nothing in
    [loadRecords] tags a load with the selection that started it, so a
    slow load for the previous employee settles last and its records are
    shown under the employee selected now, with no load in flight. *)
Theorem stale_records_shown :
  exists w, reachable (H := MemBackend) w /\
    selectedEmp (page w) = "EMP002" /\ pending w = [] /\ loadingRecs (page w) = false /\
    exists r, r ∈ records (page w) /\ AttendanceRecord.employee_id r = "EMP001".
Proof.
  exists (Sample.after Sample.race). split.
  - apply (sample_reachable Sample.race). vm_compute. reflexivity.
  - vm_compute. split_and!; try reflexivity.
    eexists. split; [left | reflexivity].
Qed.

(** C8: the records spinner stops while a load is still in flight: the
    first load to settle clears [loadingRecs], whichever it is. *)
Theorem spinner_stops_early :
  exists w, reachable (H := MemBackend) w /\
    loadingRecs (page w) = false /\ count_kind KLoadRecs (pending w) = 1.
Proof.
  exists (Sample.after (take 7 Sample.race)). split.
  - apply (sample_reachable (take 7 Sample.race)). vm_compute. reflexivity.
  - vm_compute. split; reflexivity.
Qed.
(** C30: a mark's reload follows the closure, not the page.  The
    operator marks Asha, then selects Bo before the mark is answered; Bo's
    records load; then the mark succeeds and [handleMark]'s continuation
    reloads Asha's records, the employee captured at submit, and shows
    them, with the new mark, while Bo is selected and nothing is in
    flight. *)
Theorem mark_reload_follows_closure :
  exists w, reachable (H := MemBackend) w /\
    selectedEmp (page w) = "EMP002" /\ pending w = [] /\ loadingRecs (page w) = false /\
    AttendanceRecord.mk 2 "EMP001" "2024-01-10" Present ∈ records (page w).
Proof.
  exists (Sample.after Sample.mark_then_switch). split.
  - apply (sample_reachable Sample.mark_then_switch). vm_compute. reflexivity.
  - vm_compute. split_and!; try reflexivity. right. left.
Qed.
End Races.

(** ** An empty roster *)

Section EmptyRoster.
Context `{Backend}.

(** C27: an empty roster suppresses the workflow: once the roster has
    loaded empty, step 1 shows "No employees found. Add employees
    first.", neither the selection prompt nor the mark form is shown,
    and no employee can be selected and no mark submitted. *)
Theorem empty_roster_no_workflow w :
  reachable w -> loadingEmps (page w) = false -> employees (page w) = [] ->
  selector_view (page w) = SelEmpty /\ prompt_shown (page w) = false /\
  workflow_shown (page w) = false /\
  (forall id, step w (ClickEmployee id) = None) /\ step w SubmitMark = None.
Proof.
  intros Hr Hl He. destruct (reachable_inv w Hr) as (_ & _ & _ & _ & Hin).
  assert (Hsel : js_truthy (selectedEmp (page w)) = false).
  { destruct (js_truthy _) eqn:Ht; [|done]. specialize (Hin eq_refl).
    rewrite He in Hin. set_solver. }
  unfold selector_view, prompt_shown, workflow_shown. rewrite Hl, He, Hsel.
  split_and!; try done.
  - intros id. simpl. unfold selector_shown. by rewrite Hl, He.
  - simpl. unfold workflow_shown. by rewrite Hsel.
Qed.
End EmptyRoster.

Lemma empty_roster_no_workflow_witness :
  selector_view (page (Sample.after_from Sample.st_empty [Serve 0 0 Delivered; Settle 0])) = SelEmpty /\
  prompt_shown (page (Sample.after_from Sample.st_empty [Serve 0 0 Delivered; Settle 0])) = false /\
  workflow_shown (page (Sample.after_from Sample.st_empty [Serve 0 0 Delivered; Settle 0])) = false /\
  (forall id, step (Sample.after_from Sample.st_empty [Serve 0 0 Delivered; Settle 0])
                   (ClickEmployee id) = None) /\
  step (Sample.after_from Sample.st_empty [Serve 0 0 Delivered; Settle 0]) SubmitMark = None.
Proof.
  apply (empty_roster_no_workflow (H := MemBackend)); [| vm_compute; reflexivity ..].
  apply (runs_reachable (init (H := MemBackend) Sample.st_empty "2024-01-10") [Serve 0 0 Delivered; Settle 0]);
    [apply reachable_init | vm_compute; reflexivity].
Defined.

(** ** Liveness: every request in flight can settle *)

(** The events that finish the oldest promise: the server answers each of
    its calls not answered yet, then its continuation runs. *)
Definition call_serves (c : Call) (k : nat) : list Event :=
  match res c with None => [Serve 0 k Delivered] | Some _ => [] end.

Definition head_events (o : Op) : list Event :=
  match o with
  | OpLoadEmps c => call_serves c 0 ++ [Settle 0]
  | OpLoadRecs _ _ c1 c2 => call_serves c1 0 ++ call_serves c2 1 ++ [Settle 0]
  | OpMark _ c => call_serves c 0 ++ [Settle 0]
  end.

(** A mark's continuation may start one reload: it weighs two. *)
Definition op_weight (o : Op) : nat := match o with OpMark _ _ => 2 | _ => 1 end.

Definition weight (l : list Op) : nat := sum_list_with op_weight l.

Section Drain.
Context `{Backend}.

(** Settle the promises oldest first, with [fuel] rounds. *)
Fixpoint drain (fuel : nat) (w : World) : list Event :=
  match fuel, pending w with
  | S f, o :: _ =>
      let es := head_events o in
      match runs w es with
      | Some w' => es ++ drain f w'
      | None => []
      end
  | _, _ => []
  end.

Lemma weight_cons o l : weight (o :: l) = op_weight o + weight l.
Proof. reflexivity. Qed.

Lemma weight_app l1 l2 : weight (l1 ++ l2) = weight l1 + weight l2.
Proof. apply sum_list_with_app. Qed.

Lemma issued_loadRecords e d : weight (issued (loadRecords e d)) <= 1.
Proof. unfold loadRecords. destruct (js_truthy e); simpl; lia. Qed.

Lemma issued_settled o cs :
  op_settled o = Some cs -> weight (issued cs) < op_weight o.
Proof.
  destruct o as [c|e d c1 c2|s c]; simpl; unfold on_employees, on_records, on_mark.
  - destruct (res c) as [[d|r]|]; intros Hs; simplify_eq; simpl;
      [destruct (as_employees d)|]; simpl; lia.
  - destruct (join2 c1 c2) as [[[d1 d2]|]|]; intros Hs; simplify_eq; simpl;
      [destruct (as_records d1), (as_summary d2)|]; simpl; lia.
  - destruct (res c) as [[d|r]|]; intros Hs; simplify_eq; simpl; [|lia].
    unfold issued. rewrite omap_app. simpl. rewrite app_nil_r.
    pose proof (issued_loadRecords (snap_emp s) (snap_filter s)). unfold issued in *. lia.
Qed.

Lemma settle_progress w o rest :
  pending w = o :: rest -> (exists cs, op_settled o = Some cs) ->
  exists w', step w (Settle 0) = Some w' /\
    exists extra, pending w' = rest ++ extra /\ weight extra < op_weight o.
Proof.
  intros Hp [cs Hcs]. simpl. rewrite Hp. simpl. rewrite Hcs.
  eexists. split; [reflexivity|]. rewrite run_cmds_spec. simpl.
  exists (issued cs). split; [done|]. by apply issued_settled.
Qed.

Lemma serve_progress w o rest k st' o' :
  pending w = o :: rest -> serve_op (srv w) o k Delivered = Some (st', o') ->
  step w (Serve 0 k Delivered) = Some (mkWorld (page w) st' (o' :: rest) (today w)).
Proof. intros Hp Hs. simpl. rewrite Hp. simpl. by rewrite Hs. Qed.

(** A call the server has not answered yet is answered. *)
Ltac serve_next Hp :=
  erewrite run_cons;
  [| eapply serve_progress;
     [first [exact Hp | reflexivity]
     | unfold serve_op; cbv beta iota; rewrite serve_call_fresh; reflexivity]].

Ltac settle_last Hp :=
  let w' := fresh "w'" in let Hw' := fresh "Hw'" in let Hrest := fresh "Hrest" in
  match goal with |- exists _, run step ?w0 _ = _ /\ _ =>
    edestruct (settle_progress w0) as (w' & Hw' & Hrest) end;
  [first [exact Hp | reflexivity] | |
   exists w'; rewrite (run_cons _ _ _ _ _ Hw'); split; [reflexivity | exact Hrest]].

Lemma head_progress w o rest :
  pending w = o :: rest ->
  exists w', runs w (head_events o) = Some w' /\
    exists extra, pending w' = rest ++ extra /\ weight extra < op_weight o.
Proof.
  intros Hp. unfold runs.
  destruct o as [[rq [r|]]|e d [rq1 [r1|]] [rq2 [r2|]]|s [rq [r|]]];
    cbn [head_events call_serves res app];
    repeat serve_next Hp; settle_last Hp; simpl;
    try match goal with
    | |- context [join2 ?c1 ?c2] =>
        destruct (join2_served c1 c2 _ _ eq_refl eq_refl) as [j ->]
    end; eauto.
Qed.

Lemma runs_cons w e es w' : step w e = Some w' -> runs w (e :: es) = runs w' es.
Proof. apply run_cons. Qed.

Lemma runs_app w es1 es2 :
  runs w (es1 ++ es2) = match runs w es1 with Some w' => runs w' es2 | None => None end.
Proof. apply run_app. Qed.

Lemma drain_settles fuel w :
  weight (pending w) <= fuel ->
  exists w', runs w (drain fuel w) = Some w' /\ pending w' = [].
Proof.
  revert w. induction fuel as [|f IH]; intros w Hw; simpl.
  - destruct (pending w) as [|o rest] eqn:Hp; [by exists w|].
    rewrite weight_cons in Hw. destruct o; simpl in Hw; lia.
  - destruct (pending w) as [|o rest] eqn:Hp; [by exists w|].
    destruct (head_progress w o rest Hp) as (w1 & Hw1 & extra & Hp1 & Hlt).
    rewrite Hw1, runs_app, Hw1. apply IH.
    rewrite Hp1, weight_app. rewrite weight_cons in Hw. lia.
Qed.

End Drain.

Section Liveness.
Context `{Backend}.

(** C5: every promise in flight settles.  From any reachable world, the
    server answering every call, oldest promise first, settles all of
    them in [weight] rounds, and the view ends with no spinner and the
    submit button enabled. *)
Theorem attendance_settles w :
  reachable w ->
  exists w', runs w (drain (weight (pending w)) w) = Some w' /\
    pending w' = [] /\ saving (page w') = false /\
    loadingEmps (page w') = false /\ loadingRecs (page w') = false.
Proof.
  intros Hr. destruct (drain_settles (weight (pending w)) w) as (w' & Hw' & Hp); [done|].
  exists w'. split; [done|].
  destruct (reachable_inv w' (runs_reachable _ _ _ Hr Hw')) as (Hm & He & Hl & _).
  rewrite Hp, count_kind_nil in Hm, He, Hl.
  split_and!; [done | destruct (saving (page w')) | destruct (loadingEmps (page w'))
              | destruct (loadingRecs (page w'))]; try done.
  specialize (Hl eq_refl). lia.
Qed.
End Liveness.

(** ** The date filter *)

Definition load_events : list Event := [Serve 0 0 Delivered; Serve 0 1 Delivered; Settle 0].

Section FilterFlow.
Context `{BL : BackendLaws}.

Local Opaque serve.

(** A records load alone in flight, answered by the server, shows the
    listing and the summary and stops the spinner. *)
Lemma load_flow w e d rs s :
  pending w = [OpLoadRecs e d (fresh (getAttendance e (or_undefined d)))
                 (fresh (getAttendanceSummary e))] ->
  url_safe e = true ->
  (handle (srv w) (EListAttendance e (or_undefined d))).2 = RespOk (DRecords rs) ->
  (handle (srv w) (ESummary e)).2 = RespOk (DSummary s) ->
  runs w load_events =
    Some (mkWorld (apply_updates (page w)
                     [setRecords rs; setSummary (Some s); setLoadingRecs false])
                  (srv w) [] (today w)).
Proof.
  destruct w as [p st pend t]. simpl. intros -> Hsafe Hl Hs.
  unfold runs. simpl. unfold serve_call. simpl.
  rewrite !serve_getAttendance, !serve_getAttendanceSummary by done.
  rewrite (handle_read_pure st (EListAttendance _ _)) by done.
  rewrite Hl, Hs. simpl. by rewrite (handle_read_pure st (ESummary _)) by done.
Qed.
(** C9: the date filter, then Clear.  Filtering by [d] shows exactly the
    records of the unfiltered listing dated [d].  Clearing the filter
    refetches and shows the whole listing.  The summary is fetched
    again both times, and stays the employee's whole history. *)
Theorem filter_then_clear w d rs s :
  pending w = [] ->
  url_safe (selectedEmp (page w)) = true ->
  js_truthy d = true ->
  (handle (srv w) (EListAttendance (selectedEmp (page w)) None)).2 = RespOk (DRecords rs) ->
  (handle (srv w) (ESummary (selectedEmp (page w)))).2 = RespOk (DSummary s) ->
  exists w1 w2,
    runs w (ChangeFilter d :: load_events) = Some w1 /\
    runs w1 (ClearFilter :: load_events) = Some w2 /\
    records (page w1) = filter (fun r => date_matches (Some d) r = true) rs /\
    filterDate (page w1) = d /\ summary (page w1) = Some s /\
    records (page w2) = rs /\ filterDate (page w2) = "" /\ summary (page w2) = Some s /\
    s = summarize rs /\ loadingRecs (page w2) = false /\ pending w2 = [].
Proof.
  destruct w as [[emps sel recs summ lE lR sav err succ fErr frm fd] st pend t].
  simpl. intros -> Hsafe Hd Hl Hs.
  assert (Htr : js_truthy sel = true) by (unfold url_safe in Hsafe; by bool_hyps).
  destruct (summary_consistent _ _ _ Hs) as (rs' & Hl' & Hsum).
  rewrite Hl in Hl'. injection Hl' as <-.
  erewrite runs_cons.
  2:{ simpl. unfold workflow_shown, with_page. simpl. rewrite Htr. reflexivity. }
  unfold handleFilterDate, loadRecords. simpl. rewrite Htr. rewrite run_cmds_spec. simpl.
  erewrite load_flow; simpl; try done.
  2:{ unfold or_undefined. rewrite Hd. by apply list_attendance_filter. }
  eexists. eexists. split; [reflexivity|]. erewrite runs_cons.
  2:{ simpl. unfold workflow_shown, with_page. simpl. rewrite Htr, Hd. reflexivity. }
  simpl. unfold loadRecords. rewrite Htr. rewrite run_cmds_spec. simpl.
  erewrite load_flow; simpl; try done.
Qed.
End FilterFlow.

(** ** Whose records are on screen *)

(** A served records call of employee [e] holds only [e]'s records. *)
Definition owned_by (e : string) (c : Call) : Prop :=
  forall dd rs, res c = Some (Fulfilled dd) -> as_records dd = Some rs ->
  Forall (fun r => AttendanceRecord.employee_id r = e) rs.

(** The records call of a load asks for the load's employee, and, when
    the id routes, is answered with that employee's records only. *)
Definition op_ok (o : Op) : Prop :=
  match o with
  | OpLoadRecs e d c1 _ =>
      js_truthy e = true /\ req c1 = getAttendance e (or_undefined d) /\
      (url_safe e = true -> owned_by e c1)
  | _ => True
  end.

Definition records_owned (p : Page) : Prop :=
  Forall (fun r => AttendanceRecord.employee_id r = selectedEmp p) (records p).


Lemma loadRecords_ok e d : Forall op_ok (issued (loadRecords e d)).
Proof.
  unfold loadRecords. destruct (js_truthy e) eqn:He; simpl; repeat constructor; try done.
  all: intros _ dd rs Hr; discriminate.
Qed.

Lemma select_ok id : Forall op_ok (issued (handleSelectEmployee id)).
Proof.
  unfold handleSelectEmployee. rewrite issued_app. apply Forall_app. split; [constructor|].
  destruct (js_truthy id); [apply loadRecords_ok | constructor].
Qed.

Lemma filter_ok p d : Forall op_ok (issued (handleFilterDate p d)).
Proof. apply (loadRecords_ok (selectedEmp p) d). Qed.

Lemma mark_ok p : Forall op_ok (issued (handleMark p)).
Proof. repeat constructor. Qed.

Lemma settled_ok o cs : op_settled o = Some cs -> Forall op_ok (issued cs).
Proof.
  destruct o as [c|e d c1 c2|s c]; simpl; unfold on_employees, on_records, on_mark.
  - destruct (res c) as [[d|r]|]; intros Hs; simplify_eq;
      [destruct (as_employees d)|]; repeat constructor.
  - destruct (join2 c1 c2) as [[[d1 d2]|]|]; intros Hs; simplify_eq;
      [destruct (as_records d1), (as_summary d2)|]; repeat constructor.
  - destruct (res c) as [[d|r]|]; intros Hs; simplify_eq; [|repeat constructor].
    rewrite !issued_app. apply Forall_app; split; [constructor|].
    apply Forall_app; split; [apply loadRecords_ok | constructor].
Qed.

Section Ownership.
Context `{BL : BackendLaws}.

Lemma serve_op_ok st o k t st' o' :
  op_ok o -> serve_op st o k t = Some (st', o') -> op_ok o'.
Proof.
  intros Hok Hs. pose proof (serve_op_kind _ _ _ _ _ _ Hs) as Hk.
  destruct o as [c|e d c1 c2|s c]; destruct o' as [c'|e' d' c1' c2'|s' c'];
    simpl in Hk; try discriminate; try exact I.
  destruct Hok as (Htr & Hrq & Hown).
  destruct k as [|[|k]]; simpl in Hs; unfold serve_call in Hs; try discriminate.
  - destruct (res c1) eqn:Hres; [discriminate|].
    destruct (exchange st (req c1) t) as [st1 out] eqn:Hex. simplify_eq. simpl.
    split_and!; [done|done|]. intros Hsafe dd rs Hout Hrs. simpl in Hout. simplify_eq.
    destruct dd; try discriminate. injection Hrs as ->.
    rewrite Hrq in Hex. destruct t; simpl in Hex; simplify_eq.
    rewrite serve_getAttendance in * by done.
    match goal with H : context [handle st ?ep] |- _ =>
      destruct (handle st ep) as [st2 [dd|]] eqn:Hh end;
      simpl in *; try discriminate. simplify_eq.
    eapply Forall_impl; [eapply list_attendance_scoped; by rewrite Hh|].
    by intros r [? _].
  - destruct (res c2); [discriminate|].
    destruct (exchange st (req c2) t). simplify_eq. by split_and!.
Qed.
(** A property of every op in flight survives a step when the handlers
    start ops that have it (a mark only from a form that passed its
    checks), serving keeps it, and the continuations start ops that have
    it. *)
Lemma pending_forall_step (P : Op -> Prop) w e w' :
  (forall id, Forall P (issued (handleSelectEmployee id))) ->
  (forall d, Forall P (issued (handleFilterDate (page w) d))) ->
  (form_valid (today w) (form (page w)) = true -> Forall P (issued (handleMark (page w)))) ->
  (forall st o k t st' o', P o -> serve_op st o k t = Some (st', o') -> P o') ->
  (forall o cs, op_settled o = Some cs -> Forall P (issued cs)) ->
  Forall P (pending w) -> step w e = Some w' -> Forall P (pending w') /\ today w' = today w.
Proof.
  intros Hsel Hfil Hmark Hserve Hsettle Hok Hs.
  destruct e as [id|d| |d|s| | | | |n k tr|n];
    simpl in Hs; unfold with_page in Hs.
  1-9: take_guard Hs; rewrite ?run_cmds_spec; cbn [pending today]; split; try done;
    apply Forall_app; split; try done;
    first [apply Hsel | apply Hfil | apply Hmark; done | simpl; constructor].
  - destruct (pending w !! n) as [o|] eqn:Hn; [|discriminate].
    destruct (serve_op (srv w) o k tr) as [[st1 o']|] eqn:Ho; [|discriminate].
    injection Hs as <-. simpl. split; [|done]. apply Forall_insert; [done|].
    eapply Hserve; [|exact Ho]. by eapply Forall_lookup_1.
  - destruct (pending w !! n) as [o|] eqn:Hn; [|discriminate].
    destruct (op_settled o) as [cs|] eqn:Ho; [|discriminate].
    injection Hs as <-. rewrite run_cmds_spec. simpl. split; [|done].
    apply Forall_app. split; [by apply Forall_delete | by eapply Hsettle].
Qed.

Lemma ok_step w e w' :
  Forall op_ok (pending w) -> step w e = Some w' -> Forall op_ok (pending w').
Proof.
  intros Hok Hs. eapply pending_forall_step; [| | | | | exact Hok | exact Hs].
  - apply select_ok.
  - intros d. apply filter_ok.
  - intros _. apply mark_ok.
  - apply serve_op_ok.
  - apply settled_ok.
Qed.

Lemma reachable_ok w : reachable w -> Forall op_ok (pending w).
Proof. induction 1; [repeat constructor | by eapply ok_step]. Qed.
(** The updates that leave the shown records and the selection alone. *)
Definition keeps_owner (u : Update) : bool :=
  match u with setRecords _ | setSelectedEmp _ => false | _ => true end.

Lemma apply_updates_owner p us :
  forallb keeps_owner us = true ->
  records (apply_updates p us) = records p /\
  selectedEmp (apply_updates p us) = selectedEmp p.
Proof.
  revert p. induction us as [|u us IH]; intros p Hk; simpl in *; [done|].
  apply andb_true_iff in Hk as [Hu Hk]. destruct (IH (apply_update p u) Hk) as [-> ->].
  destruct p, u; simpl in *; try discriminate; done.
Qed.

Lemma owned_updates p us :
  forallb keeps_owner us = true -> records_owned p -> records_owned (apply_updates p us).
Proof.
  intros Hk. unfold records_owned. by destruct (apply_updates_owner p _ Hk) as [-> ->].
Qed.

Lemma owned_update1 p u :
  keeps_owner u = true -> records_owned p -> records_owned (apply_update p u).
Proof. intros Hk. apply (owned_updates p [u]). simpl. by rewrite Hk. Qed.

Lemma owned_keep w cs :
  forallb keeps_owner (updates cs) = true ->
  records_owned (page w) -> records_owned (page (run_cmds w cs)).
Proof.
  intros Hk. rewrite run_cmds_spec. unfold records_owned. simpl.
  by destruct (apply_updates_owner (page w) _ Hk) as [-> ->].
Qed.

Lemma settle_owned w n e d c1 c2 cs :
  op_ok (OpLoadRecs e d c1 c2) -> url_safe e = true ->
  op_settled (OpLoadRecs e d c1 c2) = Some cs -> e = selectedEmp (page w) ->
  records_owned (page w) ->
  records_owned (page (run_cmds (mkWorld (page w) (srv w) n (today w)) cs)).
Proof.
  intros (_ & _ & Hown) Hsafe Hs -> Hw. simpl in Hs.
  destruct (join2 c1 c2) as [[[d1 d2]|]|] eqn:Hj; simplify_eq;
    [| by apply owned_keep ..].
  unfold on_records. destruct (as_records d1) as [rs|] eqn:Hrs;
    [destruct (as_summary d2) |]; try (by apply owned_keep).
  rewrite run_cmds_spec. unfold records_owned. simpl.
  destruct (page w); simpl in *. eapply (Hown Hsafe); [exact (proj1 (join2_fulfilled _ _ _ _ Hj)) | exact Hrs].
Qed.

(** C1: the only step that can show another employee's records is the
    settling of a records load started for an employee who is no longer
    the selected one.  (The ids on the roster are assumed URL-safe: see
    [Api.slash_ids_misroute] for what happens otherwise.) *)
Theorem only_stale_loads_misattribute w e w' :
  reachable w ->
  Forall (fun x => url_safe (Employee.employee_id x) = true) (employees (page w)) ->
  records_owned (page w) -> step w e = Some w' ->
  records_owned (page w') \/
  exists n e' d c1 c2, e = Settle n /\ pending w !! n = Some (OpLoadRecs e' d c1 c2) /\
                       e' <> selectedEmp (page w).
Proof.
  intros Hr Hsafe Hw Hs.
  pose proof (reachable_inv w Hr) as (_ & _ & _ & _ & Hin).
  pose proof (reachable_ok w Hr) as Hok.
  destruct e as [id|d| |d|s| | | | |n k tr|n];
    unfold step, with_page in Hs; cbv beta zeta iota in Hs.
  { take_guard Hs. left. unfold handleSelectEmployee. rewrite run_cmds_spec.
    unfold records_owned, loadRecords. simpl. destruct (page w); simpl.
    destruct (js_truthy id); simpl; constructor. }
  1-8: take_guard Hs; left; rewrite ?run_cmds_spec; cbn [page];
    repeat first [ apply owned_updates;
                     [unfold loadRecords; simpl; try case_goal; reflexivity |]
                 | apply owned_update1; [reflexivity |] ];
    try exact Hw; by apply owned_keep.
  - destruct (pending w !! n) as [o|]; [|discriminate].
    destruct (serve_op (srv w) o k tr) as [[st1 o']|]; [|discriminate].
    injection Hs as <-. by left.
  - destruct (pending w !! n) as [o|] eqn:Hn; [|discriminate].
    destruct (op_settled o) as [cs|] eqn:Ho; [|discriminate]. injection Hs as <-.
    pose proof (Forall_lookup_1 _ _ _ _ Hok Hn) as Hoko.
    destruct o as [c|e' d c1 c2|sn c].
    + left. apply owned_keep; [|done]. simpl in Ho. destruct (res c) as [r|]; [|done].
      injection Ho as <-. unfold on_employees.
      destruct r as [dd|]; [destruct (as_employees dd)|]; done.
    + destruct (decide (e' = selectedEmp (page w))) as [He|He]; [left | right; eauto 10].
      eapply settle_owned; [exact Hoko| | exact Ho | exact He | exact Hw].
      destruct Hoko as (Htr & _). subst e'.
      apply Hin in Htr. unfold roster_ids in Htr. apply list_elem_of_fmap in Htr as [x [-> Hx]].
      rewrite Forall_forall in Hsafe. by apply Hsafe.
    + left. apply owned_keep; [|done]. simpl in Ho. destruct (res c) as [r|]; [|done].
      injection Ho as <-. unfold on_mark, loadRecords.
      destruct r; [destruct (js_truthy (snap_emp sn))|]; done.
Qed.

End Ownership.

(** ** What a mark posts *)

(** A mark in flight posts the form it captured at submit, and that form
    passed the date input's [required] and [max={today()}]. *)
Definition mark_posted (t : string) (o : Op) : Prop :=
  match o with
  | OpMark s c =>
      form_valid t (snap_form s) = true /\
      req c = markAttendance (MarkPayload.mk (snap_emp s) (Form.date (snap_form s))
                                             (Form.status (snap_form s)))
  | _ => True
  end.

Lemma loadRecords_posted t e d : Forall (mark_posted t) (issued (loadRecords e d)).
Proof. unfold loadRecords. destruct (js_truthy e); repeat constructor. Qed.

Lemma settled_posted t o cs : op_settled o = Some cs -> Forall (mark_posted t) (issued cs).
Proof.
  destruct o as [c|e d c1 c2|sn c]; simpl; unfold on_employees, on_records, on_mark.
  - destruct (res c) as [[d|r]|]; intros Hs; simplify_eq;
      [destruct (as_employees d)|]; repeat constructor.
  - destruct (join2 c1 c2) as [[[d1 d2]|]|]; intros Hs; simplify_eq;
      [destruct (as_records d1), (as_summary d2)|]; repeat constructor.
  - destruct (res c) as [[d|r]|]; intros Hs; simplify_eq; [|repeat constructor].
    rewrite !issued_app. apply Forall_app; split; [constructor|].
    apply Forall_app; split; [apply loadRecords_posted | constructor].
Qed.

Section MarksPosted.
Context `{Backend}.

Lemma serve_op_posted t st o k tr st' o' :
  mark_posted t o -> serve_op st o k tr = Some (st', o') -> mark_posted t o'.
Proof.
  intros Hp Hs. pose proof (serve_op_kind _ _ _ _ _ _ Hs) as Hk.
  destruct o as [c|e d c1 c2|sn c]; destruct o' as [c'|e' d' c1' c2'|sn' c'];
    simpl in Hk; try discriminate; try exact I.
  destruct k as [|k]; simpl in Hs; [|discriminate].
  destruct (serve_call st c tr) as [[st1 c1]|] eqn:Hc; [|discriminate]. simplify_eq.
  destruct (serve_call_res _ _ _ _ _ Hc) as (_ & Hrq & _). simpl. by rewrite Hrq.
Qed.

Lemma reachable_posted w : reachable w -> Forall (mark_posted (today w)) (pending w).
Proof.
  induction 1 as [st t|w e w' Hr IH Hs]; [repeat constructor|].
  destruct (pending_forall_step (mark_posted (today w)) w e w') as [Hp ->]; try done.
  - intros id. unfold handleSelectEmployee. rewrite issued_app.
    apply Forall_app; split; [constructor|]. destruct (js_truthy id); [apply loadRecords_posted|constructor].
  - intros d. apply loadRecords_posted.
  - intros Hv. repeat constructor; done.
  - intros ??????. apply serve_op_posted.
  - apply settled_posted.
Qed.

(** C28: every mark in flight posts the date, status and employee of the
    form at submit time, and its date is not empty and not after today:
    the date input's [required] and [max={today()}] hold of every mark
    the page sends. *)
Theorem marks_post_valid_dates w s c :
  reachable w -> OpMark s c ∈ pending w ->
  js_truthy (Form.date (snap_form s)) = true /\
  String.leb (Form.date (snap_form s)) (today w) = true /\
  req c = markAttendance (MarkPayload.mk (snap_emp s) (Form.date (snap_form s))
                                         (Form.status (snap_form s))).
Proof.
  intros Hr Hin. pose proof (reachable_posted w Hr) as Hp.
  rewrite Forall_forall in Hp. destruct (Hp _ Hin) as (Hv & Hrq).
  unfold form_valid in Hv. bool_hyps. by split_and!.
Qed.
End MarksPosted.

Lemma marks_post_valid_dates_witness :
  js_truthy "2024-01-10" = true /\ String.leb "2024-01-10" "2024-01-10" = true /\
  req (fresh (markAttendance (MarkPayload.mk "EMP001" "2024-01-10" Present))) =
  markAttendance (MarkPayload.mk "EMP001" "2024-01-10" Present).
Proof.
  apply (marks_post_valid_dates (H := MemBackend)
           (Sample.after (Sample.ready_events ++ [SubmitMark]))
           (mkSnap "EMP001" (Form.mk "2024-01-10" Present) ""
              (employees (page Sample.ready)))).
  - apply (sample_reachable (Sample.ready_events ++ [SubmitMark])). vm_compute. reflexivity.
  - vm_compute. left.
Defined.


(** ** The theorems at the sample roster *)

Section Witnesses.
Lemma saving_tracks_mark_witness :
  count_kind KMark (pending (Sample.after (Sample.ready_events ++ [SubmitMark]))) =
  (if saving (page (Sample.after (Sample.ready_events ++ [SubmitMark]))) then 1 else 0).
Proof. apply saving_tracks_mark, (sample_reachable (Sample.ready_events ++ [SubmitMark])).
       vm_compute. reflexivity. Defined.

Lemma selected_on_roster_witness :
  loadingEmps (page Sample.ready) = false /\
  selectedEmp (page Sample.ready) ∈ roster_ids (employees (page Sample.ready)).
Proof.
  apply selected_on_roster; [apply (sample_reachable Sample.ready_events) |];
    vm_compute; reflexivity.
Defined.

Lemma mark_accepted_shown_witness :
  exists w', runs Sample.ready mark_events = Some w' /\
    AttendanceRecord.mk 2 "EMP001" "2024-01-10" Present ∈ records (page w').
Proof.
  destruct (mark_accepted_shown Sample.ready
              (Mem.handle (srv Sample.ready) (EMark (mark_payload (page Sample.ready)))).1
              (AttendanceRecord.mk 2 "EMP001" "2024-01-10" Present))
    as (w' & Hr & Hin & _); try (vm_compute; reflexivity).
  - left. vm_compute. reflexivity.
  - by exists w'.
Defined.

Lemma mark_rejected_kept_witness :
  exists w', runs (Sample.after (Sample.ready_events ++ [ChangeFormDate "2024-01-09"]))
               [SubmitMark; Serve 0 0 Delivered; Settle 0] = Some w' /\
    formError (page w') = "Attendance already marked for this date".
Proof.
  destruct (mark_rejected_kept (Sample.after (Sample.ready_events ++ [ChangeFormDate "2024-01-09"]))
              Delivered (Some (400, Some "Attendance already marked for this date")))
    as (w' & Hr & Hf & _); try (vm_compute; reflexivity).
  exists w'. by rewrite Hr, Hf.
Defined.

Lemma attendance_settles_witness :
  exists w', runs (Sample.after (take 4 Sample.race))
               (drain (weight (pending (Sample.after (take 4 Sample.race))))
                      (Sample.after (take 4 Sample.race))) = Some w' /\
    pending w' = [] /\ saving (page w') = false /\
    loadingEmps (page w') = false /\ loadingRecs (page w') = false.
Proof.
  apply attendance_settles, (sample_reachable (take 4 Sample.race)).
  vm_compute. reflexivity.
Defined.

Lemma filter_then_clear_witness :
  exists w1 w2,
    runs Sample.ready (ChangeFilter "2024-01-09" :: load_events) = Some w1 /\
    runs w1 (ClearFilter :: load_events) = Some w2 /\
    records (page w1) = [AttendanceRecord.mk 0 "EMP001" "2024-01-09" Present] /\
    summary (page w2) = Some (Summary.mk 1 1 0).
Proof.
  destruct (filter_then_clear Sample.ready "2024-01-09"
              [AttendanceRecord.mk 0 "EMP001" "2024-01-09" Present] (Summary.mk 1 1 0))
    as (w1 & w2 & H1 & H2 & Hr1 & _ & _ & _ & _ & Hs2 & _); try (vm_compute; reflexivity).
  exists w1, w2. split_and!; try done. all: rewrite Hr1; reflexivity.
Defined.

Lemma only_stale_loads_misattribute_witness :
  records_owned (page (Sample.after Sample.race)) \/
  exists n e' d c1 c2, Settle 0 = Settle n /\
    pending (Sample.after (take 9 Sample.race)) !! n = Some (OpLoadRecs e' d c1 c2) /\
    e' <> selectedEmp (page (Sample.after (take 9 Sample.race))).
Proof.
  apply (only_stale_loads_misattribute (Sample.after (take 9 Sample.race)) (Settle 0)).
  all: try (apply (sample_reachable (take 9 Sample.race)));
    vm_compute; repeat constructor.
Defined.
End Witnesses.
