(* ===== verification/AttendanceSpec.v ===== *)
(** * The Attendance workflow of the spec, and its refinement

    Section 4.1 of the spec describes the Attendance view as a state
    machine: [NoEmployeeSelected], then [EmployeeSelected] with the
    sub-states [RecordsLoading], [RecordsLoaded] and [RecordsFiltered],
    and an orthogonal [Submitting] flag while a mark is in flight.  Its
    transitions are: select an employee, filter by a date (or clear the
    filter), start and finish a mark, and a load finishing.  [AState] and
    [astep] write that machine down; [abs] reads its state off the page
    ([selectedEmp], [loadingRecs], [filterDate], [saving]).  The
    refinement theorem says every step of [Attendance.step] is a
    transition of the spec's machine or leaves its state alone. *)

From S2P Require Import Prelude Domain Api Route Backend Promise Attendance AttendanceProps.

Inductive AView :=
| NoEmployeeSelected
| RecordsLoading (e : string)
| RecordsLoaded (e : string)
| RecordsFiltered (e d : string).

Record AState := mkA { view : AView; submitting : bool }.

(** The employee of an [EmployeeSelected] sub-state. *)
Definition view_emp (v : AView) : option string :=
  match v with
  | NoEmployeeSelected => None
  | RecordsLoading e | RecordsLoaded e | RecordsFiltered e _ => Some e
  end.

(** The transitions of section 4.1. *)
Inductive astep : AState -> AState -> Prop :=
| a_stay s : astep s s
| a_select s e :
    js_truthy e = true -> astep s (mkA (RecordsLoading e) (submitting s))
| a_unselect s : astep s (mkA NoEmployeeSelected (submitting s))
| a_filter v e b :
    view_emp v = Some e -> astep (mkA v b) (mkA (RecordsLoading e) b)
| a_mark_start v :
    view_emp v <> None -> astep (mkA v false) (mkA v true)
| a_mark_done v : astep (mkA v true) (mkA v false)
| a_mark_reload v e :
    view_emp v = Some e -> astep (mkA v true) (mkA (RecordsLoading e) false)
| a_loaded e b : astep (mkA (RecordsLoading e) b) (mkA (RecordsLoaded e) b)
| a_loaded_filtered e d b :
    js_truthy d = true -> astep (mkA (RecordsLoading e) b) (mkA (RecordsFiltered e d) b).

(** The spec's state of a page. *)
Definition abs_view (p : Page) : AView :=
  if js_truthy (selectedEmp p) then
    if loadingRecs p then RecordsLoading (selectedEmp p)
    else if js_truthy (filterDate p) then RecordsFiltered (selectedEmp p) (filterDate p)
    else RecordsLoaded (selectedEmp p)
  else NoEmployeeSelected.

Definition abs (p : Page) : AState := mkA (abs_view p) (saving p).

(** One of the spec's transitions, or none, between two concrete states. *)
Ltac solve_astep :=
  first [ apply a_stay
        | eapply a_select; done
        | apply a_unselect
        | eapply a_filter; reflexivity
        | apply a_mark_start; discriminate
        | apply a_mark_done
        | eapply a_mark_reload; reflexivity
        | apply a_loaded
        | apply a_loaded_filtered; done ].

Ltac abs_cases :=
  unfold handleSelectEmployee, handleFilterDate, handleMark, loadRecords, workflow_shown in *;
  rewrite ?run_cmds_spec; unfold abs, abs_view; simpl in *;
  repeat match goal with
         | |- context [js_truthy ?x] => is_var x; destruct (js_truthy x) eqn:?; simpl
         end;
  repeat (case_goal; simpl in *); try solve [congruence]; try solve_astep.

Section Refinement.
Context `{Backend}.

(** A mark in flight means [saving] is set. *)
Lemma mark_pending_saving w n s c :
  reachable w -> pending w !! n = Some (OpMark s c) -> saving (page w) = true.
Proof.
  intros Hr Hn. destruct (reachable_inv w Hr) as (Hm & _).
  rewrite (count_kind_delete KMark _ _ _ Hn) in Hm. simpl in Hm.
  destruct (saving (page w)); [done | lia].
Qed.

(** C26: the page refines the spec's workflow: in every reachable
    world, each event moves the page's phase ([NoEmployeeSelected],
    [RecordsLoading], [RecordsLoaded], [RecordsFiltered], and the
    [Submitting] flag) along a transition of section 4.1, or leaves it. *)
Theorem attendance_refines_spec w e w' :
  reachable w -> step w e = Some w' -> astep (abs (page w)) (abs (page w')).
Proof.
  intros Hr Hs.
  destruct e as [id|d| |d|s| | | | |n k tr|n];
    unfold step, with_page in Hs; cbv beta zeta iota in Hs.
  1-9: take_guard Hs; destruct w as [[emps sel recs summ lE lR sav err succ fErr frm fd] st pend t];
    simpl in *; subst; abs_cases.
  - destruct (pending w !! n) as [o|]; [|discriminate].
    destruct (serve_op (srv w) o k tr) as [[st1 o']|]; [|discriminate].
    injection Hs as <-. apply a_stay.
  - destruct (pending w !! n) as [o|] eqn:Hn; [|discriminate].
    destruct (op_settled o) as [cs|] eqn:Ho; [|discriminate]. injection Hs as <-.
    destruct o as [c|e' d c1 c2|sn c].
    + simpl in Ho. destruct (res c) as [r|]; [|done]. injection Ho as <-.
      destruct w as [[emps sel recs summ lE lR sav err succ fErr frm fd] st pend t].
      unfold on_employees. destruct r as [dd|]; [destruct (as_employees dd)|]; abs_cases.
    + simpl in Ho. destruct (join2 c1 c2) as [j|]; [|done]. injection Ho as <-.
      destruct w as [[emps sel recs summ lE lR sav err succ fErr frm fd] st pend t].
      unfold on_records. destruct j as [[d1 d2]|]; [destruct (as_records d1), (as_summary d2)|];
        abs_cases.
    + pose proof (mark_pending_saving _ _ _ _ Hr Hn) as Hsav.
      simpl in Ho. destruct (res c) as [r|]; [|done]. injection Ho as <-.
      destruct w as [[emps sel recs summ lE lR sav err succ fErr frm fd] st pend t].
      simpl in Hsav. subst sav.
      unfold on_mark, loadRecords. destruct r; abs_cases.
Qed.
End Refinement.

(** Selecting Asha once the sample roster has loaded: [NoEmployeeSelected]
    moves to [RecordsLoading "EMP001"]. *)
Lemma attendance_refines_spec_witness :
  astep (abs (page (Sample.after [Serve 0 0 Delivered; Settle 0])))
        (abs (page (Sample.after [Serve 0 0 Delivered; Settle 0; ClickEmployee "EMP001"]))).
Proof.
  apply (attendance_refines_spec (H := MemBackend) _ (ClickEmployee "EMP001")).
  - apply (sample_reachable [Serve 0 0 Delivered; Settle 0]). vm_compute. reflexivity.
  - vm_compute. reflexivity.
Defined.
