(* ===== verification/Employees.v ===== *)
(** * The Employees view, [src/frontend/src/pages/Employees.jsx]

    The view's state is its eleven [useState] hooks, the record [Page].
    It is modelled the way [Attendance.v] models its page: a handler is
    a list of commands, a [setX] call ([CSet]) or the start of a promise
    ([CIssue]); a promise in flight is an [Op] holding the closure values
    it captured and its HTTP call; the server answers a call at [Serve],
    and the promise's continuation runs atomically at [Settle].

    The search box filters the roster on the client ([filtered]), with
    [toLowerCase] and [includes] from the prelude.  The add form is a
    [Modal]: its close button, its backdrop and its Cancel button all run
    [() => { setShowAdd(false); setFormError(""); }], none is disabled.
    The delete dialog is a [ConfirmDialog]: its Cancel and Delete buttons
    are [disabled={deleting}], but the close button and the backdrop of
    its [Modal] are not, so it can be closed while the delete is in
    flight ([CloseDelete]).  The header counts the whole roster, not the
    rows the search leaves ([header_subtitle]). *)

From stdpp Require Import pretty.
From S2P Require Import Prelude Domain Api Route Backend Promise UI.

Module Export Employees.

(** The add form: [{ employee_id, full_name, email, department }]. *)
Definition empty_form : Employee.t := Employee.mk "" "" "" "".

Record Page := mkPage {
  employees : list Employee.t;
  loading : bool;
  error : string;
  success : string;
  search : string;
  showAdd : bool;
  form : Employee.t;
  formError : string;
  saving : bool;
  deleteTarget : option Employee.t;
  deleting : bool
}.

Inductive Update :=
| setEmployees (l : list Employee.t)
| setLoading (b : bool)
| setError (s : string)
| setSuccess (s : string)
| setSearch (s : string)
| setShowAdd (b : bool)
| setForm (f : Employee.t)
| setFormError (s : string)
| setSaving (b : bool)
| setDeleteTarget (t : option Employee.t)
| setDeleting (b : bool).

Definition apply_update (p : Page) (u : Update) : Page :=
  let 'mkPage emps ld err succ q sh frm fErr sav tgt del := p in
  match u with
  | setEmployees x => mkPage x ld err succ q sh frm fErr sav tgt del
  | setLoading x => mkPage emps x err succ q sh frm fErr sav tgt del
  | setError x => mkPage emps ld x succ q sh frm fErr sav tgt del
  | setSuccess x => mkPage emps ld err x q sh frm fErr sav tgt del
  | setSearch x => mkPage emps ld err succ x sh frm fErr sav tgt del
  | setShowAdd x => mkPage emps ld err succ q x frm fErr sav tgt del
  | setForm x => mkPage emps ld err succ q sh x fErr sav tgt del
  | setFormError x => mkPage emps ld err succ q sh frm x sav tgt del
  | setSaving x => mkPage emps ld err succ q sh frm fErr x tgt del
  | setDeleteTarget x => mkPage emps ld err succ q sh frm fErr sav x del
  | setDeleting x => mkPage emps ld err succ q sh frm fErr sav tgt x
  end.

(** A promise in flight: the roster load, [handleAdd] with the form it
    posted, [handleDelete] with the target it captured. *)
Inductive Op :=
| OpLoad (c : Call)
| OpAdd (snap : Employee.t) (c : Call)
| OpDelete (target : Employee.t) (c : Call).

Inductive Cmd :=
| CSet (u : Update)
| CIssue (o : Op).

Definition initial_page : Page :=
  mkPage [] true "" "" "" false empty_form "" false None false.

(** ** The search *)

(** [x.toLowerCase().includes(search.toLowerCase())] on one field. *)
Definition field_matches (field q : string) : bool :=
  includes (to_lower field) (to_lower q).

(** The four fields, OR-matched against one query. *)
Definition matches (q : string) (e : Employee.t) : bool :=
  field_matches (Employee.full_name e) q || field_matches (Employee.email e) q ||
  field_matches (Employee.department e) q || field_matches (Employee.employee_id e) q.

Definition filtered (p : Page) : list Employee.t :=
  filter (fun e => matches (search p) e = true) (employees p).

(** ** The handlers *)

(** [load()]: also the mount effect, [useEffect(load, [])]. *)
Definition load : list Cmd :=
  [CSet (setLoading true); CIssue (OpLoad (fresh getEmployees))].

(** The part of [handleAdd] before its [await]. *)
Definition handleAdd (p : Page) : list Cmd :=
  [CSet (setFormError ""); CSet (setSaving true);
   CIssue (OpAdd (form p) (fresh (addEmployee (form p))))].

(** The part of [handleDelete] before its [await]; [t] is the
    [deleteTarget] of the render that showed the dialog. *)
Definition handleDelete (t : Employee.t) : list Cmd :=
  [CSet (setDeleting true); CIssue (OpDelete t (fresh (deleteEmployee (Employee.employee_id t))))].

Definition added_message (f : Employee.t) : string :=
  "Employee " +:+ dquote +:+ Employee.full_name f +:+ dquote +:+ " added successfully.".

Definition deleted_message (t : Employee.t) : string :=
  "Employee " +:+ dquote +:+ Employee.full_name t +:+ dquote +:+ " deleted.".

(** ** The continuations *)

Definition on_load (o : Outcome) : list Cmd :=
  match o with
  | Fulfilled d =>
      match as_employees d with
      | Some l => [CSet (setEmployees l)]
      | None => [CSet (setError "Failed to load employees.")]
      end
  | Rejected _ => [CSet (setError "Failed to load employees.")]
  end ++ [CSet (setLoading false)].

Definition on_add (f : Employee.t) (o : Outcome) : list Cmd :=
  match o with
  | Fulfilled _ =>
      [CSet (setSuccess (added_message f)); CSet (setShowAdd false); CSet (setForm empty_form)]
      ++ load ++ [CSet (setSaving false)]
  | Rejected e =>
      [CSet (setFormError (error_detail e "Failed to add employee.")); CSet (setSaving false)]
  end.

Definition on_delete (t : Employee.t) (o : Outcome) : list Cmd :=
  match o with
  | Fulfilled _ =>
      [CSet (setSuccess (deleted_message t)); CSet (setDeleteTarget None)]
      ++ load ++ [CSet (setDeleting false)]
  | Rejected _ => [CSet (setError "Failed to delete employee."); CSet (setDeleting false)]
  end.

Definition op_settled (o : Op) : option (list Cmd) :=
  match o with
  | OpLoad c => match res c with Some r => Some (on_load r) | None => None end
  | OpAdd f c => match res c with Some r => Some (on_add f r) | None => None end
  | OpDelete t c => match res c with Some r => Some (on_delete t r) | None => None end
  end.

Section World.
Context `{Backend}.

Record World := mkWorld {
  page : Page;
  srv : bstate;
  pending : list Op
}.

(** The first render, with the mount effect's [load()] started. *)
Definition init (st : bstate) : World :=
  mkWorld (fold_left apply_update [setLoading true] initial_page) st
          [OpLoad (fresh getEmployees)].

Definition run_cmd (w : World) (c : Cmd) : World :=
  match c with
  | CSet u => mkWorld (apply_update (page w) u) (srv w) (pending w)
  | CIssue o => mkWorld (page w) (srv w) (pending w ++ [o])
  end.

Definition run_cmds (w : World) (cs : list Cmd) : World := fold_left run_cmd cs w.

(** Each op has one call. *)
Definition serve_op (st : bstate) (o : Op) (t : Transport) : option (bstate * Op) :=
  match o with
  | OpLoad c => match serve_call st c t with Some (st', c') => Some (st', OpLoad c') | None => None end
  | OpAdd f c => match serve_call st c t with Some (st', c') => Some (st', OpAdd f c') | None => None end
  | OpDelete e c =>
      match serve_call st c t with Some (st', c') => Some (st', OpDelete e c') | None => None end
  end.
End World.

(** ** Events *)

(** The fields of the add form. *)
Inductive Field := FEmployeeId | FFullName | FEmail | FDepartment.

(** [setForm({ ...form, <field>: e.target.value })]. *)
Definition set_field (f : Employee.t) (fld : Field) (v : string) : Employee.t :=
  match fld with
  | FEmployeeId => Employee.mk v (Employee.full_name f) (Employee.email f) (Employee.department f)
  | FFullName => Employee.mk (Employee.employee_id f) v (Employee.email f) (Employee.department f)
  | FEmail => Employee.mk (Employee.employee_id f) (Employee.full_name f) v (Employee.department f)
  | FDepartment => Employee.mk (Employee.employee_id f) (Employee.full_name f) (Employee.email f) v
  end.

(** A value a field's control can hold: the department [select] offers
    the empty placeholder and [DEPARTMENTS]. *)
Definition field_value_ok (fld : Field) (v : string) : bool :=
  match fld with
  | FDepartment => existsb (String.eqb v) ("" :: DEPARTMENTS)
  | _ => true
  end.

(** The browser's check of an [type="email"] input, as far as the model
    needs it: one [@] with a non-empty part on each side. *)
Definition email_valid (s : string) : bool :=
  match String.index 0 "@" s with
  | Some i => (0 <? i)%nat && (S i <? String.length s)%nat &&
              negb (includes (String.substring (S i) (String.length s) s) "@")
  | None => false
  end.

(** The [required] inputs and the [type="email"] input block the submit. *)
Definition form_valid (f : Employee.t) : bool :=
  js_truthy (Employee.employee_id f) && js_truthy (Employee.full_name f) &&
  email_valid (Employee.email f) && js_truthy (Employee.department f).

Inductive Event :=
| ClickAdd                          (** the [+ Add Employee] button *)
| CloseAdd                          (** the modal's close, backdrop or Cancel *)
| EditField (fld : Field) (v : string)
| SubmitAdd                         (** the modal's submit button *)
| ChangeSearch (q : string)
| ClickDelete (e : Employee.t)      (** the Delete button of a shown row *)
| ConfirmDelete                     (** the dialog's Delete button *)
| CancelDelete                      (** the dialog's Cancel button *)
| CloseDelete                       (** the dialog's close button or backdrop *)
| DismissError | DismissSuccess | DismissFormError
| Serve (n : nat) (t : Transport)
| Settle (n : nat).

(** The table shows rows once the roster has loaded. *)
Definition rows_shown (p : Page) : list Employee.t :=
  if loading p then [] else filtered p.

(** The header's count: [loading ? "Loading…" : `${employees.length}
    total employee${employees.length !== 1 ? "s" : ""}`]. *)
Definition header_subtitle (p : Page) : string :=
  if loading p then "Loading…"
  else pretty (length (employees p)) +:+ " total employee" +:+
       (if negb (Nat.eqb (length (employees p)) 1) then "s" else "").

Section Step.
Context `{Backend}.

Definition with_page (w : World) (cs : list Cmd) : option World := Some (run_cmds w cs).

Definition step (w : World) (e : Event) : option World :=
  let p := page w in
  match e with
  | ClickAdd => with_page w [CSet (setShowAdd true)]
  | CloseAdd =>
      if showAdd p then with_page w [CSet (setShowAdd false); CSet (setFormError "")] else None
  | EditField fld v =>
      if showAdd p && field_value_ok fld v
      then with_page w [CSet (setForm (set_field (form p) fld v))] else None
  | SubmitAdd =>
      if showAdd p && negb (saving p) && form_valid (form p) then with_page w (handleAdd p)
      else None
  | ChangeSearch q => with_page w [CSet (setSearch q)]
  | ClickDelete t =>
      if existsb (fun x => bool_decide (x = t)) (rows_shown p)
      then with_page w [CSet (setDeleteTarget (Some t))] else None
  | ConfirmDelete =>
      match deleteTarget p with
      | Some t => if dialog_allows true (deleting p) DConfirm then with_page w (handleDelete t)
                  else None
      | None => None
      end
  | CancelDelete =>
      if dialog_allows (bool_decide (is_Some (deleteTarget p))) (deleting p) DCancel
      then with_page w [CSet (setDeleteTarget None)] else None
  | CloseDelete =>
      if dialog_allows (bool_decide (is_Some (deleteTarget p))) (deleting p) DClose
      then with_page w [CSet (setDeleteTarget None)] else None
  | DismissError => if banner_shown (error p) then with_page w [CSet (setError "")] else None
  | DismissSuccess => if banner_shown (success p) then with_page w [CSet (setSuccess "")] else None
  | DismissFormError =>
      if showAdd p && banner_shown (formError p) then with_page w [CSet (setFormError "")]
      else None
  | Serve n t =>
      match pending w !! n with
      | Some o =>
          match serve_op (srv w) o t with
          | Some (st', o') => Some (mkWorld p st' (<[n := o']> (pending w)))
          | None => None
          end
      | None => None
      end
  | Settle n =>
      match pending w !! n with
      | Some o =>
          match op_settled o with
          | Some cs => with_page (mkWorld p (srv w) (delete n (pending w))) cs
          | None => None
          end
      | None => None
      end
  end.

Inductive reachable : World -> Prop :=
| reachable_init st : reachable (init st)
| reachable_step w e w' : reachable w -> step w e = Some w' -> reachable w'.

Definition runs (w : World) (es : list Event) : option World := run step w es.
End Step.
End Employees.
