(* ===== verification/EmployeesProps.v ===== *)
(** * Properties of the Employees view

    The theorems about [Employees.v]: the client-side search finds
    exactly the employees one of whose four fields contains the query,
    ignoring case; the invariant of every reachable world (one add in
    flight exactly while [saving], one delete exactly while [deleting],
    a load in flight while [loading]); adding and deleting as event
    traces on any backend satisfying [BackendLaws], on success and on
    error; and two interleavings the code does not guard against, run on
    the reference backend. *)

From Stdlib Require Import Wellfounded.
From S2P Require Import Prelude Domain Api Route Backend Promise Employees.

(** ** Commands, as updates and issued promises *)

Definition emp_updates (cs : list Cmd) : list Update :=
  omap (fun c => match c with CSet u => Some u | CIssue _ => None end) cs.

Definition emp_issued (cs : list Cmd) : list Op :=
  omap (fun c => match c with CIssue o => Some o | CSet _ => None end) cs.

Definition is_load (o : Op) : bool := match o with OpLoad _ => true | _ => false end.
Definition is_add (o : Op) : bool := match o with OpAdd _ _ => true | _ => false end.
Definition is_delete (o : Op) : bool := match o with OpDelete _ _ => true | _ => false end.

(** Two ops of the same kind. *)
Definition op_kind_same (o o' : Op) : Prop := is_load o' = is_load o.

Section Cmds.
Context `{Backend}.

Lemma emp_run_cmds_spec w cs :
  run_cmds w cs =
  mkWorld (fold_left apply_update (emp_updates cs) (page w)) (srv w) (pending w ++ emp_issued cs).
Proof.
  revert w. induction cs as [|[u|o] cs IH]; intros [p st pend]; simpl.
  - by rewrite app_nil_r.
  - apply IH.
  - rewrite IH. simpl. by rewrite <- app_assoc.
Qed.

(** Serving keeps the kind of an op. *)
Lemma emp_serve_op_kind st o t st' o' :
  serve_op st o t = Some (st', o') ->
  is_load o' = is_load o /\ is_add o' = is_add o /\ is_delete o' = is_delete o.
Proof. destruct o; simpl; repeat case_match; intros Heq; simplify_eq; done. Qed.
End Cmds.

(** ** The search *)

(** The fields the search looks at. *)
Definition search_fields (e : Employee.t) : list string :=
  [Employee.full_name e; Employee.email e; Employee.department e; Employee.employee_id e].

Lemma field_matches_spec f q :
  field_matches f q = true <-> exists a b, to_lower f = a +:+ to_lower q +:+ b.
Proof. apply includes_spec. Qed.

Lemma matches_spec q e :
  matches q e = true <->
  exists f, f ∈ search_fields e /\ exists a b, to_lower f = a +:+ to_lower q +:+ b.
Proof.
  unfold matches, search_fields. rewrite !orb_true_iff. split.
  - intros [[[H|H]|H]|H]; apply field_matches_spec in H; eexists; (split; [|exact H]);
      set_solver.
  - intros (f & Hf & H). apply field_matches_spec in H.
    repeat (apply elem_of_cons in Hf as [->|Hf]; [tauto|]). set_solver.
Qed.

(** C13: the search box shows exactly the employees of the roster one of
    whose name, email, department or id contains the query as a
    substring, ignoring case; the empty query shows the whole roster. *)
Theorem search_spec p e :
  (e ∈ filtered p <->
   e ∈ employees p /\
   exists f, f ∈ search_fields e /\ exists a b, to_lower f = a +:+ to_lower (search p) +:+ b) /\
  (search p = "" -> filtered p = employees p).
Proof.
  split.
  - unfold filtered. rewrite list_elem_of_filter, matches_spec. naive_solver.
  - intros Hq. unfold filtered. rewrite Hq. apply filter_all. intros x _.
    unfold matches, field_matches. simpl. by rewrite includes_empty.
Qed.

(** ** The invariant of every reachable world *)

Section EmpInvariant.
Context `{Backend}.

Definition emp_inv (w : World) : Prop :=
  count_if is_add (pending w) = (if saving (page w) then 1 else 0) /\
  count_if is_delete (pending w) = (if deleting (page w) then 1 else 0) /\
  (loading (page w) = true -> 1 <= count_if is_load (pending w)).

Lemma emp_inv_init st : emp_inv (init st).
Proof. cbv. repeat split; lia. Qed.

Ltac emp_close :=
  rewrite ?emp_run_cmds_spec; simpl; autorewrite with hrms; simpl;
  split_and!; intros; simplify_eq; try done; try lia.

Lemma emp_inv_step w e w' : emp_inv w -> step w e = Some w' -> emp_inv w'.
Proof.
  destruct w as [[emps ld err succ q sh frm fErr sav tgt del] st pend].
  unfold emp_inv. simpl. intros (Ha & Hd & Hl) Hs.
  destruct e as [| |fld v| |q'|t| | | | | | |n tr|n];
    unfold step, with_page in Hs; simpl in Hs.
  1-12: repeat case_match; simplify_eq; emp_close.
  - destruct (pend !! n) as [o|] eqn:Hn; [|discriminate].
    destruct (serve_op st o tr) as [[st1 o']|] eqn:Ho; [|discriminate]. simplify_eq.
    destruct (emp_serve_op_kind _ _ _ _ _ Ho) as (K1 & K2 & K3). simpl.
    rewrite !(count_if_insert _ _ _ o) by done. done.
  - destruct (pend !! n) as [o|] eqn:Hn; [|discriminate].
    destruct (op_settled o) as [cs|] eqn:Ho; [|discriminate]. simplify_eq.
    pose proof (count_if_delete is_add _ _ _ Hn) as Da.
    pose proof (count_if_delete is_delete _ _ _ Hn) as Dd.
    pose proof (count_if_delete is_load _ _ _ Hn) as Dl.
    destruct o as [c|f c|t c]; simpl in Ho, Da, Dd, Dl;
      destruct (res c) as [r|]; simplify_eq.
    all: destruct sav, del, ld; simpl in *;
      unfold on_load, on_add, on_delete, load; repeat case_match; emp_close.
Qed.

Lemma emp_reachable_inv w : reachable w -> emp_inv w.
Proof. induction 1; [apply emp_inv_init | by eapply emp_inv_step]. Qed.

Lemma emp_runs_reachable w es w' : reachable w -> runs w es = Some w' -> reachable w'.
Proof.
  unfold runs. revert w. induction es as [|e es IH]; intros w Hw; simpl.
  - congruence.
  - destruct (step w e) as [w1|] eqn:He; [|discriminate].
    apply IH. by eapply reachable_step.
Qed.

(** C14: the add form's [disabled={saving}] and the dialog's
    [disabled={deleting}] keep at most one add and one delete in
    flight: [saving] is set exactly while an add is, [deleting]
    exactly while a delete is, and a roster load is in flight while
    the table shows its skeleton. *)
Theorem one_add_one_delete w :
  reachable w ->
  count_if is_add (pending w) = (if saving (page w) then 1 else 0) /\
  count_if is_delete (pending w) = (if deleting (page w) then 1 else 0) /\
  (loading (page w) = true -> 1 <= count_if is_load (pending w)).
Proof. apply emp_reachable_inv. Qed.
End EmpInvariant.

(** ** What the page sends *)

(** The request of each op in flight is the one its handler builds: the
    roster load, the add of the form captured at submit (which passed the
    form's checks), the delete of the dialog's target. *)
Definition emp_posted (o : Op) : Prop :=
  match o with
  | OpLoad c => req c = getEmployees
  | OpAdd f c => form_valid f = true /\ req c = addEmployee f
  | OpDelete t c => req c = deleteEmployee (Employee.employee_id t)
  end.

Section EmpPosted.
Context `{Backend}.

Lemma emp_serve_posted st o tr st' o' :
  emp_posted o -> serve_op st o tr = Some (st', o') -> emp_posted o'.
Proof.
  destruct o as [c|f c|t c]; simpl;
    destruct (serve_call st c tr) as [[st1 c1]|] eqn:Hc; intros Hp Hs; try discriminate;
    simplify_eq; destruct (serve_call_res _ _ _ _ _ Hc) as (_ & Hrq & _); simpl; by rewrite Hrq.
Qed.

Lemma emp_settled_posted o cs : op_settled o = Some cs -> Forall emp_posted (emp_issued cs).
Proof.
  destruct o as [c|f c|t c]; simpl; destruct (res c) as [[d|e]|]; intros Hs; simplify_eq;
    unfold on_load, on_add, on_delete, load; try destruct (as_employees d); repeat constructor.
Qed.

Lemma emp_posted_step w e w' :
  Forall emp_posted (pending w) -> step w e = Some w' -> Forall emp_posted (pending w').
Proof.
  intros Hok Hs.
  destruct e as [| |fld v| |q|t| | | | | | |n tr|n];
    unfold step, with_page in Hs; cbv beta zeta iota in Hs.
  1-12: repeat case_match; simplify_eq; bool_hyps; rewrite emp_run_cmds_spec; simpl;
    apply Forall_app; split; try done; repeat constructor; done.
  - destruct (pending w !! n) as [o|] eqn:Hn; [|discriminate].
    destruct (serve_op (srv w) o tr) as [[st1 o']|] eqn:Ho; [|discriminate].
    injection Hs as <-. simpl. apply Forall_insert; [done|].
    eapply emp_serve_posted; [|exact Ho]. by eapply Forall_lookup_1.
  - destruct (pending w !! n) as [o|] eqn:Hn; [|discriminate].
    destruct (op_settled o) as [cs|] eqn:Ho; [|discriminate].
    injection Hs as <-. rewrite emp_run_cmds_spec. simpl.
    apply Forall_app. split; [by apply Forall_delete | by eapply emp_settled_posted].
Qed.

(** C29: the page sends what its handlers build: every add in flight
    posts the form captured at submit, which passed the [required] and
    [type="email"] checks, and every delete in flight deletes the id of
    the employee its dialog named. *)
Theorem requests_match_handlers w :
  reachable w ->
  (forall f c, OpAdd f c ∈ pending w -> form_valid f = true /\ req c = addEmployee f) /\
  (forall t c, OpDelete t c ∈ pending w -> req c = deleteEmployee (Employee.employee_id t)).
Proof.
  intros Hr. assert (Hp : Forall emp_posted (pending w)).
  { induction Hr as [st|w e w' Hr IH Hs]; [repeat constructor | by eapply emp_posted_step]. }
  rewrite Forall_forall in Hp. split; intros ?? Hin; exact (Hp _ Hin).
Qed.
End EmpPosted.

(** ** Adding and deleting, on any lawful backend *)

Section EmpServing.
Context `{Backend}.

Lemma serve_addEmployee st e : serve st (addEmployee e) = handle st (EAddEmployee e).
Proof. reflexivity. Qed.

Lemma serve_getEmployees st : serve st getEmployees = handle st EListEmployees.
Proof. reflexivity. Qed.

Lemma serve_deleteEmployee st id :
  url_safe id = true -> serve st (deleteEmployee id) = handle st (EDeleteEmployee id).
Proof. intros Hs. unfold serve. by rewrite route_deleteEmployee. Qed.
End EmpServing.

(** Submit, the server answers, the continuation runs and reloads the
    roster, the server answers the load, the load settles. *)
Definition add_events : list Event :=
  [SubmitAdd; Serve 0 Delivered; Settle 0; Serve 0 Delivered; Settle 0].

Section Mutations.
Context `{BL : BackendLaws}.

Local Opaque serve.

(** C15: an employee the server adds is listed.  Submitting a complete
    form, when the server accepts it, closes the modal, resets the
    form, shows the success banner naming the employee, reloads the
    roster and lists the new employee, with nothing left in flight. *)
Theorem add_accepted_listed w st' d :
  pending w = [] -> showAdd (page w) = true -> saving (page w) = false ->
  form_valid (form (page w)) = true ->
  handle (srv w) (EAddEmployee (form (page w))) = (st', RespOk d) ->
  exists w', runs w add_events = Some w' /\
    form (page w) ∈ employees (page w') /\
    showAdd (page w') = false /\ form (page w') = empty_form /\
    success (page w') = added_message (form (page w)) /\
    saving (page w') = false /\ loading (page w') = false /\ pending w' = [].
Proof.
  destruct w as [[emps ld err succ q sh frm fErr sav tgt del] st pend]. simpl.
  intros -> -> -> Hv Hadd.
  destruct (add_listed _ _ _ _ Hadd) as (l & Hl & Hin).
  unfold runs, add_events. simpl. unfold with_page. rewrite Hv. simpl.
  rewrite serve_addEmployee, Hadd. simpl.
  rewrite serve_getEmployees, (handle_read_pure st' EListEmployees) by done.
  destruct (handle st' EListEmployees) as [st2 r2] eqn:Hh. simpl in Hl. subst r2.
  simpl. eexists. split; [reflexivity|]. by split_and!.
Qed.

(** C16: the error path of [handleAdd]: whatever the rejection, the
    modal shows the server's [detail] or the fallback and keeps the
    values entered; the roster is not reloaded and nothing else of the
    view changes. *)
Theorem add_rejected_kept w tr e :
  pending w = [] -> showAdd (page w) = true -> saving (page w) = false ->
  form_valid (form (page w)) = true ->
  (exchange (srv w) (addEmployee (form (page w))) tr).2 = Rejected e ->
  exists w', runs w [SubmitAdd; Serve 0 tr; Settle 0] = Some w' /\
    formError (page w') = error_detail e "Failed to add employee." /\
    form (page w') = form (page w) /\ showAdd (page w') = true /\
    employees (page w') = employees (page w) /\ success (page w') = success (page w) /\
    loading (page w') = loading (page w) /\ saving (page w') = false /\ pending w' = [].
Proof.
  destruct w as [[emps ld err succ q sh frm fErr sav tgt del] st pend]. simpl.
  intros -> -> -> Hv Hrej.
  unfold runs. simpl. unfold with_page. rewrite Hv. simpl. unfold serve_call. simpl.
  destruct (exchange st _ tr) as [st1 o]. simpl in Hrej. subst o. simpl.
  eexists. split; [reflexivity|]. by split_and!.
Qed.

(** Confirm, the server answers, the continuation runs and reloads the
    roster, the server answers the load, the load settles. *)
Definition delete_events : list Event :=
  [ConfirmDelete; Serve 0 Delivered; Settle 0; Serve 0 Delivered; Settle 0].

(** C17: an employee the server deletes leaves the list.  Confirming
    the dialog for a URL-safe id, when the server deletes it, closes
    the dialog, shows the banner naming the employee and reloads a
    roster without that id, with nothing left in flight. *)
Theorem delete_confirmed_unlisted w t st' d :
  pending w = [] -> deleteTarget (page w) = Some t -> deleting (page w) = false ->
  url_safe (Employee.employee_id t) = true ->
  handle (srv w) (EDeleteEmployee (Employee.employee_id t)) = (st', RespOk d) ->
  exists w', runs w delete_events = Some w' /\
    Employee.employee_id t ∉ roster_ids (employees (page w')) /\
    deleteTarget (page w') = None /\ success (page w') = deleted_message t /\
    deleting (page w') = false /\ loading (page w') = false /\ pending w' = [].
Proof.
  destruct w as [[emps ld err succ q sh frm fErr sav tgt del] st pend]. simpl.
  intros -> -> -> Hsafe Hdel.
  destruct (delete_unlisted _ _ _ _ Hdel) as (l & Hl & Hout).
  unfold runs, delete_events. simpl. unfold with_page. simpl.
  rewrite serve_deleteEmployee, Hdel by done. simpl.
  rewrite serve_getEmployees, (handle_read_pure st' EListEmployees) by done.
  destruct (handle st' EListEmployees) as [st2 r2] eqn:Hh. simpl in Hl. subst r2.
  simpl. eexists. split; [reflexivity|]. by split_and!.
Qed.

(** C18: a delete the server refuses, or that never reaches it, shows
    the generic ["Failed to delete employee."] whatever the server's
    detail, keeps the dialog open on the same employee and the roster
    as it was, and enables the dialog's buttons again. *)
Theorem delete_rejected_generic w t tr e :
  pending w = [] -> deleteTarget (page w) = Some t -> deleting (page w) = false ->
  (exchange (srv w) (deleteEmployee (Employee.employee_id t)) tr).2 = Rejected e ->
  exists w', runs w [ConfirmDelete; Serve 0 tr; Settle 0] = Some w' /\
    error (page w') = "Failed to delete employee." /\
    deleteTarget (page w') = Some t /\ employees (page w') = employees (page w) /\
    success (page w') = success (page w) /\ deleting (page w') = false /\ pending w' = [].
Proof.
  destruct w as [[emps ld err succ q sh frm fErr sav tgt del] st pend]. simpl.
  intros -> -> -> Hrej.
  unfold runs. simpl. unfold with_page. simpl. unfold serve_call. simpl.
  destruct (exchange st _ tr) as [st1 o]. simpl in Hrej. subst o. simpl.
  eexists. split; [reflexivity|]. by split_and!.
Qed.
End Mutations.

(** ** Liveness: every request in flight can settle *)

(** The events that finish the oldest promise: the server answers its
    call if it has not yet, then its continuation runs. *)
Definition emp_head_events (o : Op) : list Event :=
  let c := match o with OpLoad c | OpAdd _ c | OpDelete _ c => c end in
  match res c with None => [Serve 0 Delivered] | Some _ => [] end ++ [Settle 0].

(** An add or a delete may start one reload: they weigh two. *)
Definition emp_op_weight (o : Op) : nat := if is_load o then 1 else 2.

Definition emp_weight (l : list Op) : nat := sum_list_with emp_op_weight l.

Section EmpDrain.
Context `{Backend}.

(** Settle the promises oldest first, with [fuel] rounds. *)
Fixpoint emp_drain (fuel : nat) (w : World) : list Event :=
  match fuel, pending w with
  | S f, o :: _ =>
      let es := emp_head_events o in
      match runs w es with
      | Some w' => es ++ emp_drain f w'
      | None => []
      end
  | _, _ => []
  end.

Lemma emp_weight_cons o l : emp_weight (o :: l) = emp_op_weight o + emp_weight l.
Proof. reflexivity. Qed.

Lemma emp_weight_app l1 l2 : emp_weight (l1 ++ l2) = emp_weight l1 + emp_weight l2.
Proof. apply sum_list_with_app. Qed.

Lemma emp_issued_settled o cs :
  op_settled o = Some cs -> emp_weight (emp_issued cs) < emp_op_weight o.
Proof.
  destruct o as [c|f c|t c]; simpl; destruct (res c) as [[d|e]|]; intros Hs; simplify_eq;
    unfold on_load, on_add, on_delete, load, emp_op_weight; try destruct (as_employees d); simpl; lia.
Qed.

Lemma emp_head_progress w o rest :
  pending w = o :: rest ->
  exists w', runs w (emp_head_events o) = Some w' /\
    exists extra, pending w' = rest ++ extra /\ emp_weight extra < emp_op_weight o.
Proof.
  intros Hp. unfold runs, emp_head_events.
  assert (Hsettle : forall w1 o1, pending w1 = o1 :: rest -> op_kind_same o o1 ->
            (exists cs, op_settled o1 = Some cs) ->
            exists w', run step w1 [Settle 0] = Some w' /\
              exists extra, pending w' = rest ++ extra /\ emp_weight extra < emp_op_weight o).
  { intros w1 o1 Hp1 Hk [cs Hcs]. simpl. rewrite Hp1. simpl. rewrite Hcs.
    eexists. split; [reflexivity|]. rewrite emp_run_cmds_spec. simpl.
    exists (emp_issued cs). split; [done|].
    pose proof (emp_issued_settled _ _ Hcs) as Hw. unfold emp_op_weight in *. by rewrite Hk in Hw. }
  destruct o as [[rq [r|]]|f [rq [r|]]|t [rq [r|]]]; cbn [emp_head_events res app];
    try (eapply (Hsettle w); [exact Hp | reflexivity | by eexists]).
  all: erewrite run_cons;
    [| unfold step; rewrite Hp; cbn -[serve_call]; rewrite serve_call_fresh; reflexivity];
    eapply Hsettle; [reflexivity | reflexivity | by eexists].
Qed.

Lemma emp_drain_settles fuel w :
  emp_weight (pending w) <= fuel ->
  exists w', runs w (emp_drain fuel w) = Some w' /\ pending w' = [].
Proof.
  revert w. induction fuel as [|f IH]; intros w Hw; simpl.
  - destruct (pending w) as [|o rest] eqn:Hp; [by exists w|].
    rewrite emp_weight_cons in Hw. unfold emp_op_weight in Hw. destruct (is_load o); lia.
  - destruct (pending w) as [|o rest] eqn:Hp; [by exists w|].
    destruct (emp_head_progress w o rest Hp) as (w1 & Hw1 & extra & Hp1 & Hlt).
    rewrite Hw1. unfold runs. rewrite run_app. fold (runs w (emp_head_events o)).
    rewrite Hw1. apply IH. rewrite Hp1, emp_weight_app. rewrite emp_weight_cons in Hw. lia.
Qed.

(** C25: every promise of the Employees view settles.  From any
    reachable world, the server answering every call, oldest promise
    first, settles all of them within [emp_weight] rounds, and the view
    ends with no skeleton rows and both the add and the delete buttons
    enabled. *)
Theorem employees_settles w :
  reachable w ->
  exists w', runs w (emp_drain (emp_weight (pending w)) w) = Some w' /\
    pending w' = [] /\ loading (page w') = false /\
    saving (page w') = false /\ deleting (page w') = false.
Proof.
  intros Hr. destruct (emp_drain_settles (emp_weight (pending w)) w) as (w' & Hw' & Hp); [done|].
  exists w'. split; [done|].
  destruct (emp_reachable_inv w' (emp_runs_reachable _ _ _ Hr Hw')) as (Ha & Hd & Hl).
  rewrite Hp, count_if_nil in Ha, Hd, Hl.
  split_and!; [done | ..].
  - destruct (loading (page w')); [|done]. specialize (Hl eq_refl). lia.
  - destruct (saving (page w')); [lia | done].
  - destruct (deleting (page w')); [lia | done].
Qed.
End EmpDrain.

(** ** A concrete roster on the reference backend *)

(** ** The network alone settles in a bounded number of events *)

Definition op_call (o : Op) : Call :=
  match o with OpLoad c | OpAdd _ c | OpDelete _ c => c end.

(** An op weighs three per unit of [emp_op_weight], and one more while
    its call is unanswered. *)
Definition op_measure (o : Op) : nat :=
  3 * emp_op_weight o + match res (op_call o) with None => 1 | Some _ => 0 end.

Definition net_measure (l : list Op) : nat := sum_list_with op_measure l.

Definition is_network (e : Event) : bool :=
  match e with Serve _ _ | Settle _ => true | _ => false end.

Section EmpTermination.
Context `{Backend}.

Lemma serve_op_measure st o t st' o' :
  serve_op st o t = Some (st', o') -> op_measure o' < op_measure o.
Proof.
  intros Hs. pose proof (emp_serve_op_kind _ _ _ _ _ Hs) as [Hk _].
  unfold op_measure, emp_op_weight. rewrite Hk.
  destruct o as [c|f c|tg c]; simpl in Hs |- *;
    destruct (serve_call st c t) as [[st1 c']|] eqn:Hc; simplify_eq; simpl;
    apply serve_call_res in Hc as (Hc0 & _ & Hr); rewrite Hc0; destruct (res c'); done || lia.
Qed.

Lemma net_measure_weight l : net_measure l <= 4 * emp_weight l.
Proof.
  induction l as [|o l IH]; [done|]. rewrite emp_weight_cons. unfold net_measure in *. simpl.
  unfold op_measure, emp_op_weight in *. destruct (is_load o), (res (op_call o)); lia.
Qed.

Lemma settled_measure o cs :
  op_settled o = Some cs -> net_measure (emp_issued cs) < op_measure o.
Proof.
  intros Hs. pose proof (emp_issued_settled _ _ Hs) as Hw.
  pose proof (net_measure_weight (emp_issued cs)) as Hm.
  assert (Hr : res (op_call o) <> None) by (destruct o as [c|f c|t c]; simpl in *; by destruct (res c)).
  unfold op_measure, emp_op_weight in *. destruct (res (op_call o)); [|done].
  destruct (is_load o); lia.
Qed.

Lemma network_step_measure w e w' :
  is_network e = true -> step w e = Some w' -> net_measure (pending w') < net_measure (pending w).
Proof.
  destruct e; try discriminate; intros _; simpl.
  - destruct (pending w !! n) as [o|] eqn:Hn; [|done].
    destruct (serve_op (srv w) o t) as [[st' o']|] eqn:Hs; [|done]. intros [= <-]. simpl.
    pose proof (sum_list_with_insert op_measure _ _ _ o' Hn).
    pose proof (serve_op_measure _ _ _ _ _ Hs). unfold net_measure. lia.
  - destruct (pending w !! n) as [o|] eqn:Hn; [|done].
    destruct (op_settled o) as [cs|] eqn:Ho; [|done]. unfold with_page. intros [= <-].
    rewrite emp_run_cmds_spec. simpl. unfold net_measure. rewrite sum_list_with_app.
    rewrite (sum_list_with_delete op_measure _ _ _ Hn).
    pose proof (settled_measure _ _ Ho). unfold net_measure in *. lia.
Qed.

(** C35: the network alone cannot keep the Employees view busy forever:
    every sequence of server answers and promise settlements from a
    world is no longer than [net_measure] of its pending ops, and each
    such event lowers that measure, although a settled add or delete
    starts a reload. *)
Theorem emp_network_terminates w es w' :
  Forall (fun e => is_network e = true) es -> runs w es = Some w' ->
  length es + net_measure (pending w') <= net_measure (pending w).
Proof.
  unfold runs. revert w. induction es as [|e es IH]; intros w Hn Hr; simpl in *; [by simplify_eq|].
  inversion Hn as [|? ? He Hes]; subst.
  destruct (step w e) as [w1|] eqn:Hs; [|done].
  pose proof (network_step_measure _ _ _ He Hs). specialize (IH w1 Hes Hr). lia.
Qed.

(** Hence the relation "one network event leads from [w] to [w']" has
    no infinite chain. *)
Lemma emp_network_wf :
  well_founded (fun w' w => exists e, is_network e = true /\ step w e = Some w').
Proof.
  apply (wf_incl _ _ (ltof _ (fun w => net_measure (pending w)))); [|apply well_founded_ltof].
  intros w' w (e & He & Hs). by apply (network_step_measure w e w').
Qed.
End EmpTermination.

Module EmpSample.
Definition asha : Employee.t := Employee.mk "EMP001" "Asha Rao" "asha@x.com" "Engineering".
Definition bo : Employee.t := Employee.mk "EMP002" "Bo Chen" "bo@x.com" "Design".
Definition cy : Employee.t := Employee.mk "EMP003" "Cy Diaz" "cy@x.com" "Sales".

Definition st0 : Mem.state := Mem.mk [asha; bo] [] 0 "2024-01-10".

Definition w0 : World (H := MemBackend) := init (H := MemBackend) st0.

Definition after (es : list Event) : World (H := MemBackend) :=
  match runs (H := MemBackend) w0 es with Some w => w | None => w0 end.

(** The roster loads and the operator fills the add form with [f]. *)
Definition fill_events (f : Employee.t) : list Event :=
  [Serve 0 Delivered; Settle 0; ClickAdd;
   EditField FEmployeeId (Employee.employee_id f); EditField FFullName (Employee.full_name f);
   EditField FEmail (Employee.email f); EditField FDepartment (Employee.department f)].

(** The operator adds Cy, closes the modal while the add is in flight
    and deletes Bo.  The server adds Cy and answers the reload that
    follows while Bo still exists; then it deletes Bo and answers the
    second reload.  The second reload settles first, the first last. *)
Definition race : list Event :=
  fill_events cy ++
  [SubmitAdd; CloseAdd; ClickDelete bo; ConfirmDelete;
   Serve 0 Delivered; Settle 0; Serve 1 Delivered;
   Serve 0 Delivered; Settle 0; Serve 1 Delivered; Settle 1; Settle 0].
End EmpSample.

Section EmpRaces.

Lemma emp_sample_reachable es w :
  runs (H := MemBackend) EmpSample.w0 es = Some w -> reachable (H := MemBackend) w.
Proof. apply emp_runs_reachable, reachable_init. Qed.

(** C19: a deleted employee reappears.  [load()] does not discard a
    stale answer: when the reload that follows an add settles after the
    reload that follows a delete, the roster shows the deleted employee
    again, with nothing in flight and no spinner, while the server no
    longer has that employee. *)
Theorem deleted_employee_reappears :
  exists w, reachable (H := MemBackend) w /\
    pending w = [] /\ loading (page w) = false /\
    "EMP002" ∈ roster_ids (employees (page w)) /\ Mem.has_emp (srv w) "EMP002" = false.
Proof.
  exists (EmpSample.after EmpSample.race). split.
  - apply (emp_sample_reachable EmpSample.race). vm_compute. reflexivity.
  - vm_compute. split_and!; try reflexivity. right. left.
Qed.
End EmpRaces.

(** ** The theorems at the sample roster *)

(** The header counts the whole roster, with the plural for every count
    but one, whatever the search filters. *)
Example header_subtitle_counts :
  header_subtitle (fold_left apply_update [setEmployees [EmpSample.asha]; setLoading false;
                                            setSearch "zz"] initial_page) = "1 total employee" /\
  header_subtitle (fold_left apply_update [setEmployees [EmpSample.asha; EmpSample.bo];
                                            setLoading false] initial_page) = "2 total employees" /\
  header_subtitle (fold_left apply_update [setLoading false] initial_page) = "0 total employees".
Proof. vm_compute. split_and!; reflexivity. Qed.

Section EmpWitnesses.
Local Notation W es := (EmpSample.after es).

Lemma one_add_one_delete_witness :
  count_if is_add (pending (W (EmpSample.fill_events EmpSample.cy ++ [SubmitAdd]))) =
  (if saving (page (W (EmpSample.fill_events EmpSample.cy ++ [SubmitAdd]))) then 1 else 0) /\
  count_if is_delete (pending (W (EmpSample.fill_events EmpSample.cy ++ [SubmitAdd]))) =
  (if deleting (page (W (EmpSample.fill_events EmpSample.cy ++ [SubmitAdd]))) then 1 else 0) /\
  (loading (page (W (EmpSample.fill_events EmpSample.cy ++ [SubmitAdd]))) = true ->
   1 <= count_if is_load (pending (W (EmpSample.fill_events EmpSample.cy ++ [SubmitAdd])))).
Proof.
  apply one_add_one_delete, (emp_sample_reachable (EmpSample.fill_events EmpSample.cy ++ [SubmitAdd])).
  vm_compute. reflexivity.
Defined.

Lemma add_accepted_listed_witness :
  exists w', runs (W (EmpSample.fill_events EmpSample.cy)) add_events = Some w' /\
    EmpSample.cy ∈ employees (page w').
Proof.
  destruct (add_accepted_listed (W (EmpSample.fill_events EmpSample.cy))
              (Mem.handle (srv (W (EmpSample.fill_events EmpSample.cy)))
                 (EAddEmployee EmpSample.cy)).1 (DEmployee EmpSample.cy))
    as (w' & Hr & Hin & _); try (vm_compute; reflexivity).
  exists w'. split; [exact Hr|]. exact Hin.
Defined.

Lemma add_rejected_kept_witness :
  exists w', runs (W (EmpSample.fill_events EmpSample.asha))
               [SubmitAdd; Serve 0 Delivered; Settle 0] = Some w' /\
    formError (page w') = "Employee ID already exists".
Proof.
  destruct (add_rejected_kept (W (EmpSample.fill_events EmpSample.asha)) Delivered
              (Some (400, Some "Employee ID already exists")))
    as (w' & Hr & Hf & _); try (vm_compute; reflexivity).
  exists w'. by rewrite Hr, Hf.
Defined.

Lemma delete_confirmed_unlisted_witness :
  exists w', runs (W [Serve 0 Delivered; Settle 0; ClickDelete EmpSample.bo]) delete_events
             = Some w' /\ "EMP002" ∉ roster_ids (employees (page w')).
Proof.
  destruct (delete_confirmed_unlisted (W [Serve 0 Delivered; Settle 0; ClickDelete EmpSample.bo])
              EmpSample.bo
              (Mem.handle (srv (W [Serve 0 Delivered; Settle 0; ClickDelete EmpSample.bo]))
                 (EDeleteEmployee "EMP002")).1 DNone)
    as (w' & Hr & Hout & _); try (vm_compute; reflexivity).
  by exists w'.
Defined.

Lemma delete_rejected_generic_witness :
  exists w', runs (W [Serve 0 Delivered; Settle 0; ClickDelete EmpSample.bo])
               [ConfirmDelete; Serve 0 Dropped; Settle 0] = Some w' /\
    error (page w') = "Failed to delete employee." /\ deleteTarget (page w') = Some EmpSample.bo.
Proof.
  destruct (delete_rejected_generic (W [Serve 0 Delivered; Settle 0; ClickDelete EmpSample.bo])
              EmpSample.bo Dropped None)
    as (w' & Hr & He & Ht & _); try (vm_compute; reflexivity).
  by exists w'.
Defined.
Lemma employees_settles_witness :
  exists w', runs (W (take 11 EmpSample.race))
               (emp_drain (emp_weight (pending (W (take 11 EmpSample.race))))
                          (W (take 11 EmpSample.race))) = Some w' /\
    pending w' = [] /\ loading (page w') = false /\
    saving (page w') = false /\ deleting (page w') = false.
Proof.
  apply employees_settles, (emp_sample_reachable (take 11 EmpSample.race)).
  vm_compute. reflexivity.
Defined.
Lemma requests_match_handlers_witness :
  (forall f c, OpAdd f c ∈ pending (W (take 11 EmpSample.race)) ->
     form_valid f = true /\ req c = addEmployee f) /\
  (forall t c, OpDelete t c ∈ pending (W (take 11 EmpSample.race)) ->
     req c = deleteEmployee (Employee.employee_id t)).
Proof.
  apply requests_match_handlers, (emp_sample_reachable (take 11 EmpSample.race)).
  vm_compute. reflexivity.
Defined.
(** Adding Cy, then the server answering and the add settling, which
    starts a reload: three network events, within the measure. *)
Lemma emp_network_terminates_witness :
  length [Serve 0 Delivered; Settle 0; Serve 0 Delivered] +
    net_measure (pending (W (EmpSample.fill_events EmpSample.cy ++
                             [SubmitAdd; Serve 0 Delivered; Settle 0; Serve 0 Delivered]))) <=
  net_measure (pending (W (EmpSample.fill_events EmpSample.cy ++ [SubmitAdd]))).
Proof.
  apply (emp_network_terminates (H := MemBackend)); [repeat constructor|].
  vm_compute. reflexivity.
Defined.

End EmpWitnesses.
