(* ===== verification/Dashboard.v ===== *)
(** * The Dashboard view, [src/frontend/src/pages/Dashboard.jsx]

    The view's state is its four [useState] hooks, the record [Page].  Its
    mount effect starts one promise, [Promise.all] of [getDashboardStats]
    and [getEmployees] ([join2] of [Promise.v]); its continuation stores
    the stats and the first five employees of the roster, or the error,
    and clears [loading].  The stat cards show [stats?.x ?? 0] and the
    table the stored employees.  The theorems: what the page shows once
    the promise settles, on success and on failure; that over every run
    the table holds at most five rows with bounded animation delays; and
    that its row keys are distinct on a roster without duplicate ids. *)

From S2P Require Import Prelude Domain Api Route Backend Promise UI Navigation.

Module Export Dashboard.


Record Page := mkPage {
  stats : option DashboardStats.t;
  employees : list Employee.t;
  loading : bool;
  error : string
}.

Inductive Update :=
| setStats (s : option DashboardStats.t)
| setEmployees (l : list Employee.t)
| setLoading (b : bool)
| setError (s : string).

Definition apply_update (p : Page) (u : Update) : Page :=
  let 'mkPage s e l err := p in
  match u with
  | setStats x => mkPage x e l err
  | setEmployees x => mkPage s x l err
  | setLoading x => mkPage s e x err
  | setError x => mkPage s e l x
  end.

Definition initial_page : Page := mkPage None [] true "".

(** [.then(([s, e]) => { setStats(s.data); setEmployees(e.data.slice(0, 5)); })
    .catch(...).finally(...)].  A body of another shape, which a
    backend satisfying [handle_typed] never sends, takes the [.catch]
    path. *)
Definition on_loaded (j : option (Data * Data)) : list Update :=
  match j with
  | Some (d1, d2) =>
      match as_stats d1, as_employees d2 with
      | Some s, Some l => [setStats (Some s); setEmployees (take 5 l)]
      | _, _ => [setError "Failed to load dashboard data."]
      end
  | None => [setError "Failed to load dashboard data."]
  end ++ [setLoading false].

(** The four stat cards: [stats?.x ?? 0]. *)
Definition stat_values (p : Page) : list nat :=
  match stats p with
  | Some s => [DashboardStats.total_employees s; DashboardStats.departments s;
               DashboardStats.present_today s; DashboardStats.absent_today s]
  | None => [0; 0; 0; 0]
  end.

(** The four [StatCard]s: a skeleton while [loading], then the value. *)
Definition stat_cards (p : Page) : list (option nat) := map (stat_card (loading p)) (stat_values p).

(** The rows of the Recent Employees table, once loaded. *)
Definition recent_rows (p : Page) : list Employee.t :=
  if loading p then [] else employees p.

(** A row of the Recent Employees table. *)
Record RecentRow := mkRecentRow {
  rr_key : string;        (** [key={emp.employee_id}] *)
  rr_delay_ms : nat;      (** [animationDelay: `${i * 50}ms`] *)
  rr_initial : string;    (** [emp.full_name.charAt(0).toUpperCase()] *)
  rr_name : string;
  rr_email : string;
  rr_id : string;
  rr_department : string
}.

Definition recent_row (i : nat) (e : Employee.t) : RecentRow :=
  mkRecentRow (Employee.employee_id e) (i * 50)
    (to_upper (String.substring 0 1 (Employee.full_name e)))
    (Employee.full_name e) (Employee.email e) (Employee.employee_id e) (Employee.department e).

Inductive RecentBody :=
| RecentSkeleton (rows cols : nat)
| RecentEmpty
| RecentRows (rs : list RecentRow).

(** [loading ? <LoadingRows cols={3} rows={3} /> : employees.length === 0
    ? <tr>No employees yet. ...</tr> : employees.map((emp, i) => ...)]. *)
Definition recent_body (p : Page) : RecentBody :=
  if loading p then RecentSkeleton 3 3
  else match employees p with
       | [] => RecentEmpty
       | l => RecentRows (imap recent_row l)
       end.

(** The targets of the page's [<Link>]s in document order: the two
    quick actions, "View all", and "Add one" in an empty table. *)
Definition page_links (p : Page) : list string :=
  ["/employees"; "/attendance"; "/employees"] ++
  match recent_body p with RecentEmpty => ["/employees"] | _ => [] end.

Section World.
Context `{Backend}.

(** The page, the server, and the mount effect's promise while it is
    in flight. *)
Record World := mkWorld {
  page : Page;
  srv : bstate;
  inflight : option (Call * Call)
}.

Definition init (st : bstate) : World :=
  mkWorld initial_page st (Some (fresh getDashboardStats, fresh getEmployees)).

Inductive Event :=
| Serve (k : nat) (t : Transport)
| Settle
| DismissError.

Definition step (w : World) (e : Event) : option World :=
  match e, inflight w with
  | Serve 0 t, Some (c1, c2) =>
      match serve_call (srv w) c1 t with
      | Some (st', c1') => Some (mkWorld (page w) st' (Some (c1', c2)))
      | None => None
      end
  | Serve 1 t, Some (c1, c2) =>
      match serve_call (srv w) c2 t with
      | Some (st', c2') => Some (mkWorld (page w) st' (Some (c1, c2')))
      | None => None
      end
  | Settle, Some (c1, c2) =>
      match join2 c1 c2 with
      | Some j => Some (mkWorld (fold_left apply_update (on_loaded j) (page w)) (srv w) None)
      | None => None
      end
  | DismissError, _ =>
      if banner_shown (error (page w))
      then Some (mkWorld (apply_update (page w) (setError "")) (srv w) (inflight w))
      else None
  | _, _ => None
  end.

Definition runs (w : World) (es : list Event) : option World := run step w es.
End World.
End Dashboard.

(** ** What the page shows once its promise settles *)

(** The server answers the stats call with [t1], the roster call with
    [t2], and the promise settles. *)
Definition load_events (t1 t2 : Transport) : list Event :=
  [Serve 0 t1; Serve 1 t2; Settle].

Section Reads.
Context `{BL : BackendLaws}.

(** Answering a read leaves the server as it was, whatever the transport. *)
Lemma exchange_read_state st r ep t :
  route r = Some ep -> is_read ep = true -> (exchange st r t).1 = st.
Proof.
  intros Hr Hread. unfold exchange, serve. rewrite Hr.
  destruct t; simpl; try done; by apply handle_read_pure.
Qed.

Lemma exchange_stats_state st t : (exchange st getDashboardStats t).1 = st.
Proof. by apply (exchange_read_state _ _ EStats). Qed.

Lemma exchange_employees_state st t : (exchange st getEmployees t).1 = st.
Proof. by apply (exchange_read_state _ _ EListEmployees). Qed.

Lemma dashboard_load_unfold st t1 t2 :
  runs (init st) (load_events t1 t2) =
  match join2 (mkCall getDashboardStats (Some (exchange st getDashboardStats t1).2))
              (mkCall getEmployees (Some (exchange st getEmployees t2).2)) with
  | Some j => Some (mkWorld (fold_left apply_update (on_loaded j) initial_page) st None)
  | None => None
  end.
Proof.
  unfold runs, load_events. simpl. unfold serve_call. simpl.
  destruct (exchange st getDashboardStats t1) as [st1 o1] eqn:E1.
  pose proof (exchange_stats_state st t1) as S1. rewrite E1 in S1. simpl in S1. subst st1.
  simpl. destruct (exchange st getEmployees t2) as [st2 o2] eqn:E2.
  pose proof (exchange_employees_state st t2) as S2. rewrite E2 in S2. simpl in S2. subst st2.
  simpl. by destruct (join2 _ _).
Qed.

(** C20: when the server answers both calls, the four stat cards show
    the server's stats and the Recent Employees table the first five
    employees of the roster, in its order, with no error. *)
Theorem dashboard_shows_stats st s l :
  (handle st EStats).2 = RespOk (DStats s) ->
  (handle st EListEmployees).2 = RespOk (DEmployees l) ->
  exists w, runs (init st) (load_events Delivered Delivered) = Some w /\
    stat_cards (page w) =
      [Some (DashboardStats.total_employees s); Some (DashboardStats.departments s);
       Some (DashboardStats.present_today s); Some (DashboardStats.absent_today s)] /\
    recent_rows (page w) = take 5 l /\ length (recent_rows (page w)) <= 5 /\
    error (page w) = "" /\ inflight w = None.
Proof.
  intros Hs Hl. rewrite dashboard_load_unfold. unfold exchange, serve. simpl.
  rewrite Hs, Hl. cbn -[take]. eexists. split; [reflexivity|]. cbn -[take].
  split_and!; try done. rewrite length_take. lia.
Qed.

(** C21: when either call fails, whatever happened to the other, the
    page shows the error banner, zero in every stat card and no rows,
    and stops loading. *)
Theorem dashboard_failure_zeroes st t1 t2 :
  (exists e, (exchange st getDashboardStats t1).2 = Rejected e) \/
  (exists e, (exchange st getEmployees t2).2 = Rejected e) ->
  exists w, runs (init st) (load_events t1 t2) = Some w /\
    error (page w) = "Failed to load dashboard data." /\
    stat_cards (page w) = [Some 0; Some 0; Some 0; Some 0] /\ recent_rows (page w) = [] /\
    loading (page w) = false /\ inflight w = None.
Proof.
  intros Hrej. rewrite dashboard_load_unfold. unfold join2. simpl.
  destruct Hrej as [[e ->] | [e ->]];
    [| destruct (exchange st getDashboardStats t1).2]; simpl;
    eexists; (split; [reflexivity|]); done.
Qed.

End Reads.

(** ** The theorems on the reference backend *)

Module DashSample.
Definition emp (id name dept : string) : Employee.t :=
  Employee.mk id name (id +:+ "@x.com") dept.

(** Six employees: the preview shows the first five. *)
Definition st0 : Mem.state :=
  Mem.mk [emp "E1" "Ann" "HR"; emp "E2" "Ben" "HR"; emp "E3" "Cal" "Legal";
          emp "E4" "Dee" "Sales"; emp "E5" "Eve" "Sales"; emp "E6" "Fay" "Design"]
         [AttendanceRecord.mk 0 "E1" "2024-01-10" Present;
          AttendanceRecord.mk 1 "E2" "2024-01-10" Absent;
          AttendanceRecord.mk 2 "E3" "2024-01-09" Present] 3 "2024-01-10".
End DashSample.


Lemma dashboard_shows_stats_witness :
  exists w, runs (H := MemBackend) (init (H := MemBackend) DashSample.st0) (load_events Delivered Delivered) = Some w /\
     stat_cards (page w) = [Some 6; Some 4; Some 1; Some 1] /\ length (recent_rows (page w)) = 5.
Proof.
  destruct (dashboard_shows_stats (H := MemBackend) DashSample.st0 (Mem.stats DashSample.st0) (Mem.emps DashSample.st0))
    as (w & Hr & Hs & Hrows & _); try reflexivity.
  exists w. split; [exact Hr|]. rewrite Hs, Hrows. split; reflexivity.
Defined.

Lemma dashboard_failure_zeroes_witness :
  exists w, runs (H := MemBackend) (init (H := MemBackend) DashSample.st0) (load_events Dropped Delivered) = Some w /\
     stat_cards (page w) = [Some 0; Some 0; Some 0; Some 0].
Proof.
  destruct (dashboard_failure_zeroes (H := MemBackend) DashSample.st0 Dropped Delivered)
    as (w & Hr & _ & Hs & _); [left; by eexists|].
  by exists w.
Defined.

(** ** What the page renders *)

Section Render.
Context `{Backend}.



Lemma on_loaded_employees_bound j p :
  length (employees p) <= 5 -> length (employees (fold_left apply_update (on_loaded j) p)) <= 5.
Proof.
  intros Hp. destruct p as [s e l err]. unfold on_loaded.
  destruct j as [[d1 d2]|]; [destruct (as_stats d1), (as_employees d2)|]; simpl; try done.
  rewrite length_take. lia.
Qed.

Lemma step_employees_bound w e w' :
  length (employees (page w)) <= 5 -> step w e = Some w' -> length (employees (page w')) <= 5.
Proof.
  intros Hw Hs. destruct w as [p st fl]. unfold step in Hs; simpl in *.
  destruct e as [[|[|k]] t| |]; destruct fl as [[c1 c2]|]; try discriminate;
    repeat case_match; simplify_eq; simpl; try done;
    try (by apply on_loaded_employees_bound); by destruct p.
Qed.

Lemma recent_rows_delays l :
  Forall (fun r => exists i, i < length l /\ rr_delay_ms r = i * 50) (imap recent_row l).
Proof.
  apply Forall_lookup_2. intros i r. rewrite list_lookup_imap.
  destruct (l !! i) eqn:E; [|done]. intros [= <-]. exists i. split; [|done].
  by apply lookup_lt_Some in E.
Qed.

(** C34: whatever the server answers and whatever the user does, the
    Recent Employees table never lists more than five employees, and
    the entry animations of its rows are delayed by at most 200 ms. *)
Theorem dashboard_rows_bounded st es w :
  runs (init st) es = Some w ->
  length (employees (page w)) <= 5 /\
  forall rs, recent_body (page w) = RecentRows rs ->
    length rs <= 5 /\ Forall (fun r => rr_delay_ms r <= 200) rs.
Proof.
  intros Hr.
  assert (Hb : length (employees (page w)) <= 5).
  { apply (run_preserves step (fun w => length (employees (page w)) <= 5) (init st) es);
      [apply step_employees_bound | simpl; lia | done]. }
  split; [done|]. intros rs Hrs. unfold recent_body in Hrs.
  destruct (loading (page w)); [done|].
  assert (rs = imap recent_row (employees (page w))) as ->
    by (by destruct (employees (page w)); simplify_eq).
  rewrite length_imap. split; [done|].
  eapply Forall_impl; [apply recent_rows_delays|]. intros r (i & Hi & ->). lia.
Qed.
End Render.

Lemma dashboard_rows_bounded_witness :
  exists w, runs (H := MemBackend) (init (H := MemBackend) DashSample.st0) (load_events Delivered Delivered) = Some w /\
  length (employees (page w)) <= 5 /\
  forall rs, recent_body (page w) = RecentRows rs -> length rs <= 5 /\ Forall (fun r => rr_delay_ms r <= 200) rs.
Proof.
  eexists. split; [vm_compute; reflexivity|].
  apply (dashboard_rows_bounded (H := MemBackend) DashSample.st0 (load_events Delivered Delivered)).
  vm_compute. reflexivity.
Defined.

(** ** The keys of the Recent Employees table *)

Lemma recent_keys_gen (f : nat -> Employee.t -> RecentRow) l :
  (forall i e, rr_key (f i e) = Employee.employee_id e) ->
  map rr_key (imap f l) = roster_ids l.
Proof.
  revert f. induction l as [|e l IH]; intros f Hf; [done|]. simpl.
  rewrite Hf. f_equal. apply IH. intros i e'. apply Hf.
Qed.

Lemma recent_keys l : map rr_key (imap recent_row l) = roster_ids l.
Proof. by apply recent_keys_gen. Qed.

Lemma roster_ids_take n l : NoDup (roster_ids l) -> NoDup (roster_ids (take n l)).
Proof.
  unfold roster_ids. rewrite <- firstn_map. intros Hl.
  eapply sublist_NoDup; [exact Hl | apply sublist_take].
Qed.

(** The server's roster, the stored rows and the answer to the roster
    call, if there is one, list each id once. *)
Definition keys_inv (w : World (H := MemBackend)) : Prop :=
  NoDup (roster_ids (Mem.emps (srv w))) /\ NoDup (roster_ids (employees (page w))) /\
  match inflight w with
  | Some (c1, c2) =>
      req c1 = getDashboardStats /\ req c2 = getEmployees /\
      forall d l, res c2 = Some (Fulfilled d) -> as_employees d = Some l -> NoDup (roster_ids l)
  | None => True
  end.

Lemma keys_inv_step w e w' : keys_inv w -> step (H := MemBackend) w e = Some w' -> keys_inv w'.
Proof.
  destruct w as [p st fl]. unfold keys_inv, step; simpl.
  intros (Hst & Hp & Hfl) Hs.
  destruct e as [[|[|k]] t| |]; destruct fl as [[c1 c2]|]; try discriminate.
  - destruct Hfl as (Hr1 & Hr2 & Hl). unfold serve_call in Hs.
    destruct (res c1); [done|]. rewrite Hr1 in Hs.
    pose proof (exchange_stats_state (H := MemBackend) st t) as Hx.
    destruct (exchange st getDashboardStats t) as [st1 o1]. simpl in Hx. subst st1.
    injection Hs as <-. simpl. by split_and!.
  - destruct Hfl as (Hr1 & Hr2 & Hl). unfold serve_call in Hs.
    destruct (res c2); [done|]. rewrite Hr2 in Hs.
    pose proof (exchange_employees_state (H := MemBackend) st t) as Hx.
    destruct (exchange st getEmployees t) as [st2 o2] eqn:Ex. simpl in Hx. subst st2.
    injection Hs as <-. simpl. split_and!; try done.
    intros d l [= ->] Hd. destruct t; simpl in Ex; simplify_eq; [|done..].
    simpl in Hd. by simplify_eq.
  - destruct Hfl as (Hr1 & Hr2 & Hl).
    destruct (join2 c1 c2) as [j|] eqn:Hj; [|done]. injection Hs as <-. simpl.
    split_and!; [done| |done].
    destruct p as [s0 e0 l0 err0]. unfold on_loaded.
    destruct j as [[d1 d2]|]; [destruct (as_stats d1), (as_employees d2) as [l|] eqn:Hd2|];
      simpl; try done.
    apply roster_ids_take. apply (Hl d2 l); [|done].
    by apply join2_fulfilled in Hj as [_ ->].
  - destruct (banner_shown _); [|done]. injection Hs as <-. destruct p; simpl in *. tauto.
  - destruct (banner_shown _); [|done]. injection Hs as <-. destruct p; simpl in *. tauto.
Qed.

Lemma keys_inv_init st : NoDup (roster_ids (Mem.emps st)) -> keys_inv (init (H := MemBackend) st).
Proof.
  intros Hst. unfold keys_inv; simpl.
  split_and!; [done | apply NoDup_nil_2 | done | done | by intros d l ?].
Qed.

(** C36: on the reference backend, whose roster never lists an id twice,
    the rows of the Recent Employees table have distinct React keys
    ([key={emp.employee_id}]) after any sequence of events. *)
Theorem dashboard_keys_distinct st es w :
  NoDup (roster_ids (Mem.emps st)) ->
  runs (H := MemBackend) (init (H := MemBackend) st) es = Some w ->
  forall rs, recent_body (page w) = RecentRows rs -> NoDup (map rr_key rs).
Proof.
  intros Hst Hr rs Hrs.
  assert (Hk : keys_inv w)
    by exact (run_preserves _ keys_inv _ es w keys_inv_step (keys_inv_init st Hst) Hr).
  destruct Hk as (_ & Hp & _). unfold recent_body in Hrs.
  destruct (loading (page w)); [done|].
  assert (rs = imap recent_row (employees (page w))) as ->
    by (by destruct (employees (page w)); simplify_eq).
  by rewrite recent_keys.
Qed.

Lemma dashboard_keys_distinct_witness :
  exists w, runs (H := MemBackend) (init (H := MemBackend) DashSample.st0) (load_events Delivered Delivered) = Some w /\
  forall rs, recent_body (page w) = RecentRows rs -> NoDup (map rr_key rs).
Proof.
  eexists. split; [vm_compute; reflexivity|].
  apply (dashboard_keys_distinct DashSample.st0 (load_events Delivered Delivered));
    [apply (bool_decide_unpack _); vm_compute; reflexivity | vm_compute; reflexivity].
Defined.
