(* ===== verification/Theme.v ===== *)
(** * The theme, [src/frontend/src/App.jsx] and [src/frontend/src/components/Layout.jsx]

    Both components keep a [dark] state initialised from
    [localStorage.getItem("theme") === "dark"], and both have the same
    effect on [[dark]]: set or remove the [dark] class of the document
    element and store ["dark"] or ["light"].  [App] passes [toggleTheme]
    and [dark] to [Layout], which ignores them: the toggle button of the
    header flips [Layout]'s own state.  React runs a child's effects
    before its parent's, so on mount [Layout]'s effect runs first, then
    [App]'s; on a toggle only [Layout] re-renders and only its effect runs.

    The state is [Theme]: the stored value, the class of the document
    element, and the two [dark] states.  [mount] is a page load, [toggle]
    a click on the header button; [toggle_view] is what the button
    draws, whose icon shows the mode a click leads to
    ([toggle_icon_next]).  The theorems: the class and the stored
    value always agree with the header's state; the theme survives a
    reload; and [App]'s state never follows a toggle. *)

From S2P Require Import Prelude.

Record Theme := mkTheme {
  stored : option string;     (** [localStorage.getItem("theme")] *)
  html_dark : bool;           (** [document.documentElement.classList] has [dark] *)
  app_dark : bool;            (** [App]'s [useState] *)
  layout_dark : bool          (** [Layout]'s [useState] *)
}.

(** [localStorage.getItem("theme") === "dark"]. *)
Definition read_dark (s : option string) : bool :=
  match s with Some v => String.eqb v "dark" | None => false end.

(** The effect body of both components. *)
Definition theme_effect (dark : bool) (t : Theme) : Theme :=
  if dark then mkTheme (Some "dark") true (app_dark t) (layout_dark t)
  else mkTheme (Some "light") false (app_dark t) (layout_dark t).

(** A page load: both initialisers read the store; [Layout]'s effect
    runs, then [App]'s. *)
Definition mount (s : option string) : Theme :=
  let t := mkTheme s false (read_dark s) (read_dark s) in
  theme_effect (app_dark t) (theme_effect (layout_dark t) t).

(** The header button: [onClick={() => setDark(!dark)}] in [Layout], then
    [Layout]'s effect. *)
Definition toggle (t : Theme) : Theme :=
  let t' := mkTheme (stored t) (html_dark t) (app_dark t) (negb (layout_dark t)) in
  theme_effect (layout_dark t') t'.

Inductive ThemeEvent := Toggle | Reload.

Definition theme_step (t : Theme) (e : ThemeEvent) : Theme :=
  match e with
  | Toggle => toggle t
  | Reload => mount (stored t)
  end.

Definition theme_run (t : Theme) (es : list ThemeEvent) : Theme := fold_left theme_step es t.

(** The header's toggle button: the gradient of its background, the
    side of its sliding knob, and its icon, [{dark ? "☀️" : "🌙"}]: the
    comment above it says it shows the mode a click switches to. *)
Inductive ThemeIcon := SunIcon | MoonIcon.

Record ToggleView := mkToggleView {
  gradient_dark : bool;   (** [from-indigo-500 to-purple-600] rather than [from-indigo-400 to-indigo-500] *)
  knob_right : bool;      (** [translate-x-8] rather than [translate-x-0] *)
  icon : ThemeIcon
}.

Definition toggle_view (dark : bool) : ToggleView :=
  mkToggleView dark dark (if dark then SunIcon else MoonIcon).

(** The icon of a mode: the sun for light, the moon for dark. *)
Definition mode_icon (dark : bool) : ThemeIcon := if dark then MoonIcon else SunIcon.

(** What the user sees agrees with the header's state and is stored. *)
Definition theme_ok (t : Theme) : Prop :=
  html_dark t = layout_dark t /\ stored t = Some (if layout_dark t then "dark" else "light").

Lemma read_dark_stored (b : bool) : read_dark (Some (if b then "dark" else "light")) = b.
Proof. by destruct b. Qed.

Lemma mount_ok s : theme_ok (mount s).
Proof. unfold mount, theme_ok. by destruct (read_dark s). Qed.

Lemma toggle_ok t : theme_ok t -> theme_ok (toggle t).
Proof. intros _. unfold toggle, theme_ok. by destruct (layout_dark t). Qed.

Lemma theme_step_ok t e : theme_ok t -> theme_ok (theme_step t e).
Proof. destruct e; [apply toggle_ok | intros _; apply mount_ok]. Qed.

Lemma theme_run_ok t es : theme_ok t -> theme_ok (theme_run t es).
Proof.
  unfold theme_run. revert t.
  induction es as [|e es IH]; intros t Ht; [done|]. apply IH. by apply theme_step_ok.
Qed.

Lemma theme_run_mount_ok s es : theme_ok (theme_run (mount s) es).
Proof. apply theme_run_ok, mount_ok. Qed.

(** C22: from any page load, after any sequence of toggles and reloads,
    the document's [dark] class and the stored theme agree with the
    state of the header's toggle. *)
Theorem theme_consistent s es :
  let t := theme_run (mount s) es in
  html_dark t = layout_dark t /\ read_dark (stored t) = layout_dark t.
Proof.
  intros t. destruct (theme_run_mount_ok s es) as [Hh Hs]. split; [done|].
  fold t in Hs. by rewrite Hs, read_dark_stored.
Qed.

(** C23: the theme survives a reload: after any toggles and reloads, a
    reload shows the theme shown before it, and toggling twice shows
    the theme again. *)
Theorem theme_persists s es :
  let t := theme_run (mount s) es in
  layout_dark (mount (stored t)) = layout_dark t /\ html_dark (mount (stored t)) = html_dark t /\
  html_dark (toggle (toggle t)) = html_dark t.
Proof.
  intros t. destruct (theme_run_mount_ok s es) as [Hh Hs]. fold t in Hh, Hs.
  unfold mount. rewrite Hs, read_dark_stored. simpl.
  unfold toggle. rewrite Hh. by destruct (layout_dark t).
Qed.

(** C24: [App]'s theme state and its [toggleTheme] are dead: toggles
    never change [App]'s [dark], which keeps the value read at the last
    page load while the page's class follows [Layout]. *)
Theorem app_theme_ignored s es :
  app_dark (theme_run (mount s) (es ++ [Toggle])) = app_dark (theme_run (mount s) es) /\
  html_dark (theme_run (mount s) (es ++ [Toggle])) = negb (html_dark (theme_run (mount s) es)).
Proof.
  unfold theme_run. rewrite fold_left_app. simpl. fold (theme_run (mount s) es).
  destruct (theme_run_mount_ok s es) as [Hh _].
  unfold toggle. rewrite Hh. by destruct (layout_dark (theme_run (mount s) es)).
Qed.

(** The toggle's icon always shows the mode a click switches the page to. *)
Lemma toggle_icon_next s es :
  let t := theme_run (mount s) es in
  icon (toggle_view (layout_dark t)) = mode_icon (html_dark (toggle t)).
Proof.
  intros t. destruct (theme_run_mount_ok s es) as [Hh _]. fold t in Hh.
  unfold toggle. simpl. by destruct (layout_dark t).
Qed.
