(* ===== verification/JsDate.v ===== *)
(** * JavaScript's [Date], as [pages/Attendance.jsx] uses it

    The Day column of the attendance table shows
    [new Date(rec.date + "T00:00:00").toLocaleDateString("en-US",
    { weekday: "long" })].  This file models the part of ECMA-262's
    [Date] (section 21.4) that expression runs, on integers: time values
    in milliseconds ([Day], [WeekDay], [DayFromYear], [MakeDay],
    [MakeTime], [MakeDate], [LocalTime], [UTC]), and the date time string
    format (21.4.1.32) in the two forms the code and its plain variant
    [new Date(rec.date)] produce: a date alone, read as UTC, and a date
    with a time and no offset, read as local time.  The local time zone
    is a fixed offset [off] in milliseconds ([LocalTZA]).  A string of
    any other shape, or a field out of range, gives [NaN] ([None]), which
    prints as ["Invalid Date"].

    The reference for the calendar is Zeller's congruence
    ([zeller_weekday]).  [MakeDay_weekday] proves that the weekday of
    [MakeDay] agrees with it for every year: both sides are periodic in
    the year with period 400 (146097 days, a multiple of 7), and one
    period is checked by evaluation. *)

From Stdlib Require Import ZArith Ascii.
From S2P Require Import Prelude.

Local Open Scope Z_scope.

Module JsDate.

Definition msPerDay : Z := 86400000.

(** [Day(t) = floor(t / msPerDay)]: [Z.div] rounds down. *)
Definition Day (t : Z) : Z := t / msPerDay.

(** [WeekDay(t) = (Day(t) + 4) modulo 7]; 0 is Sunday. *)
Definition WeekDay (t : Z) : Z := (Day t + 4) mod 7.

Definition DayFromYear (y : Z) : Z :=
  365 * (y - 1970) + (y - 1969) / 4 - (y - 1901) / 100 + (y - 1601) / 400.

Definition leap (y : Z) : bool :=
  (y mod 4 =? 0) && (negb (y mod 100 =? 0) || (y mod 400 =? 0)).

Definition InLeapYear (y : Z) : Z := if leap y then 1 else 0.

(** The day of the year on which month [m] (0 for January) starts. *)
Definition month_start (y m : Z) : Z :=
  nth (Z.to_nat m) [0; 31; 59; 90; 120; 151; 181; 212; 243; 273; 304; 334] 0
  + (if 2 <=? m then InLeapYear y else 0).

Definition DaysInMonth (y m : Z) : Z :=
  nth (Z.to_nat m) [31; 28; 31; 30; 31; 30; 31; 31; 30; 31; 30; 31] 0
  + (if m =? 1 then InLeapYear y else 0).

(** [MakeDay(year, month, date)]; [month] counts from 0. *)
Definition MakeDay (y m dt : Z) : Z :=
  let ym := y + m / 12 in
  let mn := m mod 12 in
  DayFromYear ym + month_start ym mn + dt - 1.

Definition MakeTime (h mi s ms : Z) : Z := h * 3600000 + mi * 60000 + s * 1000 + ms.

Definition MakeDate (day time : Z) : Z := day * msPerDay + time.

(** Local time is UTC shifted by the offset of the time zone. *)
Definition LocalTime (off t : Z) : Z := t + off.
Definition UTC (off t : Z) : Z := t - off.

(** ** The date time string format *)

Definition digit (c : ascii) : option Z :=
  let n := nat_of_ascii c in
  if (48 <=? n)%nat && (n <=? 57)%nat then Some (Z.of_nat n - 48) else None.

(** Exactly [n] decimal digits, read after the value [acc]. *)
Fixpoint digits (acc : Z) (n : nat) (s : string) : option (Z * string) :=
  match n, s with
  | O, _ => Some (acc, s)
  | S n', String c s' =>
      match digit c with
      | Some d => digits (acc * 10 + d) n' s'
      | None => None
      end
  | S _, EmptyString => None
  end.

Definition expect (c : ascii) (s : string) : option string :=
  match s with
  | String c' s' => if Ascii.eqb c c' then Some s' else None
  | EmptyString => None
  end.

(** [YYYY-MM-DD], and what follows it. *)
Definition date_part (s : string) : option (Z * Z * Z * string) :=
  match digits 0 4 s with
  | Some (y, s1) =>
      match expect "-"%char s1 with
      | Some s2 =>
          match digits 0 2 s2 with
          | Some (m, s3) =>
              match expect "-"%char s3 with
              | Some s4 =>
                  match digits 0 2 s4 with
                  | Some (d, s5) => Some (y, m, d, s5)
                  | None => None
                  end
              | None => None
              end
          | None => None
          end
      | None => None
      end
  | None => None
  end.

(** [THH:mm:ss], the whole of the rest. *)
Definition time_part (s : string) : option (Z * Z * Z) :=
  match expect "T"%char s with
  | Some s1 =>
      match digits 0 2 s1 with
      | Some (h, s2) =>
          match expect ":"%char s2 with
          | Some s3 =>
              match digits 0 2 s3 with
              | Some (mi, s4) =>
                  match expect ":"%char s4 with
                  | Some s5 =>
                      match digits 0 2 s5 with
                      | Some (sec, EmptyString) => Some (h, mi, sec)
                      | _ => None
                      end
                  | None => None
                  end
              | None => None
              end
          | None => None
          end
      | None => None
      end
  | None => None
  end.

Definition date_ok (y m d : Z) : bool :=
  (1 <=? m) && (m <=? 12) && (1 <=? d) && (d <=? DaysInMonth y (m - 1)).

(** [HH] runs to 24, and 24 only for the end of a day. *)
Definition time_ok (h mi sec : Z) : bool :=
  ((h <? 24) && (mi <? 60) && (sec <? 60)) || ((h =? 24) && (mi =? 0) && (sec =? 0)).

(** A date alone, [YYYY-MM-DD], with its fields in range. *)
Definition iso_date (s : string) : option (Z * Z * Z) :=
  match date_part s with
  | Some (y, m, d, EmptyString) => if date_ok y m d then Some (y, m, d) else None
  | _ => None
  end.

(** [new Date(s)]: the time value, or [None] for [NaN].  A date alone is
    UTC; a date with a time is local time. *)
Definition parse (off : Z) (s : string) : option Z :=
  match date_part s with
  | Some (y, m, d, rest) =>
      if date_ok y m d then
        match rest with
        | EmptyString => Some (MakeDate (MakeDay y (m - 1) d) 0)
        | _ =>
            match time_part rest with
            | Some (h, mi, sec) =>
                if time_ok h mi sec
                then Some (UTC off (MakeDate (MakeDay y (m - 1) d) (MakeTime h mi sec 0)))
                else None
            | None => None
            end
        end
      else None
  | None => None
  end.

Definition weekday_names : list string :=
  ["Sunday"; "Monday"; "Tuesday"; "Wednesday"; "Thursday"; "Friday"; "Saturday"].

Definition weekday_name (n : Z) : string := nth (Z.to_nat n) weekday_names "".

(** [d.toLocaleDateString("en-US", { weekday: "long" })]: the weekday of
    the local time. *)
Definition weekday_long (off : Z) (t : option Z) : string :=
  match t with
  | Some t => weekday_name (WeekDay (LocalTime off t))
  | None => "Invalid Date"
  end.

End JsDate.

(** ** The reference calendar *)

(** Zeller's congruence, with 0 for Sunday: January and February count
    as months 13 and 14 of the year before. *)
Definition zeller_weekday (y m d : Z) : Z :=
  let y' := if m <? 3 then y - 1 else y in
  let m' := if m <? 3 then m + 12 else m in
  let K := y' mod 100 in
  let J := y' / 100 in
  (d + (13 * (m' + 1)) / 5 + K + K / 4 + J / 4 + 5 * J + 6) mod 7.

(** ** Parsing a date followed by a time *)

Section Parse.
Import JsDate.

Lemma digits_app acc n s t v r :
  digits acc n s = Some (v, r) -> digits acc n (s +:+ t) = Some (v, r +:+ t).
Proof.
  revert acc s. induction n as [|n IH]; intros acc s H; simpl in *; [by simplify_eq|].
  destruct s as [|c s]; [done|]. simpl. destruct (digit c); [by apply IH|done].
Qed.

Lemma expect_app c s t r : expect c s = Some r -> expect c (s +:+ t) = Some (r +:+ t).
Proof. destruct s as [|c' s]; simpl; [done|]. case_match; congruence. Qed.

Lemma date_part_app s t y m d r :
  date_part s = Some (y, m, d, r) -> date_part (s +:+ t) = Some (y, m, d, r +:+ t).
Proof.
  unfold date_part.
  destruct (digits 0 4 s) as [[y' s1]|] eqn:E1; [|done]. rewrite (digits_app _ _ _ t _ _ E1).
  destruct (expect _ s1) as [s2|] eqn:E2; [|done]. rewrite (expect_app _ _ t _ E2).
  destruct (digits 0 2 s2) as [[m' s3]|] eqn:E3; [|done]. rewrite (digits_app _ _ _ t _ _ E3).
  destruct (expect _ s3) as [s4|] eqn:E4; [|done]. rewrite (expect_app _ _ t _ E4).
  destruct (digits 0 2 s4) as [[d' s5]|] eqn:E5; [|done]. rewrite (digits_app _ _ _ t _ _ E5).
  intros; by simplify_eq.
Qed.

(** [new Date(s + "T00:00:00")] for a date [s]: local midnight of that day. *)
Lemma parse_local_midnight off s y m d :
  iso_date s = Some (y, m, d) ->
  parse off (s +:+ "T00:00:00") = Some (UTC off (MakeDate (MakeDay y (m - 1) d) 0)).
Proof.
  unfold iso_date, parse. destruct (date_part s) as [[[[y' m'] d'] r]|] eqn:E; [|done].
  destruct r; [|done]. destruct (date_ok y' m' d') eqn:Ok; [|done]. intros; simplify_eq.
  rewrite (date_part_app _ _ _ _ _ _ E), Ok. reflexivity.
Qed.

Lemma iso_date_month s y m d : iso_date s = Some (y, m, d) -> 1 <= m <= 12.
Proof.
  unfold iso_date. destruct (date_part s) as [[[[y' m'] d'] [|]]|]; try done.
  unfold date_ok. destruct (_ && _) eqn:Ok; [|done]. intros; simplify_eq.
  rewrite !andb_true_iff, !Z.leb_le in Ok. lia.
Qed.
End Parse.

(** ** The weekday of [MakeDay] is Zeller's *)

Section Calendar.
Import JsDate.

Lemma mod_shift a n k : 0 < n -> (a + k * n) mod n = a mod n.
Proof. intros. apply Z.mod_add. lia. Qed.

Lemma DayFromYear_400 y k : DayFromYear (y + 400 * k) = DayFromYear y + 146097 * k.
Proof.
  unfold DayFromYear.
  replace (y + 400 * k - 1969) with ((y - 1969) + (100 * k) * 4) by lia.
  replace (y + 400 * k - 1901) with ((y - 1901) + (4 * k) * 100) by lia.
  replace (y + 400 * k - 1601) with ((y - 1601) + k * 400) by lia.
  rewrite !Z.div_add by lia. lia.
Qed.

Lemma leap_400 y k : leap (y + 400 * k) = leap y.
Proof.
  unfold leap.
  replace (y + 400 * k) with (y + (100 * k) * 4) by lia. rewrite mod_shift by lia.
  replace (y + (100 * k) * 4) with (y + (4 * k) * 100) by lia. rewrite mod_shift by lia.
  replace (y + (4 * k) * 100) with (y + k * 400) by lia. by rewrite mod_shift by lia.
Qed.

(** The weekday of day [d] of month [m] (from 1) by [DayFromYear]. *)
Definition es_weekday (y m d : Z) : Z := (DayFromYear y + month_start y (m - 1) + d - 1 + 4) mod 7.

Lemma es_weekday_400 y k m d : es_weekday (y + 400 * k) m d = es_weekday y m d.
Proof.
  unfold es_weekday, month_start, InLeapYear. rewrite DayFromYear_400, leap_400.
  match goal with |- ?l mod 7 = ?r mod 7 => replace l with (r + (20871 * k) * 7) by lia end.
  apply mod_shift. lia.
Qed.

Lemma shift_mod100 a k : (a + 400 * k) mod 100 = a mod 100.
Proof. replace (a + 400 * k) with (a + (4 * k) * 100) by lia. apply mod_shift. lia. Qed.

Lemma shift_div100 a k : (a + 400 * k) / 100 = a / 100 + 4 * k.
Proof. replace (a + 400 * k) with (a + (4 * k) * 100) by lia. apply Z.div_add. lia. Qed.

Lemma zeller_weekday_400 y k m d : zeller_weekday (y + 400 * k) m d = zeller_weekday y m d.
Proof.
  unfold zeller_weekday. destruct (m <? 3);
  [replace (y + 400 * k - 1) with ((y - 1) + 400 * k) by lia|];
  rewrite shift_mod100, shift_div100;
  match goal with |- context [(?a / 100 + 4 * k) / 4] =>
    replace ((a / 100 + 4 * k) / 4) with (a / 100 / 4 + k)
      by (rewrite <- Z.div_add by lia; f_equal; lia) end;
  match goal with |- ?l mod 7 = ?r mod 7 => replace l with (r + (3 * k) * 7) by lia end;
  apply mod_shift; lia.
Qed.

(** The day of the month enters both sides as a summand. *)
Lemma es_weekday_day y m d : es_weekday y m d = (es_weekday y m 0 + d) mod 7.
Proof. unfold es_weekday. rewrite Z.add_mod_idemp_l by lia. f_equal. lia. Qed.

Lemma zeller_weekday_day y m d : zeller_weekday y m d = (zeller_weekday y m 0 + d) mod 7.
Proof. unfold zeller_weekday. rewrite Z.add_mod_idemp_l by lia. f_equal. lia. Qed.

(** One period of 400 years, every month, by evaluation. *)
Lemma weekday_one_period :
  forallb (fun y => forallb (fun m => Z.eqb (es_weekday y m 0) (zeller_weekday y m 0))
                            (map Z.of_nat (seq 1 12)))
          (map Z.of_nat (seq 0 400)) = true.
Proof. vm_compute. reflexivity. Qed.

Lemma in_map_seq (x : Z) (lo n : nat) :
  Z.of_nat lo <= x < Z.of_nat lo + Z.of_nat n -> In x (map Z.of_nat (seq lo n)).
Proof. intros. apply in_map_iff. exists (Z.to_nat x). split; [lia|]. apply in_seq. lia. Qed.

Lemma es_zeller_period r m : 0 <= r < 400 -> 1 <= m <= 12 -> es_weekday r m 0 = zeller_weekday r m 0.
Proof.
  intros Hr Hm. pose proof weekday_one_period as C.
  rewrite forallb_forall in C. specialize (C r (in_map_seq r 0 400 ltac:(lia))).
  rewrite forallb_forall in C. specialize (C m (in_map_seq m 1 12 ltac:(lia))).
  by apply Z.eqb_eq.
Qed.

Lemma MakeDay_month y m d : 1 <= m <= 12 -> MakeDay y (m - 1) d = DayFromYear y + month_start y (m - 1) + d - 1.
Proof.
  intros Hm. unfold MakeDay. rewrite (Z.div_small (m - 1) 12), (Z.mod_small (m - 1) 12) by lia.
  by rewrite Z.add_0_r.
Qed.

(** The weekday of [MakeDay] is Zeller's, in every year. *)
Lemma MakeDay_weekday y m d :
  1 <= m <= 12 -> (MakeDay y (m - 1) d + 4) mod 7 = zeller_weekday y m d.
Proof.
  intros Hm. rewrite MakeDay_month by done. fold (es_weekday y m d).
  rewrite es_weekday_day, zeller_weekday_day. f_equal. f_equal.
  rewrite (Z.div_mod y 400), Z.add_comm, es_weekday_400, zeller_weekday_400 by lia.
  apply es_zeller_period; [apply Z.mod_pos_bound; lia | lia].
Qed.

(** The weekday of a local midnight is that of its day, whatever the
    offset of the time zone. *)
Lemma WeekDay_local_midnight off day :
  WeekDay (LocalTime off (UTC off (MakeDate day 0))) = (day + 4) mod 7.
Proof.
  unfold WeekDay, Day, LocalTime, UTC, MakeDate. f_equal. f_equal.
  rewrite Z.add_0_r, Z.sub_add. apply Z.div_mul. unfold msPerDay. lia.
Qed.
End Calendar.
