(* ===== verification/AttendanceView.v ===== *)
(** * What the attendance page renders once an employee is selected, [src/frontend/src/pages/Attendance.jsx]

    Under [selectedEmp && ...] the page shows the summary cards
    ([summary_cards]), the heading of step 2 naming the selected
    employee ([step2_name], [selectedEmpObj?.full_name]), the mark form
    and the records table.  Once the records have loaded, the table body
    shows one row per record: its date, the weekday of that date
    ([new Date(rec.date + "T00:00:00").toLocaleDateString("en-US",
    { weekday: "long" })], over the [Date] model of [JsDate.v]), a
    Present or Absent badge, and an entry animation delayed by [i * 30]
    milliseconds.  [table_body] chooses between the skeleton, the empty
    state and the rows as [records_view] of [Attendance.v] does.

    The theorems: in every time zone, the Day column shows the weekday of
    the record's calendar date; and in every reachable world the heading
    of step 2 names the selected employee.  The code appends ["T00:00:00"], which
    makes [Date] read local midnight; [new Date(rec.date)] would read UTC
    midnight, a day early west of Greenwich
    ([date_only_shifts_west]). *)

From Stdlib Require Import ZArith.
From S2P Require Import Prelude Domain Api Route Backend Promise Attendance AttendanceProps JsDate.

Inductive Badge := BadgePresent | BadgeAbsent.

(** The Day cell of a record's row. *)
Definition day_cell (off : Z) (date : string) : string :=
  JsDate.weekday_long off (JsDate.parse off (date +:+ "T00:00:00")).

(** [rec.status === "Present" ? <badge-present> : <badge-absent>]. *)
Definition status_badge (s : Status) : Badge :=
  if String.eqb (status_str s) "Present" then BadgePresent else BadgeAbsent.

Record Row := mkRow {
  row_key : nat;          (** [key={rec.id}] *)
  row_delay_ms : nat;     (** [animationDelay: `${i * 30}ms`] *)
  row_date : string;
  row_day : string;
  row_badge : Badge
}.

Definition record_row (off : Z) (i : nat) (rec : AttendanceRecord.t) : Row :=
  mkRow (AttendanceRecord.id rec) (i * 30) (AttendanceRecord.date rec)
        (day_cell off (AttendanceRecord.date rec)) (status_badge (AttendanceRecord.status rec)).

(** [records.map((rec, i) => ...)]. *)
Definition record_rows (off : Z) (l : list AttendanceRecord.t) : list Row :=
  imap (record_row off) l.

Inductive TableBody :=
| BodySkeleton (rows cols : nat)
| BodyEmpty (title subtitle : string)
| BodyRows (rs : list Row).

(** [loadingRecs ? <LoadingRows cols={3} rows={4} /> : records.length === 0
    ? <EmptyState .../> : records.map(...)]. *)
Definition table_body (off : Z) (p : Page) : TableBody :=
  match records_view p with
  | RecsLoading => BodySkeleton 4 3
  | RecsEmpty t s => BodyEmpty t s
  | RecsRows l => BodyRows (record_rows off l)
  end.

(** [{summary && [...].map((s) => ...)}]: the label and value of each
    card. *)
Definition summary_cards (p : Page) : list (string * nat) :=
  if workflow_shown p then
    match summary p with
    | Some s => [("Total Days Logged", Summary.total_days s); ("Present Days", Summary.present_days s);
                 ("Absent Days", Summary.absent_days s)]
    | None => []
    end
  else [].

(** [Step 2 · Mark Attendance for {selectedEmpObj?.full_name}], with
    [selectedEmpObj = employees.find((e) => e.employee_id === selectedEmp)]:
    the name, or [None] for [undefined], which renders nothing; the
    outer [None] when step 2 is not rendered. *)
Definition step2_name (p : Page) : option (option string) :=
  if workflow_shown p
  then Some (Employee.full_name <$> find_employee (employees p) (selectedEmp p))
  else None.

Lemma zeller_weekday_bound y m d : (0 <= zeller_weekday y m d < 7)%Z.
Proof. unfold zeller_weekday. apply Z.mod_pos_bound. lia. Qed.

Lemma weekday_name_elem n : (0 <= n < 7)%Z -> JsDate.weekday_name n ∈ JsDate.weekday_names.
Proof.
  intros Hn. unfold JsDate.weekday_name. apply list_elem_of_In, nth_In.
  simpl. lia.
Qed.

(** The day cell of a well-formed date, whatever the time zone. *)
Lemma day_cell_zeller off s y m d :
  JsDate.iso_date s = Some (y, m, d) ->
  day_cell off s = JsDate.weekday_name (zeller_weekday y m d).
Proof.
  intros Hs. unfold day_cell. rewrite (parse_local_midnight off s y m d Hs). simpl.
  rewrite WeekDay_local_midnight, MakeDay_weekday; [done|].
  by apply (iso_date_month s y m d).
Qed.

(** [new Date("2024-01-10")] in New York (UTC-5) is a Tuesday evening. *)
Example date_only_shifts_west :
  JsDate.weekday_long (-18000000) (JsDate.parse (-18000000) "2024-01-10") = "Tuesday" /\
  day_cell (-18000000) "2024-01-10" = "Wednesday".
Proof. vm_compute. split; reflexivity. Qed.

(** C33: in every time zone, the Day column of a record's row shows the
    weekday of the record's calendar date, the one Zeller's congruence
    gives, and never ["Invalid Date"]: the code reads the date as local
    midnight by appending ["T00:00:00"]. *)
Theorem day_column_any_timezone off i rec y m d :
  JsDate.iso_date (AttendanceRecord.date rec) = Some (y, m, d) ->
  row_day (record_row off i rec) = JsDate.weekday_name (zeller_weekday y m d) /\
  row_day (record_row off i rec) ∈ JsDate.weekday_names.
Proof.
  intros Hd. simpl. rewrite (day_cell_zeller off _ y m d Hd).
  split; [done|]. apply weekday_name_elem, zeller_weekday_bound.
Qed.

(** The record of 2024-01-10 seen from New York: Wednesday. *)
Lemma day_column_any_timezone_witness :
  row_day (record_row (-18000000) 0 (AttendanceRecord.mk 1 "EMP001" "2024-01-10" Present)) =
    JsDate.weekday_name (zeller_weekday 2024 1 10) /\
  JsDate.weekday_name (zeller_weekday 2024 1 10) = "Wednesday".
Proof.
  split; [apply (day_column_any_timezone (-18000000) 0 _ 2024 1 10); vm_compute; reflexivity
         | vm_compute; reflexivity].
Defined.

(** ** The heading of step 2 *)

Lemma find_employee_elem l id :
  id ∈ roster_ids l -> exists e, find_employee l id = Some e /\ Employee.employee_id e = id.
Proof.
  unfold find_employee, roster_ids. intros Hin.
  destruct (find _ l) as [e|] eqn:Hf.
  - exists e. split; [done|]. apply find_some in Hf as [_ Hf]. by apply String.eqb_eq.
  - apply list_elem_of_In, in_map_iff in Hin as (e & <- & He).
    apply (find_none _ _ Hf) in He. by rewrite String.eqb_refl in He.
Qed.

Section Step2.
Context `{Backend}.

(** C37: in every reachable world, whenever step 2 is rendered its
    heading names the selected employee: [selectedEmpObj] is found on
    the roster, never [undefined], and it is the employee whose id is
    selected. *)
Theorem step2_names_selected w :
  reachable w -> workflow_shown (page w) = true ->
  exists e, Employee.employee_id e = selectedEmp (page w) /\ e ∈ employees (page w) /\
    step2_name (page w) = Some (Some (Employee.full_name e)).
Proof.
  intros Hr Hw. destruct (reachable_inv w Hr) as (_ & _ & _ & _ & Hin).
  destruct (find_employee_elem _ _ (Hin Hw)) as (e & Hf & Hid).
  exists e. split_and!; [done | | by unfold step2_name; rewrite Hw, Hf].
  apply find_some in Hf as [He _]. by apply list_elem_of_In.
Qed.
End Step2.

(** Asha selected on the sample roster: the heading reads "Asha Rao". *)
Lemma step2_names_selected_witness :
  exists e, Employee.employee_id e = selectedEmp (page Sample.ready) /\
    e ∈ employees (page Sample.ready) /\
    step2_name (page Sample.ready) = Some (Some (Employee.full_name e)).
Proof.
  apply step2_names_selected; [apply (sample_reachable Sample.ready_events) |];
    vm_compute; reflexivity.
Defined.
