(* ===== verification/Scenario.v ===== *)
(** * The scenario of the spec, across the Employees and Attendance views

    Section 7 of the spec: with no employees, add [EMP001] Asha Rao; the
    roster then holds one entry; selecting her shows the empty state "no
    attendance records yet"; marking her Present on 2024-01-10 shows a
    banner naming the status and the date, and the unfiltered listing then
    holds exactly that record, with the summary {1, 1, 0}.  The two views
    share the reference backend: the Attendance view is mounted on the
    server state the Employees view left. *)

From S2P Require Import Prelude Domain Api Route Backend Promise.
From S2P Require Import Attendance Employees.

Definition asha : Employee.t := Employee.mk "EMP001" "Asha Rao" "asha@x.com" "Engineering".

(** The Employees view: load the empty roster, add Asha, reload. *)
Definition add_asha : list Employees.Event :=
  [Employees.Serve 0 Delivered; Employees.Settle 0; Employees.ClickAdd;
   Employees.EditField Employees.FEmployeeId "EMP001";
   Employees.EditField Employees.FFullName "Asha Rao";
   Employees.EditField Employees.FEmail "asha@x.com";
   Employees.EditField Employees.FDepartment "Engineering";
   Employees.SubmitAdd; Employees.Serve 0 Delivered; Employees.Settle 0;
   Employees.Serve 0 Delivered; Employees.Settle 0].

Definition st_empty : Mem.state := Mem.mk [] [] 0 "2024-01-10".

Definition employees_after : option (Employees.World (H := MemBackend)) :=
  Employees.runs (H := MemBackend) (Employees.init (H := MemBackend) st_empty) add_asha.

(** The Attendance view on the server the Employees view left: the
    roster loads and Asha is selected. *)
Definition select_asha : list Attendance.Event :=
  [Attendance.Serve 0 0 Delivered; Attendance.Settle 0; Attendance.ClickEmployee "EMP001";
   Attendance.Serve 0 0 Delivered; Attendance.Serve 0 1 Delivered; Attendance.Settle 0].

(** Submit the default form (today, Present), the server records it, the
    reload is answered and settles. *)
Definition mark_asha : list Attendance.Event :=
  [Attendance.SubmitMark; Attendance.Serve 0 0 Delivered; Attendance.Settle 0;
   Attendance.Serve 0 0 Delivered; Attendance.Serve 0 1 Delivered; Attendance.Settle 0].

Definition attendance_from (we : option (Employees.World (H := MemBackend))) (es : list Attendance.Event)
    : option (Attendance.World (H := MemBackend)) :=
  match we with
  | Some w => Attendance.runs (H := MemBackend)
                (Attendance.init (H := MemBackend) (Employees.srv w) "2024-01-10") es
  | None => None
  end.

(** The scenario of section 7, run as a regression example: the roster
    holds exactly Asha after the add; selecting her shows the empty state
    "No attendance records yet"; marking her Present on 2024-01-10 shows
    a banner naming Present and the date, lists exactly that record, and
    the summary is {1, 1, 0}. *)
Example spec_scenario :
  (exists we, employees_after = Some we /\ Employees.employees (Employees.page we) = [asha]) /\
  (exists wa, attendance_from employees_after select_asha = Some wa /\
     Attendance.records_view (Attendance.page wa) =
       Attendance.RecsEmpty "No attendance records yet" "Mark attendance above to get started") /\
  (exists wm, attendance_from employees_after (select_asha ++ mark_asha) = Some wm /\
     includes (Attendance.success (Attendance.page wm)) "Present" = true /\
     includes (Attendance.success (Attendance.page wm)) "2024-01-10" = true /\
     Attendance.records (Attendance.page wm) = [AttendanceRecord.mk 0 "EMP001" "2024-01-10" Present] /\
     Attendance.summary (Attendance.page wm) = Some (Summary.mk 1 1 0)).
Proof. vm_compute. split_and!; eexists; split_and!; reflexivity. Qed.
